(** * HALLYUSTORE: Bunjang -> Shopify catalog and order reconciliation

    A shallow embedding of the reconciliation core of the repository
    (price calculation, catalog row normalisation, product sync, the
    Shopify retry loop and the order service) together with the
    properties of the natural-language specification.

    JavaScript numbers are IEEE 754 binary64 values.  They are modelled
    by [spec_float] with the operations of the Standard Library's
    [SpecFloat] at precision 53 and maximal exponent 1024, so every
    arithmetic step below rounds exactly as the JavaScript engine does.
    Strings are sequences of 8-bit characters; the case conversions and
    the white space of [trim] are the ASCII ones. *)

From Stdlib Require Import ZArith QArith Qabs List String Ascii Bool Lia.
From Stdlib Require Import SpecFloat.
From Stdlib Require Import DecimalString DecimalZ DecimalN DecimalNat.
From stdpp Require Import base option gmap strings.
Import ListNotations.
Open Scope string_scope.
Open Scope Z_scope.

(** ** The JavaScript runtime: numbers, strings, dates *)

Module JS.

Definition number := spec_float.
Definition prec : Z := 53.
Definition emax : Z := 1024.

Definition NaN : number := S754_nan.
Definition Infinity : number := S754_infinity false.

Definition mul : number -> number -> number := SFmul prec emax.
Definition add : number -> number -> number := SFadd prec emax.
Definition sub : number -> number -> number := SFsub prec emax.
Definition div : number -> number -> number := SFdiv prec emax.
Definition ltb : number -> number -> bool := SFltb.
Definition leb : number -> number -> bool := SFleb.
Definition eqb : number -> number -> bool := SFeqb.
(* x > y and x >= y are y < x and y <= x; all four are false on NaN *)
Definition gtb (x y : number) : bool := SFltb y x.
Definition geb (x y : number) : bool := SFleb y x.

Definition isNaN (x : number) : bool :=
  match x with S754_nan => true | _ => false end.

Definition is_finite (x : number) : bool :=
  match x with S754_finite _ _ _ | S754_zero _ => true | _ => false end.

(** The binary64 value nearest to [(-1)^neg * d * 10^k], ties to even:
    the value of a decimal literal. *)
Definition of_decimal (neg : bool) (d : Z) (k : Z) : number :=
  match d with
  | Zpos p =>
      match k with
      | Zneg k' =>
          let '(q, e, l) :=
            SFdiv_core_binary prec emax (Zpos p) 0 (Zpos (10 ^ k')) 0 in
          binary_round_aux prec emax neg q e l
      | _ => binary_round prec emax neg (Z.to_pos (Zpos p * 10 ^ k)) 0
      end
  | _ => S754_zero neg
  end.

Definition of_Z (n : Z) : number := of_decimal (n <? 0) (Z.abs n) 0.

(** *** Number::toString and Number.prototype.toFixed *)

Definition digits (n : Z) : string :=
  NilEmpty.string_of_uint (N.to_uint (Z.to_N n)).

Fixpoint zeros (n : nat) : string :=
  match n with O => "" | S n' => String "0" (zeros n') end.

(* floor (m * 2^e / 10^j), and the remainder compared with one half *)
Definition scaled (m : positive) (e j : Z) : Z * comparison :=
  let num := Zpos m * 2 ^ Z.max e 0 * 10 ^ Z.max (- j) 0 in
  let den := 2 ^ Z.max (- e) 0 * 10 ^ Z.max j 0 in
  (num / den, (2 * (num mod den)) ?= den).

Definition same_finite (m : positive) (e : Z) (y : number) : bool :=
  match y with
  | S754_finite false m' e' => Pos.eqb m m' && Z.eqb e e'
  | _ => false
  end.

(* a k-digit s with F(s * 10^(n-k)) = m * 2^e, the one nearest to the
   value when two exist *)
Definition candidate (m : positive) (e : Z) (k n : Z) : option Z :=
  let '(lo, half) := scaled m e (n - k) in
  let ok c :=
    (10 ^ (k - 1) <=? c) && (c <? 10 ^ k)
    && same_finite m e (of_decimal false c (n - k)) in
  match ok lo, ok (lo + 1) with
  | true, true =>
      match half with
      | Lt => Some lo
      | Gt => Some (lo + 1)
      | Eq => Some (if Z.even lo then lo else lo + 1)
      end
  | true, false => Some lo
  | false, true => Some (lo + 1)
  | false, false => None
  end.

Fixpoint first_some {A B} (f : A -> option B) (l : list A) : option B :=
  match l with
  | [] => None
  | a :: l' =>
      match f a with Some b => Some b | None => first_some f l' end
  end.

(* Number::toString, step 5: n, k and s with k as small as possible *)
Definition shortest (m : positive) (e : Z) : option (Z * Z * Z) :=
  let n0 := (Z.log2 (Zpos m) + e) * 30103 / 100000 in
  first_some (fun k =>
    first_some (fun d =>
      let n := n0 + d in
      match candidate m e k n with
      | Some s => Some (s, n, k)
      | None => None
      end) [-1; 0; 1; 2; 3])
    [1; 2; 3; 4; 5; 6; 7; 8; 9; 10; 11; 12; 13; 14; 15; 16; 17].

Definition sign_prefix (s : bool) : string := if s then "-" else "".

Definition Number_toString (x : number) : string :=
  match x with
  | S754_nan => "NaN"
  | S754_zero _ => "0"
  | S754_infinity s => sign_prefix s ++ "Infinity"
  | S754_finite s m e =>
      sign_prefix s ++
      match shortest m e with
      | Some (sd, n, k) =>
          let ds := digits sd in
          if (k <=? n) && (n <=? 21) then ds ++ zeros (Z.to_nat (n - k))
          else if (0 <? n) && (n <=? 21) then
            substring 0 (Z.to_nat n) ds ++ "."
            ++ substring (Z.to_nat n) (Z.to_nat (k - n)) ds
          else if (-6 <? n) && (n <=? 0) then
            "0." ++ zeros (Z.to_nat (- n)) ++ ds
          else
            let es :=
              (if n - 1 <? 0 then "-" else "+") ++ digits (Z.abs (n - 1)) in
            if k =? 1 then ds ++ "e" ++ es
            else substring 0 1 ds ++ "."
                 ++ substring 1 (Z.to_nat (k - 1)) ds ++ "e" ++ es
      | None => "NaN"
      end
  end.

(* toFixed, step 9.a: the integer n for which n / 10^f - x is as close
   to zero as possible, the larger n when there are two; x = m * 2^e *)
Definition toFixed_n (m : positive) (e : Z) (f : nat) : Z :=
  let p := 10 ^ Z.of_nat f in
  match e with
  | Zneg e' => (2 * Zpos m * p + 2 ^ Zpos e') / (2 * 2 ^ Zpos e')
  | _ => Zpos m * 2 ^ e * p
  end.

(* toFixed, step 8: x >= 10^21 *)
Definition ge_1e21 (m : positive) (e : Z) : bool :=
  match e with
  | Zneg e' => 10 ^ 21 * 2 ^ Zpos e' <=? Zpos m
  | _ => 10 ^ 21 <=? Zpos m * 2 ^ e
  end.

(* toFixed, steps 9.b-9.c: the digits of n with a decimal point before
   the last f of them *)
Definition fixed_digits (n : Z) (f : nat) : string :=
  let m := digits n in
  match f with
  | O => m
  | _ =>
      let k := String.length m in
      let m' := if (k <=? f)%nat then zeros (f + 1 - k) ++ m else m in
      let k' := String.length m' in
      substring 0 (k' - f) m' ++ "." ++ substring (k' - f) f m'
  end.

Definition toFixed (x : number) (f : nat) : string :=
  match x with
  | S754_finite s m e =>
      if ge_1e21 m e then Number_toString x
      else sign_prefix s ++ fixed_digits (toFixed_n m e f) f
  | S754_zero _ => fixed_digits 0 f
  | _ => Number_toString x
  end.

(** *** Math.max, Math.round, Math.pow(2, n) *)

Definition Math_max (a b : number) : number :=
  if isNaN a || isNaN b then NaN
  else if ltb a b then b
  else if ltb b a then a
  else match a with S754_zero true => b | _ => a end.

(* floor (x + 1/2) on the exact value; -0 for x in [-0.5, -0] *)
Definition Math_round (x : number) : number :=
  match x with
  | S754_finite s m (Zneg e') =>
      let sm := if s then Zneg m else Zpos m in
      let r := (2 * sm + 2 ^ Zpos e') / (2 * 2 ^ Zpos e') in
      if r =? 0 then S754_zero s else of_Z r
  | _ => x
  end.

Definition Math_pow2 (n : nat) : number := of_Z (2 ^ Z.of_nat n).

(** *** Strings *)

Definition is_whitespace (c : ascii) : bool :=
  let n := nat_of_ascii c in
  ((9 <=? n) && (n <=? 13))%nat || (n =? 32)%nat.

Fixpoint trimStart (s : string) : string :=
  match s with
  | String c s' => if is_whitespace c then trimStart s' else s
  | EmptyString => EmptyString
  end.

Fixpoint trimEnd (s : string) : string :=
  match s with
  | String c s' =>
      match trimEnd s' with
      | EmptyString => if is_whitespace c then EmptyString else String c EmptyString
      | t => String c t
      end
  | EmptyString => EmptyString
  end.

Definition trim (s : string) : string := trimEnd (trimStart s).

Definition upper_char (c : ascii) : ascii :=
  let n := nat_of_ascii c in
  if ((97 <=? n) && (n <=? 122))%nat then ascii_of_nat (n - 32) else c.

Definition lower_char (c : ascii) : ascii :=
  let n := nat_of_ascii c in
  if ((65 <=? n) && (n <=? 90))%nat then ascii_of_nat (n + 32) else c.

Fixpoint map_string (f : ascii -> ascii) (s : string) : string :=
  match s with
  | String c s' => String (f c) (map_string f s')
  | EmptyString => EmptyString
  end.

Definition toUpperCase : string -> string := map_string upper_char.
Definition toLowerCase : string -> string := map_string lower_char.

Definition startsWith (s p : string) : bool := String.prefix p s.

Fixpoint includes (s sub : string) : bool :=
  String.prefix sub s
  || match s with
     | String _ s' => includes s' sub
     | EmptyString => false
     end.

Definition endsWith (s suffix : string) : bool :=
  let n := String.length s in
  let k := String.length suffix in
  (k <=? n)%nat && String.eqb (substring (n - k) k s) suffix.

(* s.replace(pat, rep) for a string pattern: the first occurrence *)
Fixpoint replace_first (s pat rep : string) : string :=
  if String.prefix pat s then
    rep ++ substring (String.length pat) (String.length s - String.length pat) s
  else
    match s with
    | String c s' => String c (replace_first s' pat rep)
    | EmptyString => EmptyString
    end.

(* s.split(sep) for a one-character separator *)
Fixpoint split (sep : ascii) (s : string) : list string :=
  match s with
  | EmptyString => [EmptyString]
  | String c s' =>
      if Ascii.eqb c sep then EmptyString :: split sep s'
      else
        match split sep s' with
        | t :: ts => String c t :: ts
        | [] => [String c EmptyString]
        end
  end.

(* a string is truthy when it is not empty; undefined is falsy *)
Definition truthy (s : string) : bool := negb (String.eqb s "").

Definition truthy_opt (o : option string) : bool :=
  match o with Some s => truthy s | None => false end.

Definition is_some {A} (o : option A) : bool :=
  match o with Some _ => true | None => false end.

(* o || d, for a string or undefined o *)
Definition or_else (o : option string) (d : string) : string :=
  match o with Some s => if truthy s then s else d | None => d end.

(* a string that is there and not empty *)
Definition nonempty_opt (o : option string) : option string :=
  match o with
  | Some s => if truthy s then Some s else None
  | None => None
  end.

(* ToString of a string or undefined *)
Definition ToString_opt (o : option string) : string :=
  match o with Some s => s | None => "undefined" end.

(** *** parseInt(string, 10) and parseFloat(string) *)

Definition digit_val (c : ascii) : option Z :=
  let n := nat_of_ascii c in
  if ((48 <=? n) && (n <=? 57))%nat then Some (Z.of_nat (n - 48)) else None.

(* the longest prefix of decimal digits: its value when read after acc,
   how many digits it has, and the rest of the string *)
Fixpoint read_digits (s : string) (acc : Z) (len : nat) : Z * nat * string :=
  match s with
  | String c s' =>
      match digit_val c with
      | Some d => read_digits s' (10 * acc + d) (S len)
      | None => (acc, len, s)
      end
  | EmptyString => (acc, len, s)
  end.

Definition read_sign (s : string) : bool * string :=
  match s with
  | String "-" s' => (true, s')
  | String "+" s' => (false, s')
  | _ => (false, s)
  end.

Definition parseInt (input : string) : number :=
  let '(neg, s) := read_sign (trimStart input) in
  let '(n, len, _) := read_digits s 0 O in
  match len with
  | O => NaN
  | _ => of_decimal neg n 0
  end.

(* the exponent part e[+-]digits, when at least one digit follows *)
Definition read_exponent (s : string) : Z :=
  match s with
  | String c s' =>
      if Ascii.eqb c "e" || Ascii.eqb c "E" then
        let '(neg, s'') := read_sign s' in
        let '(x, len, _) := read_digits s'' 0 O in
        match len with
        | O => 0
        | _ => if neg then - x else x
        end
      else 0
  | EmptyString => 0
  end.

Definition parseFloat (input : string) : number :=
  let '(neg, s) := read_sign (trimStart input) in
  if String.prefix "Infinity" s then S754_infinity neg
  else
    let '(i, ilen, s1) := read_digits s 0 O in
    let '(m, flen, s2) :=
      match s1 with
      | String "." s1' => read_digits s1' i O
      | _ => (i, O, s1)
      end in
    match ilen, flen with
    | O, O => NaN
    | _, _ => of_decimal neg m (read_exponent s2 - Z.of_nat flen)
    end.

(** *** Date

    The time value of [new Date(string)], [None] for an Invalid Date.
    The forms below are the ones of the ECMAScript date-time string
    format whose value does not depend on the local time zone; what an
    engine does with any other string is implementation-defined and is
    left to the engine, and so is the URL parser. *)

Record engine := {
  Date_parse_legacy : string -> option Z;
  (* new URL(string): hostname and pathname, None when it throws *)
  URL_parse : string -> option (string * string);
}.

Definition is_leap (y : Z) : bool :=
  ((y mod 4 =? 0) && negb (y mod 100 =? 0)) || (y mod 400 =? 0).

Definition days_in_month (y m : Z) : Z :=
  if m =? 2 then (if is_leap y then 29 else 28)
  else if (m =? 4) || (m =? 6) || (m =? 9) || (m =? 11) then 30
  else 31.

(* days from 1970-01-01 to the civil date y-m-d *)
Definition days_from_civil (y m d : Z) : Z :=
  let y' := if m <=? 2 then y - 1 else y in
  let era := y' / 400 in
  let yoe := y' - era * 400 in
  let doy := (153 * (if 2 <? m then m - 3 else m + 9) + 2) / 5 + d - 1 in
  let doe := yoe * 365 + yoe / 4 - yoe / 100 + doy in
  era * 146097 + doe - 719468.

(* exactly n decimal digits *)
Definition fixed_field (s : string) (pos n : nat) : option Z :=
  let '(v, len, _) := read_digits (substring pos n s) 0 O in
  if (len =? n)%nat then Some v else None.

Definition char_at (s : string) (pos : nat) (c : string) : bool :=
  String.eqb (substring pos 1 s) c.

Definition iso_date (s : string) : option Z :=
  match fixed_field s 0 4, fixed_field s 5 2, fixed_field s 8 2 with
  | Some y, Some m, Some d =>
      if char_at s 4 "-" && char_at s 7 "-"
         && (1 <=? m) && (m <=? 12) && (1 <=? d) && (d <=? days_in_month y m)
      then Some (days_from_civil y m d) else None
  | _, _, _ => None
  end.

Definition iso_time (s : string) : option Z :=
  match fixed_field s 11 2, fixed_field s 14 2, fixed_field s 17 2 with
  | Some h, Some mi, Some sec =>
      if char_at s 10 "T" && char_at s 13 ":" && char_at s 16 ":"
         && (h <=? 23) && (mi <=? 59) && (sec <=? 59)
      then Some ((h * 60 + mi) * 60 + sec) else None
  | _, _, _ => None
  end.

Definition Date_parse (en : engine) (s : string) : option Z :=
  let legacy := Date_parse_legacy en s in
  match String.length s with
  | 10%nat =>
      match iso_date s with
      | Some days => Some (days * 86400000)
      | None => legacy
      end
  | 20%nat =>
      match iso_date s, iso_time s with
      | Some days, Some secs =>
          if char_at s 19 "Z" then Some (days * 86400000 + secs * 1000)
          else legacy
      | _, _ => legacy
      end
  | 24%nat =>
      match iso_date s, iso_time s, fixed_field s 20 3 with
      | Some days, Some secs, Some ms =>
          if char_at s 19 "." && char_at s 23 "Z"
          then Some (days * 86400000 + secs * 1000 + ms)
          else legacy
      | _, _, _ => legacy
      end
  | _ => legacy
  end.

End JS.

(** ** Exceptions and results *)

Module Err.

(* utils/customErrors is not part of the sources at hand; [instanceof_AppError]
   records the usual convention that the custom classes extend AppError. *)
Inductive error_class :=
  | GraphqlQueryError
  | ExternalServiceError
  | AppError
  | ValidationError
  | PlainError.

Record userError := { ue_field : option (list string); ue_message : string }.

Record exn := {
  cls : error_class;
  message : string;
  errorCode : string;
  statusCode : option Z;             (* error.response?.statusCode *)
  retryAfter : option string;        (* response header retry-after *)
  userErrors : list userError;
  networkError : bool;
  stack : option string;
}.

Definition mk (c : error_class) (msg code : string) : exn :=
  {| cls := c; message := msg; errorCode := code; statusCode := None;
     retryAfter := None; userErrors := []; networkError := false;
     stack := None |}.

Definition instanceof_AppError (e : exn) : bool :=
  match cls e with
  | AppError | ValidationError | ExternalServiceError => true
  | _ => false
  end.

Inductive outcome (A : Type) :=
  | Return (a : A)
  | Throw (e : exn).
Arguments Return {A} a.
Arguments Throw {A} e.

End Err.
Import Err.

(** ** Effects: a state and exception monad

    An awaited call either returns or throws; the state carries what
    the code can change and the log of the calls made so far. *)

Module Eff.

Definition M (S A : Type) := S -> outcome A * S.

Definition ret {S A} (a : A) : M S A := fun s => (Return a, s).

Definition throw {S A} (e : exn) : M S A := fun s => (Throw e, s).

Definition bind {S A B} (m : M S A) (k : A -> M S B) : M S B :=
  fun s =>
    match m s with
    | (Return a, s') => k a s'
    | (Throw e, s') => (Throw e, s')
    end.

(* try { m } catch (e) { h e } *)
Definition try_catch {S A} (m : M S A) (h : exn -> M S A) : M S A :=
  fun s =>
    match m s with
    | (Throw e, s') => h e s'
    | r => r
    end.

(* what Promise.allSettled reports for one promise *)
Inductive settled (A : Type) :=
  | fulfilled (value : A)
  | rejected (reason : exn).
Arguments fulfilled {A} value.
Arguments rejected {A} reason.

Definition settle {S A} (m : M S A) : M S (settled A) :=
  fun s =>
    match m s with
    | (Return a, s') => (Return (fulfilled a), s')
    | (Throw e, s') => (Return (rejected e), s')
    end.

End Eff.

Declare Scope eff_scope.
Delimit Scope eff_scope with eff.
Notation "x <- m ;; k" := (Eff.bind m (fun x => k))
  (at level 100, m at next level, right associativity) : eff_scope.
Notation "m ;;; k" := (Eff.bind m (fun _ => k))
  (at level 100, right associativity) : eff_scope.

(** ** services/priceCalculationService.js *)

Module PriceCalculation.

Record config := {
  markupPercentage : JS.number;     (* config.priceCalculation.markupPercentage *)
  handlingFeeUsd : JS.number;       (* config.priceCalculation.handlingFeeUsd *)
}.

Definition zero : JS.number := JS.of_Z 0.

Definition convertKrwToUsd (krwAmount krwToUsdRate : JS.number)
  : outcome JS.number :=
  if JS.isNaN krwAmount || JS.ltb krwAmount zero then
    Throw (Err.mk ValidationError
             "KRW 금액은 0 이상의 숫자여야 합니다." "VALIDATION_ERROR")
  else if JS.isNaN krwToUsdRate || JS.leb krwToUsdRate zero then
    Throw (Err.mk AppError
             "KRW-USD 환율이 유효하지 않습니다." "INVALID_EXCHANGE_RATE_INTERNAL")
  else Return (JS.mul krwAmount krwToUsdRate).

(* [getKrwToUsdRate] is the awaited call to the exchange-rate service *)
Definition calculateShopifyPriceUsd {S} (cfg : config)
    (getKrwToUsdRate : Eff.M S JS.number) (bunjangPriceKrw : JS.number)
  : Eff.M S string :=
  if JS.isNaN bunjangPriceKrw || JS.ltb bunjangPriceKrw zero then
    Eff.throw (Err.mk ValidationError
                 "번개장터 상품 가격(KRW)은 0 이상의 숫자여야 합니다."
                 "VALIDATION_ERROR")
  else
    (krwToUsdRate <-
       Eff.try_catch getKrwToUsdRate (fun rateError =>
         Eff.throw (Err.mk AppError
           ("가격 계산에 필요한 환율 정보를 가져올 수 없습니다. (원인: "
            ++ message rateError ++ ")")
           "EXCHANGE_RATE_UNAVAILABLE_FOR_PRICE_CALC")) ;;
     match convertKrwToUsd bunjangPriceKrw krwToUsdRate with
     | Throw e => Eff.throw e
     | Return priceInUsdBeforeMarkup =>
         let markupRatio := JS.div (markupPercentage cfg) (JS.of_Z 100) in
         let priceAfterMarkup :=
           JS.mul priceInUsdBeforeMarkup (JS.add (JS.of_Z 1) markupRatio) in
         let finalPriceUsd := JS.add priceAfterMarkup (handlingFeeUsd cfg) in
         Eff.ret (JS.toFixed finalPriceUsd 2)
     end)%eff.

(* the double the listing price is rendered from (lines 54-62) *)
Definition finalPriceUsd (cfg : config) (krw rate : JS.number) : JS.number :=
  JS.add (JS.mul (JS.mul krw rate)
            (JS.add (JS.of_Z 1) (JS.div (markupPercentage cfg) (JS.of_Z 100))))
         (handlingFeeUsd cfg).

End PriceCalculation.

(** ** services/catalogService.js: rows and their transformation *)

Module Catalog.

(* the parts of ../config the catalog service reads *)
Record config := {
  filterCategoryIds : list string;       (* config.bunjang.filterCategoryIds || [] *)
  kpopKeywords : list string;            (* config.bunjang.kpopKeywords || [] *)
  kidultKeywords : list string;          (* config.bunjang.kidultKeywords || [] *)
  defaultVendor : string;                (* "" when unset *)
  defaultShopifyProductType : string;    (* "" when unset *)
  defaultLocationId : option string;     (* config.shopify.defaultLocationId *)
  forceResyncAll : bool;                 (* config.forceResyncAll *)
  syncConcurrency : nat;                 (* config.bunjang?.syncConcurrency *)
  priceCalculation : PriceCalculation.config;
}.

(* a row of the CSV feed as csv-parser gives it: every column a string,
   undefined ([None]) when the file has no such column *)
Record row := {
  r_pid : option string;
  r_name : option string;
  r_description : option string;
  r_quantity : option string;
  r_price : option string;
  r_shippingFee : option string;
  r_shipppingFee : option string;
  r_condition : option string;
  r_saleStatus : option string;
  r_keywords : option string;
  r_images : option string;
  r_categoryId : option string;
  r_category_name : option string;
  r_categoryName : option string;
  r_brandId : option string;
  r_options : option string;
  r_uid : option string;
  r_updatedAt : option string;
  r_createdAt : option string;
}.

Record product := {
  pid : string;
  name : string;
  description : string;
  quantity : JS.number;
  price : JS.number;
  shippingFee : JS.number;
  condition : string;
  saleStatus : string;
  keywords : list string;
  images : option string;
  categoryId : string;
  categoryName : string;
  brandId : string;
  optionsRaw : option string;
  uid : string;
  updatedAtString : option string;
  createdAtString : option string;
  updatedAt : option Z;      (* a valid Date's time value; None: null or undefined *)
  createdAt : option Z;
}.

(* lines 154-164: a Date per non-empty string; both dates become null as
   soon as one of the strings present does not parse *)
Definition parse_row_dates (en : JS.engine) (us cs : option string)
  : option Z * option Z :=
  let date_of (o : option string) : option (option Z) :=
    if JS.truthy_opt o then Some (JS.Date_parse en (JS.ToString_opt o)) else None in
  let invalid (d : option (option Z)) : bool :=
    match d with Some None => true | _ => false end in
  let value (d : option (option Z)) : option Z :=
    match d with Some t => t | None => None end in
  if invalid (date_of us) || invalid (date_of cs) then (None, None)
  else (value (date_of us), value (date_of cs)).

(* lines 134-164: the product object built from the row *)
Definition buildProduct (en : JS.engine) (r : row) : product :=
  let '(updated, created) := parse_row_dates en (r_updatedAt r) (r_createdAt r) in
  {|
    pid := JS.trim (JS.or_else (r_pid r) "");
    name := JS.trim (JS.or_else (r_name r) "");
    description := JS.trim (JS.or_else (r_description r) "");
    quantity := JS.parseInt (JS.ToString_opt (r_quantity r));
    price := JS.parseFloat (JS.ToString_opt (r_price r));
    shippingFee :=
      JS.parseFloat (JS.or_else (r_shippingFee r) (JS.or_else (r_shipppingFee r) "0"));
    condition := JS.toUpperCase (JS.trim (JS.or_else (r_condition r) "USED"));
    saleStatus := JS.toUpperCase (JS.trim (JS.or_else (r_saleStatus r) ""));
    keywords :=
      if JS.truthy_opt (r_keywords r) then
        filter (fun k => JS.truthy k)
          (map JS.trim (JS.split "," (JS.ToString_opt (r_keywords r))))
      else [];
    images := r_images r;
    categoryId := JS.trim (JS.or_else (r_categoryId r) "");
    categoryName :=
      JS.trim (JS.or_else (r_category_name r) (JS.or_else (r_categoryName r) ""));
    brandId := JS.trim (JS.or_else (r_brandId r) "");
    optionsRaw := r_options r;
    uid := JS.trim (JS.or_else (r_uid r) "");
    updatedAtString := r_updatedAt r;
    createdAtString := r_createdAt r;
    updatedAt := updated;
    createdAt := created;
  |}.

(* lines 166-183 *)
Definition processCatalogRow (en : JS.engine) (cfg : config) (r : row)
  : option product :=
  let product := buildProduct en r in
  if negb (String.eqb (saleStatus product) "SELLING") then None
  else if negb (JS.truthy (pid product)) || negb (JS.truthy (name product))
          || JS.isNaN (price product) || negb (JS.is_some (updatedAt product))
  then None
  else if (0 <? length (filterCategoryIds cfg))%nat
          && JS.truthy (categoryId product)
          && negb (existsb (String.eqb (categoryId product)) (filterCategoryIds cfg))
  then None
  else if JS.ltb (price product) PriceCalculation.zero
          || (negb (JS.isNaN (quantity product))
              && JS.ltb (quantity product) PriceCalculation.zero)
  then None
  else Some product.

Inductive inventoryPolicy := DENY | CONTINUE.

Record productInput := {
  title : string;
  descriptionHtml : string;
  vendor : string;
  productType : string;
  tags : list string;
  status : string;
  publishedAt : string;
}.

Record variantData := {
  v_price : string;
  v_sku : string;
  v_inventoryPolicy : inventoryPolicy;
}.

Record inventoryInfo := {
  i_quantity : JS.number;
  i_locationId : option string;
}.

Record transformResult := {
  t_productInput : productInput;
  t_variantData : variantData;
  t_inventoryInfo : inventoryInfo;
}.

(* [...new Set(tags)]: the first occurrence of each tag, in order *)
Fixpoint dedup (seen l : list string) : list string :=
  match l with
  | [] => []
  | t :: l' =>
      if existsb (String.eqb t) seen then dedup seen l'
      else t :: dedup (t :: seen) l'
  end.

Definition keyword_hit (kws : list string) (titleLower descriptionLower categoryLower : string)
  : bool :=
  (0 <? length kws)%nat
  && existsb (fun keyword =>
       JS.includes titleLower keyword || JS.includes descriptionLower keyword
       || JS.includes categoryLower keyword) kws.

(* parseInt(bunjangProduct.quantity, 10): the number is first turned
   into a string *)
Definition variantQuantity (bunjangProduct : product) : JS.number :=
  let q := JS.parseInt (JS.Number_toString (quantity bunjangProduct)) in
  if negb (JS.isNaN q) then JS.Math_max PriceCalculation.zero q
  else PriceCalculation.zero.

(* [nowIso] is new Date().toISOString().  The function has no path that
   returns null; the option is what its caller tests. *)
Definition transformBunjangRowToShopifyInput (cfg : config) (nowIso : string)
    (bunjangProduct : product) (shopifyPriceUsd : string) : option transformResult :=
  let tags0 := ["bunjang_import"; "bunjang_pid:" ++ pid bunjangProduct] in
  let titleLower := JS.toLowerCase (name bunjangProduct) in
  let descriptionLower := JS.toLowerCase (description bunjangProduct) in
  let categoryLower := JS.toLowerCase (categoryName bunjangProduct) in
  let tags1 :=
    if keyword_hit (kpopKeywords cfg) titleLower descriptionLower categoryLower
    then (tags0 ++ ["K-Pop"])%list else tags0 in
  let tags2 :=
    if keyword_hit (kidultKeywords cfg) titleLower descriptionLower categoryLower
    then (tags1 ++ ["Kidult"])%list else tags1 in
  let variantQuantity := variantQuantity bunjangProduct in
  let variantData := {|
    v_price := shopifyPriceUsd;
    v_sku := "BJ-" ++ pid bunjangProduct;
    v_inventoryPolicy :=
      if JS.gtb variantQuantity PriceCalculation.zero then DENY else CONTINUE;
  |} in
  let inventoryInfo := {|
    i_quantity := variantQuantity;
    i_locationId := defaultLocationId cfg;
  |} in
  let productInput := {|
    title := name bunjangProduct;
    descriptionHtml :=
      if JS.truthy (description bunjangProduct) then description bunjangProduct
      else "Imported from Bunjang. Product ID: " ++ pid bunjangProduct;
    vendor :=
      if JS.truthy (defaultVendor cfg) then defaultVendor cfg else "BunjangImport";
    productType :=
      if JS.truthy (categoryName bunjangProduct) then categoryName bunjangProduct
      else if JS.truthy (defaultShopifyProductType cfg)
           then defaultShopifyProductType cfg
           else "Uncategorized";
    tags := dedup [] tags2;
    status := "ACTIVE";
    publishedAt := nowIso;
  |} in
  Some {| t_productInput := productInput;
          t_variantData := variantData;
          t_inventoryInfo := inventoryInfo |}.

End Catalog.

(** ** services/catalogService.js: syncing one product, and the batch *)

Module Sync.
Import Catalog.
Local Open Scope eff_scope.

Definition BUNJANG_COLLECTION_GID : string := "gid://shopify/Collection/445888299257".

Inductive syncStatus := PENDING | SYNCED | ERROR | SKIPPED_FILTER.

Definition syncStatus_eqb (a b : syncStatus) : bool :=
  match a, b with
  | PENDING, PENDING | SYNCED, SYNCED | ERROR, ERROR
  | SKIPPED_FILTER, SKIPPED_FILTER => true
  | _, _ => false
  end.

(* a document of the SyncedProduct collection (models/syncedProduct.model
   is not part of the sources at hand: the fields are the ones written
   by this service) *)
Record SyncedDoc := {
  d_bunjangPid : string;
  d_createdAt : option Z;
  d_syncStatus : syncStatus;
  d_lastSyncAttemptAt : option Z;
  d_bunjangProductName : string;
  d_bunjangUpdatedAt : option Z;
  d_bunjangOriginalPriceKrw : JS.number;
  d_bunjangOriginalShippingFeeKrw : JS.number;
  d_syncAttemptCount : Z;
  d_syncSuccessCount : Z;
  d_shopifyGid : option string;
  d_shopifyProductId : option string;
  d_shopifyHandle : option string;
  d_lastSuccessfulSyncAt : option Z;
  d_syncErrorMessage : option string;
  d_syncErrorStackSample : option string;
  d_shopifyListedPriceUsd : option string;
}.

Record variantNode := {
  vn_id : string;
  vn_inventoryItemId : option string;     (* inventoryItem?.id *)
}.

Record productResult := {
  p_id : option string;                   (* shopifyApiResult?.id *)
  p_handle : option string;
}.

Record variantInfo := {
  vi_price : string;
  vi_sku : string;
  vi_inventoryPolicy : inventoryPolicy;
  vi_quantity : JS.number;
  vi_locationId : option string;
}.

Record mediaInput := {
  originalSource : string;
  mediaContentType : string;
  alt : string;
}.

(* the calls to the exchange-rate service and to shopifyService *)
Inductive call :=
  | FindProductByBunjangPidTag (bunjangPid : string)
  | GetKrwToUsdRate
  | QueryFirstVariant (productGid : string)
  | UpdateProduct (id : string) (input : productInput) (collection : string)
  | UpdateProductVariant (id : string) (v : variantData)
  | UpdateInventoryLevel (inventoryItemId locationId : string) (q : JS.number)
  | CreateProduct (input : productInput) (collection : string) (v : variantInfo)
  | AppendMediaToProduct (productId : string) (media : list mediaInput).

Inductive db_write :=
  | AttemptWrite
  | OutcomeWrite (s : syncStatus).

Inductive event :=
  | DbFindOne (bunjangPid : string)
  | DbUpdateOne (bunjangPid : string) (w : db_write)
  | DbFailure (bunjangPid : string)
  | Remote (c : call).

(* What the outside world answers, given the calls made so far.
   [queryFirstVariant] is the node the caller digs out of the getProduct
   response (edges[0]?.node with an id), or nothing. *)
Record services := {
  clock : list event -> Z;                                  (* new Date() *)
  nowIso : list event -> string;                            (* new Date().toISOString() *)
  dbFault : list event -> option exn;
  findProductByBunjangPidTag : list event -> string -> outcome (option string);
  getKrwToUsdRate : list event -> outcome JS.number;
  queryFirstVariant : list event -> string -> outcome (option variantNode);
  updateProduct : list event -> string -> productInput -> outcome (option productResult);
  updateProductVariant : list event -> string -> variantData -> outcome unit;
  updateInventoryLevel : list event -> string -> string -> JS.number -> outcome unit;
  createProduct : list event -> productInput -> variantInfo -> outcome (option productResult);
  appendMediaToProduct : list event -> string -> list mediaInput -> outcome unit;
}.

Record world := {
  store : gmap string SyncedDoc;
  log : list event;
}.

Definition M := Eff.M world.

Definition emit (ev : event) (w : world) : world :=
  {| store := store w; log := (log w ++ [ev])%list |}.

(* an awaited call to a collaborator: its answer depends on the calls
   made before it *)
Definition remote {A} (c : call) (answer : list event -> outcome A) : M A :=
  fun w => (answer (log w), emit (Remote c) w).

(** *** The SyncedProduct collection *)

Definition db_findOne (sv : services) (bunjangPid : string) : M (option SyncedDoc) :=
  fun w =>
    match dbFault sv (log w) with
    | Some e => (Throw e, emit (DbFailure bunjangPid) w)
    | None => (Return (store w !! bunjangPid), emit (DbFindOne bunjangPid) w)
    end.

Definition db_updateOne (sv : services) (bunjangPid : string) (kind : db_write)
    (upsert : option SyncedDoc) (f : SyncedDoc -> SyncedDoc) : M unit :=
  fun w =>
    match dbFault sv (log w) with
    | Some e => (Throw e, emit (DbFailure bunjangPid) w)
    | None =>
        let st :=
          match store w !! bunjangPid, upsert with
          | Some d, _ => <[bunjangPid := f d]> (store w)
          | None, Some fresh => <[bunjangPid := f fresh]> (store w)
          | None, None => store w
          end in
        (Return tt, {| store := st; log := (log w ++ [DbUpdateOne bunjangPid kind])%list |})
    end.

(* the document an upsert inserts: $setOnInsert on top of empty fields *)
Definition inserted_doc (bunjangPid : string) (now : Z) : SyncedDoc := {|
  d_bunjangPid := bunjangPid;
  d_createdAt := Some now;
  d_syncStatus := PENDING;
  d_lastSyncAttemptAt := None;
  d_bunjangProductName := "";
  d_bunjangUpdatedAt := None;
  d_bunjangOriginalPriceKrw := PriceCalculation.zero;
  d_bunjangOriginalShippingFeeKrw := PriceCalculation.zero;
  d_syncAttemptCount := 0;
  d_syncSuccessCount := 0;
  d_shopifyGid := None;
  d_shopifyProductId := None;
  d_shopifyHandle := None;
  d_lastSuccessfulSyncAt := None;
  d_syncErrorMessage := None;
  d_syncErrorStackSample := None;
  d_shopifyListedPriceUsd := None;
|}.

(* lines 266-280: $set of the snapshot, $inc of the attempt counter *)
Definition set_attempt (now : Z) (p : product) (d : SyncedDoc) : SyncedDoc := {|
  d_bunjangPid := d_bunjangPid d;
  d_createdAt := d_createdAt d;
  d_syncStatus := d_syncStatus d;
  d_lastSyncAttemptAt := Some now;
  d_bunjangProductName := name p;
  d_bunjangUpdatedAt := updatedAt p;
  d_bunjangOriginalPriceKrw := price p;
  d_bunjangOriginalShippingFeeKrw := shippingFee p;
  d_syncAttemptCount := d_syncAttemptCount d + 1;
  d_syncSuccessCount := d_syncSuccessCount d;
  d_shopifyGid := d_shopifyGid d;
  d_shopifyProductId := d_shopifyProductId d;
  d_shopifyHandle := d_shopifyHandle d;
  d_lastSuccessfulSyncAt := d_lastSuccessfulSyncAt d;
  d_syncErrorMessage := d_syncErrorMessage d;
  d_syncErrorStackSample := d_syncErrorStackSample d;
  d_shopifyListedPriceUsd := d_shopifyListedPriceUsd d;
|}.

(* line 312 *)
Definition set_skipped_filter (now : Z) (p : product) (d : SyncedDoc) : SyncedDoc := {|
  d_bunjangPid := d_bunjangPid d;
  d_createdAt := d_createdAt d;
  d_syncStatus := SKIPPED_FILTER;
  d_lastSyncAttemptAt := Some now;
  d_bunjangProductName := d_bunjangProductName d;
  d_bunjangUpdatedAt := updatedAt p;
  d_bunjangOriginalPriceKrw := d_bunjangOriginalPriceKrw d;
  d_bunjangOriginalShippingFeeKrw := d_bunjangOriginalShippingFeeKrw d;
  d_syncAttemptCount := d_syncAttemptCount d;
  d_syncSuccessCount := d_syncSuccessCount d;
  d_shopifyGid := d_shopifyGid d;
  d_shopifyProductId := d_shopifyProductId d;
  d_shopifyHandle := d_shopifyHandle d;
  d_lastSuccessfulSyncAt := d_lastSuccessfulSyncAt d;
  d_syncErrorMessage := d_syncErrorMessage d;
  d_syncErrorStackSample := d_syncErrorStackSample d;
  d_shopifyListedPriceUsd := d_shopifyListedPriceUsd d;
|}.

(* x.split('/').pop() *)
Definition last_segment (s : string) : string := List.last (JS.split "/" s) "".

(* lines 544-558 *)
Definition set_synced (now : Z) (p : product) (productId : string)
    (handle : option string) (priceString : string) (d : SyncedDoc) : SyncedDoc := {|
  d_bunjangPid := d_bunjangPid d;
  d_createdAt := d_createdAt d;
  d_syncStatus := SYNCED;
  d_lastSyncAttemptAt := d_lastSyncAttemptAt d;
  d_bunjangProductName := d_bunjangProductName d;
  d_bunjangUpdatedAt := updatedAt p;
  d_bunjangOriginalPriceKrw := d_bunjangOriginalPriceKrw d;
  d_bunjangOriginalShippingFeeKrw := d_bunjangOriginalShippingFeeKrw d;
  d_syncAttemptCount := 0;
  d_syncSuccessCount := d_syncSuccessCount d + 1;
  d_shopifyGid := Some productId;
  d_shopifyProductId := Some (last_segment productId);
  d_shopifyHandle := handle;
  d_lastSuccessfulSyncAt := Some now;
  d_syncErrorMessage := None;
  d_syncErrorStackSample := None;
  d_shopifyListedPriceUsd := Some priceString;
|}.

(* lines 573-581 *)
Definition set_error (p : product) (errorMessage : string)
    (errorStackSample : option string) (gid : option string) (d : SyncedDoc)
  : SyncedDoc := {|
  d_bunjangPid := d_bunjangPid d;
  d_createdAt := d_createdAt d;
  d_syncStatus := ERROR;
  d_lastSyncAttemptAt := d_lastSyncAttemptAt d;
  d_bunjangProductName := d_bunjangProductName d;
  d_bunjangUpdatedAt := updatedAt p;
  d_bunjangOriginalPriceKrw := d_bunjangOriginalPriceKrw d;
  d_bunjangOriginalShippingFeeKrw := d_bunjangOriginalShippingFeeKrw d;
  d_syncAttemptCount := d_syncAttemptCount d;
  d_syncSuccessCount := d_syncSuccessCount d;
  d_shopifyGid := match gid with Some g => Some g | None => d_shopifyGid d end;
  d_shopifyProductId := d_shopifyProductId d;
  d_shopifyHandle := d_shopifyHandle d;
  d_lastSuccessfulSyncAt := d_lastSuccessfulSyncAt d;
  d_syncErrorMessage := Some (substring 0 1000 errorMessage);
  d_syncErrorStackSample := errorStackSample;
  d_shopifyListedPriceUsd := d_shopifyListedPriceUsd d;
|}.

(** *** Media *)

Definition bunjangDomains : list string :=
  ["media.bunjang.co.kr"; "img.bunjang.co.kr"; "img2.bunjang.co.kr"].

Definition imageExtensions : list string :=
  [".jpg"; ".jpeg"; ".png"; ".gif"; ".webp"; ".bmp"].

Definition knownCdns : list string :=
  ["cloudinary.com"; "imgix.net"; "amazonaws.com"; "googleusercontent.com"].

Definition processImageUrl (en : JS.engine) (url : string) : option string :=
  if negb (JS.truthy url) then None
  else
    let u0 := JS.trim url in
    let u1 :=
      if JS.startsWith u0 "http://" then JS.replace_first u0 "http://" "https://"
      else u0 in
    let processedUrl :=
      if JS.includes u1 "{res}" then JS.replace_first u1 "{res}" "856" else u1 in
    if negb (JS.startsWith processedUrl "https://") then None
    else
      match JS.URL_parse en processedUrl with
      | None => None
      | Some (hostname, pathname) =>
          if existsb (fun domain => JS.includes hostname domain) bunjangDomains
          then Some processedUrl
          else if existsb (fun ext => JS.endsWith (JS.toLowerCase pathname) ext)
                    imageExtensions
          then Some processedUrl
          else if existsb (fun cdn => JS.includes hostname cdn) knownCdns
          then Some processedUrl
          else None
      end.

(* lines 432-517; the images of a feed row are a string or undefined *)
Definition mediaInputsToAttach (en : JS.engine) (bunjangProduct : product)
  : list mediaInput :=
  let productNameForAlt :=
    if JS.truthy (name bunjangProduct) then substring 0 250 (name bunjangProduct)
    else "Product image" in
  match images bunjangProduct with
  | Some bunjangImageUrls =>
      if JS.truthy (JS.trim bunjangImageUrls) then
        map (fun url => {| originalSource := url; mediaContentType := "IMAGE";
                           alt := productNameForAlt |})
          (omap (fun url => processImageUrl en (JS.trim url))
             (JS.split "," bunjangImageUrls))
      else []
  | None => []
  end.

(** *** syncBunjangProductToShopify *)

Inductive resultStatus := success | skipped_filter | skipped_no_change | error.

Inductive operationType := create | update.

Record syncResult := {
  r_status : resultStatus;
  r_operation : option operationType;
  r_message : option string;
  r_shopifyGid : option string;
}.

Definition nonempty := JS.nonempty_opt.

(* lines 283-287 *)
Definition syncedAndNotNewer (cfg : config) (bunjangProduct : product)
    (syncedDoc : SyncedDoc) : bool :=
  syncStatus_eqb (d_syncStatus syncedDoc) SYNCED
  && match updatedAt bunjangProduct, d_bunjangUpdatedAt syncedDoc with
     | Some bunjangCatalogUpdatedAt, Some stored =>
         bunjangCatalogUpdatedAt <=? stored
     | _, _ => false
     end
  && negb (forceResyncAll cfg).

(* lines 564-569 *)
Definition errorMessageOf (e : exn) : string :=
  match userErrors e with
  | _ :: _ =>
      String.concat "; "
        (map (fun u =>
           "Field: "
           ++ (match ue_field u with
               | Some f =>
                   if JS.truthy (String.concat "," f) then String.concat "," f
                   else "N/A"
               | None => "N/A"
               end)
           ++ ", Msg: " ++ ue_message u) (userErrors e))
  | [] => if networkError e then "Network error: " ++ message e else message e
  end.

Definition now_ (sv : services) : M Z :=
  fun w => (Return (clock sv (log w)), w).

Definition nowIso_ (sv : services) : M string :=
  fun w => (Return (nowIso sv (log w)), w).

(* lines 322-399: the update of an existing Shopify product *)
Definition updateExisting (sv : services) (shopifyProductGid : string)
    (tr : transformResult) : M (option productResult) :=
  existingVariant <-
    Eff.try_catch
      (remote (QueryFirstVariant shopifyProductGid)
         (fun l => queryFirstVariant sv l shopifyProductGid))
      (fun _ => Eff.ret None) ;;
  shopifyApiResult <-
    remote (UpdateProduct shopifyProductGid (t_productInput tr) BUNJANG_COLLECTION_GID)
      (fun l => updateProduct sv l shopifyProductGid (t_productInput tr)) ;;
  match existingVariant with
  | Some v =>
      Eff.try_catch
        (remote (UpdateProductVariant (vn_id v) (t_variantData tr))
           (fun l => updateProductVariant sv l (vn_id v) (t_variantData tr)) ;;;
         match nonempty (vn_inventoryItemId v),
               nonempty (i_locationId (t_inventoryInfo tr)) with
         | Some item, Some loc =>
             if JS.geb (i_quantity (t_inventoryInfo tr)) PriceCalculation.zero then
               Eff.try_catch
                 (remote (UpdateInventoryLevel item loc (i_quantity (t_inventoryInfo tr)))
                    (fun l => updateInventoryLevel sv l item loc
                                (i_quantity (t_inventoryInfo tr))))
                 (fun _ => Eff.ret tt)
             else Eff.ret tt
         | _, _ => Eff.ret tt
         end)
        (fun _ => Eff.ret tt)
  | None => Eff.ret tt
  end ;;;
  Eff.ret shopifyApiResult.

(* lines 400-425 *)
Definition createNew (sv : services) (tr : transformResult)
  : M (option productResult) :=
  let variantInfo := {|
    vi_price := v_price (t_variantData tr);
    vi_sku := v_sku (t_variantData tr);
    vi_inventoryPolicy := v_inventoryPolicy (t_variantData tr);
    vi_quantity := i_quantity (t_inventoryInfo tr);
    vi_locationId := i_locationId (t_inventoryInfo tr);
  |} in
  remote (CreateProduct (t_productInput tr) BUNJANG_COLLECTION_GID variantInfo)
    (fun l => createProduct sv l (t_productInput tr) variantInfo).

(* lines 519-542 *)
Definition attachMedia (en : JS.engine) (sv : services) (bunjangProduct : product)
    (createdOrUpdatedProductId : string) : M unit :=
  let mediaInputsToAttach := mediaInputsToAttach en bunjangProduct in
  if (0 <? length mediaInputsToAttach)%nat then
    Eff.try_catch
      (remote (AppendMediaToProduct createdOrUpdatedProductId
                 (firstn 250 mediaInputsToAttach))
         (fun l => appendMediaToProduct sv l createdOrUpdatedProductId
                     (firstn 250 mediaInputsToAttach)))
      (fun _ => Eff.ret tt)
  else Eff.ret tt.

(* lines 306-561: the body of the try block *)
Definition syncBody (en : JS.engine) (cfg : config) (sv : services)
    (bunjangProduct : product) (now : Z) (shopifyProductGid : option string)
  : M syncResult :=
  let bunjangPid := pid bunjangProduct in
  shopifyPriceString <-
    PriceCalculation.calculateShopifyPriceUsd (priceCalculation cfg)
      (remote GetKrwToUsdRate (getKrwToUsdRate sv)) (price bunjangProduct) ;;
  iso <- nowIso_ sv ;;
  match transformBunjangRowToShopifyInput cfg iso bunjangProduct shopifyPriceString with
  | None =>
      db_updateOne sv bunjangPid (OutcomeWrite SKIPPED_FILTER) None
        (set_skipped_filter now bunjangProduct) ;;;
      Eff.ret {| r_status := skipped_filter; r_operation := None;
                 r_message := Some "Filtered out by transformation logic.";
                 r_shopifyGid := None |}
  | Some tr =>
      shopifyApiResult <-
        match shopifyProductGid with
        | Some gid => updateExisting sv gid tr
        | None => createNew sv tr
        end ;;
      match nonempty (shopifyApiResult ≫= p_id) with
      | None =>
          Eff.throw (Err.mk PlainError
            "Shopify API did not return a valid product ID after create/update."
            "Error")
      | Some createdOrUpdatedProductId =>
          attachMedia en sv bunjangProduct createdOrUpdatedProductId ;;;
          db_updateOne sv bunjangPid (OutcomeWrite SYNCED) None
            (set_synced now bunjangProduct createdOrUpdatedProductId
               (shopifyApiResult ≫= p_handle) shopifyPriceString) ;;;
          Eff.ret {| r_status := success;
                     r_operation :=
                       Some (if JS.is_some shopifyProductGid then update else create);
                     r_message := None;
                     r_shopifyGid := Some createdOrUpdatedProductId |}
      end
  end.

(* lines 563-583: the catch block *)
Definition syncCatch (sv : services) (bunjangProduct : product)
    (shopifyProductGid : option string) (e : exn) : M syncResult :=
  let errorMessage := errorMessageOf e in
  let errorStackSample := option_map (substring 0 1000) (nonempty (stack e)) in
  db_updateOne sv (pid bunjangProduct) (OutcomeWrite ERROR) None
    (set_error bunjangProduct errorMessage errorStackSample shopifyProductGid) ;;;
  Eff.ret {| r_status := error; r_operation := None;
             r_message := Some (substring 0 255 errorMessage);
             r_shopifyGid := shopifyProductGid |}.

(* lines 283-583: what follows the second read of the document *)
Definition syncAfterAttempt (en : JS.engine) (cfg : config) (sv : services)
    (bunjangProduct : product) (now : Z) (found : option SyncedDoc)
  : M syncResult :=
  let bunjangPid := pid bunjangProduct in
  match found with
  | None =>
      Eff.throw (Err.mk PlainError
        "Cannot read properties of null (reading 'syncStatus')" "TypeError")
  | Some syncedDoc =>
      if syncedAndNotNewer cfg bunjangProduct syncedDoc then
        Eff.ret {| r_status := skipped_no_change; r_operation := None;
                   r_message :=
                     Some "Already synced and no update in catalog based on bunjangUpdatedAt.";
                   r_shopifyGid := None |}
      else
        shopifyProductGid <-
          match nonempty (d_shopifyGid syncedDoc) with
          | Some gid => Eff.ret (Some gid)
          | None =>
              if JS.truthy bunjangPid then
                Eff.try_catch
                  (existing <-
                     remote (FindProductByBunjangPidTag bunjangPid)
                       (fun l => findProductByBunjangPidTag sv l bunjangPid) ;;
                   Eff.ret (nonempty existing))
                  (fun _ => Eff.ret None)
              else Eff.ret None
          end ;;
        Eff.try_catch
          (syncBody en cfg sv bunjangProduct now shopifyProductGid)
          (syncCatch sv bunjangProduct shopifyProductGid)
  end.

(* lines 257-584 *)
Definition syncBunjangProductToShopify (en : JS.engine) (cfg : config)
    (sv : services) (bunjangProduct : product) : M syncResult :=
  let bunjangPid := pid bunjangProduct in
  _ <- db_findOne sv bunjangPid ;;
  now <- now_ sv ;;
  db_updateOne sv bunjangPid AttemptWrite (Some (inserted_doc bunjangPid now))
    (set_attempt now bunjangProduct) ;;;
  found <- db_findOne sv bunjangPid ;;
  syncAfterAttempt en cfg sv bunjangProduct now found.

(** *** fetchAndProcessBunjangCatalog: the batch *)

Record summary := {
  filename : string;
  totalOriginalCsvRows : nat;
  validProductsToProcess : nat;
  successfullyProcessed : nat;
  errors : nat;
  skippedByFilter : nat;
  skippedNoChange : nat;
}.

Record counters := {
  c_successfullyProcessed : nat;
  c_errorCount : nat;
  c_skippedByFilterCount : nat;
  c_skippedNoChangeCount : nat;
}.

Definition no_counts : counters :=
  {| c_successfullyProcessed := 0; c_errorCount := 0;
     c_skippedByFilterCount := 0; c_skippedNoChangeCount := 0 |}.

(* lines 633-643: one settled result *)
Definition tally (c : counters) (result : Eff.settled syncResult) : counters :=
  match result with
  | Eff.fulfilled value =>
      match r_status value with
      | success =>
          {| c_successfullyProcessed := S (c_successfullyProcessed c);
             c_errorCount := c_errorCount c;
             c_skippedByFilterCount := c_skippedByFilterCount c;
             c_skippedNoChangeCount := c_skippedNoChangeCount c |}
      | skipped_filter =>
          {| c_successfullyProcessed := c_successfullyProcessed c;
             c_errorCount := c_errorCount c;
             c_skippedByFilterCount := S (c_skippedByFilterCount c);
             c_skippedNoChangeCount := c_skippedNoChangeCount c |}
      | skipped_no_change =>
          {| c_successfullyProcessed := c_successfullyProcessed c;
             c_errorCount := c_errorCount c;
             c_skippedByFilterCount := c_skippedByFilterCount c;
             c_skippedNoChangeCount := S (c_skippedNoChangeCount c) |}
      | error =>
          {| c_successfullyProcessed := c_successfullyProcessed c;
             c_errorCount := S (c_errorCount c);
             c_skippedByFilterCount := c_skippedByFilterCount c;
             c_skippedNoChangeCount := c_skippedNoChangeCount c |}
      end
  | Eff.rejected _ =>
      {| c_successfullyProcessed := c_successfullyProcessed c;
         c_errorCount := S (c_errorCount c);
         c_skippedByFilterCount := c_skippedByFilterCount c;
         c_skippedNoChangeCount := c_skippedNoChangeCount c |}
  end.

(* lines 624-627: slices of [concurrency] products; [fuel] bounds the
   number of slices *)
Fixpoint chunks_fuel {A} (fuel concurrency : nat) (l : list A) : list (list A) :=
  match fuel, l with
  | O, _ | _, [] => []
  | S fuel', _ =>
      firstn concurrency l :: chunks_fuel fuel' concurrency (skipn concurrency l)
  end.

Definition chunks {A} (concurrency : nat) (l : list A) : list (list A) :=
  chunks_fuel (length l) concurrency l.

(* Promise.allSettled(chunk.map(...)): every sync of the chunk settles
   and the results come in the order of the chunk.  The syncs of a
   chunk are run here one after the other. *)
Fixpoint allSettled {A} (ms : list (M A)) : M (list (Eff.settled A)) :=
  match ms with
  | [] => Eff.ret []
  | m :: ms' =>
      r <- Eff.settle m ;;
      rs <- allSettled ms' ;;
      Eff.ret (r :: rs)
  end.

Fixpoint processChunks (en : JS.engine) (cfg : config) (sv : services)
    (productChunks : list (list product)) (c : counters) : M counters :=
  match productChunks with
  | [] => Eff.ret c
  | chunk :: rest =>
      chunkResults <-
        allSettled (map (syncBunjangProductToShopify en cfg sv) chunk) ;;
      processChunks en cfg sv rest (fold_left tally chunkResults c)
  end.

(* lines 609-663, from the rows csv-parser read out of the downloaded
   file named [catalogFileNameGz] *)
Definition fetchAndProcessBunjangCatalog (en : JS.engine) (cfg : config)
    (sv : services) (catalogFileNameGz : string) (rows : list row) : M summary :=
  let bunjangProducts := omap (processCatalogRow en cfg) rows in
  let originalCsvRowCount := length rows in
  match bunjangProducts with
  | [] =>
      Eff.ret {| filename := catalogFileNameGz;
                 totalOriginalCsvRows := originalCsvRowCount;
                 validProductsToProcess := 0; successfullyProcessed := 0;
                 errors := 0; skippedByFilter := 0; skippedNoChange := 0 |}
  | _ =>
      let concurrency :=
        match syncConcurrency cfg with O => 1%nat | n => n end in
      c <- processChunks en cfg sv (chunks concurrency bunjangProducts) no_counts ;;
      Eff.ret {| filename := catalogFileNameGz;
                 totalOriginalCsvRows := originalCsvRowCount;
                 validProductsToProcess := length bunjangProducts;
                 successfullyProcessed := c_successfullyProcessed c;
                 errors := c_errorCount c;
                 skippedByFilter := c_skippedByFilterCount c;
                 skippedNoChange := c_skippedNoChangeCount c |}
  end.

End Sync.

(** ** services/shopifyService.js: shopifyGraphqlRequest, the retry loop *)

Module Retry.
Local Open Scope eff_scope.

Record config := {
  MAX_SHOPIFY_RETRIES : Z;                    (* parseInt(env) || 3 *)
  INITIAL_SHOPIFY_RETRY_DELAY_MS : JS.number; (* parseInt(env) || 2000 *)
}.

Definition JITTER_FACTOR : JS.number := JS.of_decimal false 3 (-1).

(* response.body *)
Record body := {
  b_errors : list string;
  b_data : option string;
}.

Inductive event :=
  | Query (attempt : nat)                     (* client.query, attempt counted from 0 *)
  | Sleep (delayMs : JS.number).              (* setTimeout(resolve, delayMs) *)

Record services := {
  getShopifyAdminGraphQLClient : outcome unit;
  query : list event -> outcome body;
  random : list event -> JS.number;           (* Math.random() *)
}.

Definition M := Eff.M (list event).

Definition emit (ev : event) : M unit :=
  fun l => (Return tt, (l ++ [ev])%list).

Definition client_query (sv : services) (attempt : nat) : M body :=
  fun l => (query sv l, (l ++ [Query attempt])%list).

Definition Math_random (sv : services) : M JS.number :=
  fun l => (Return (random sv l), l).

(* statusCode === c *)
Definition status_is (c : Z) (o : option Z) : bool :=
  match o with Some c' => c' =? c | None => false end.

Definition isThrottled (error : exn) : bool :=
  status_is 429 (statusCode error)
  || (JS.truthy (message error)
      && JS.includes (JS.toLowerCase (message error)) "throttled").

Definition isServerError (error : exn) : bool :=
  match statusCode error with
  | Some c => (500 <=? c) && (c <=? 599)
  | None => false
  end.

(* line 436: INITIAL_SHOPIFY_RETRY_DELAY_MS * Math.pow(2, attempt) *)
Definition nominalDelay (cfg : config) (attempt : nat) : JS.number :=
  JS.mul (INITIAL_SHOPIFY_RETRY_DELAY_MS cfg) (JS.Math_pow2 attempt).

(* lines 436-438: the doubled delay with its jitter, at least 1000 *)
Definition jittered (cfg : config) (attempt : nat) (rnd : JS.number) : JS.number :=
  let delayMs := nominalDelay cfg attempt in
  let jitter :=
    JS.mul (JS.mul delayMs JITTER_FACTOR)
           (JS.sub (JS.mul rnd (JS.of_Z 2)) (JS.of_Z 1)) in
  JS.Math_max (JS.of_Z 1000) (JS.Math_round (JS.add delayMs jitter)).

(* lines 436-444 *)
Definition retryDelay (cfg : config) (attempt : nat) (rnd : JS.number)
    (error : exn) : JS.number :=
  let delayMs := jittered cfg attempt rnd in
  match (if isThrottled error then JS.nonempty_opt (retryAfter error) else None) with
  | Some header =>
      let retryAfterSeconds := JS.parseInt header in
      if negb (JS.isNaN retryAfterSeconds) then
        JS.Math_max delayMs
          (JS.add (JS.mul retryAfterSeconds (JS.of_Z 1000)) (JS.of_Z 500))
      else delayMs
  | None => delayMs
  end.

Definition statusText (error : exn) : string :=
  match statusCode error with
  | Some 0 | None => "N/A"
  | Some c => JS.Number_toString (JS.of_Z c)
  end.

(* the for loop; [fuel] is the number of iterations left, that is
   MAX_SHOPIFY_RETRIES + 1 - attempt *)
Fixpoint attempts (cfg : config) (sv : services) (operationName : string)
    (fuel attempt : nat) : M body :=
  match fuel with
  | O =>
      Eff.throw (Err.mk ExternalServiceError
        ("Shopify API request failed after all retries (Operation: "
         ++ operationName ++ ")") "EXTERNAL_SERVICE_ERROR")
  | S fuel' =>
      fun l =>
        match
          (response <- client_query sv attempt ;;
           match b_errors response with
           | _ :: _ =>
               Eff.throw (Err.mk ExternalServiceError
                 ("Shopify GraphQL API returned user errors for "
                  ++ operationName ++ ".") "SHOPIFY_GQL_USER_ERRORS")
           | [] => Eff.ret response
           end) l
        with
        | (Return response, l') => (Return response, l')
        | (Throw error, l') =>
            match cls error with
            | GraphqlQueryError =>
                if (Z.of_nat attempt <? MAX_SHOPIFY_RETRIES cfg)
                   && (isThrottled error || isServerError error)
                then
                  (rnd <- Math_random sv ;;
                   emit (Sleep (retryDelay cfg attempt rnd error)) ;;;
                   attempts cfg sv operationName fuel' (S attempt)) l'
                else
                  (Throw (Err.mk ExternalServiceError
                     ("Shopify API request failed (Operation: " ++ operationName
                      ++ ", Status: " ++ statusText error ++ ")")
                     "EXTERNAL_SERVICE_ERROR"), l')
            | ExternalServiceError | AppError | ValidationError =>
                (Throw error, l')
            | PlainError =>
                (Throw (Err.mk ExternalServiceError
                   ("Unexpected system error during Shopify API call (Operation: "
                    ++ operationName ++ ")") "EXTERNAL_SERVICE_ERROR"), l')
            end
        end
  end.

Definition shopifyGraphqlRequest (cfg : config) (sv : services)
    (operationName : string) : M body :=
  _ <- (fun l => (getShopifyAdminGraphQLClient sv, l)) ;;
  attempts cfg sv operationName (Z.to_nat (MAX_SHOPIFY_RETRIES cfg + 1)) 0.

End Retry.

(** ** mappers/orderMapper.js *)

Module OrderMapper.

(* a JSON scalar of the Bunjang product lookup *)
Inductive scalar :=
  | Num (n : JS.number)
  | Str (s : string).

Definition ToString (v : scalar) : string :=
  match v with Num n => JS.Number_toString n | Str s => s end.

(* the fields of the product details read here; None: undefined *)
Record productDetails := {
  pd_price : option scalar;
  pd_shippingFee : option scalar;
}.

Record payloadProduct := {
  pp_id : JS.number;
  pp_price : JS.number;
}.

Record payload := {
  product : payloadProduct;
  deliveryPrice : JS.number;
}.

(* The line item is an object and the details are not null at the only
   call site.  The function has no path that returns null; the option
   is what its caller tests. *)
Definition mapShopifyItemToBunjangOrderPayload (bunjangPid : string)
    (bunjangProductDetails : productDetails) : outcome (option payload) :=
  if negb (JS.truthy bunjangPid) then
    Throw (Err.mk ValidationError
      "번개장터 주문 페이로드 매핑을 위한 필수 데이터가 누락되었습니다."
      "VALIDATION_ERROR")
  else
    match pd_price bunjangProductDetails, pd_shippingFee bunjangProductDetails with
    | Some bunjangKrwPrice, Some bunjangKrwShippingFee =>
        let currentBunjangPriceKrw := JS.parseInt (ToString bunjangKrwPrice) in
        let currentBunjangShippingFeeKrw :=
          JS.parseInt (ToString bunjangKrwShippingFee) in
        if JS.isNaN currentBunjangPriceKrw
           || JS.ltb currentBunjangPriceKrw PriceCalculation.zero then
          Throw (Err.mk ValidationError
            ("번개장터 상품(PID: " ++ bunjangPid ++ ")의 가격이 유효하지 않습니다: "
             ++ ToString bunjangKrwPrice) "VALIDATION_ERROR")
        else if JS.isNaN currentBunjangShippingFeeKrw
                || JS.ltb currentBunjangShippingFeeKrw PriceCalculation.zero then
          Throw (Err.mk ValidationError
            ("번개장터 상품(PID: " ++ bunjangPid ++ ")의 배송비가 유효하지 않습니다: "
             ++ ToString bunjangKrwShippingFee) "VALIDATION_ERROR")
        else
          Return (Some {|
            product := {| pp_id := JS.parseInt bunjangPid;
                          pp_price := currentBunjangPriceKrw |};
            deliveryPrice := JS.of_Z 0;
          |})
    | _, _ =>
        Throw (Err.mk AppError
          ("번개장터 상품(PID: " ++ bunjangPid
           ++ ") 상세 정보에 가격 또는 배송비가 없습니다.")
          "BUNJANG_PRODUCT_DATA_INCOMPLETE")
    end.

End OrderMapper.

(** ** services/orderService.js (with the two calls of bunjangService.js) *)

Module OrderService.
Import OrderMapper.
Local Open Scope eff_scope.

Record lineItem := {
  sku : option string;
}.

Record shopifyOrder := {
  o_id : option Z;                         (* the REST id, a number *)
  admin_graphql_api_id : option string;
  line_items : option (list lineItem);     (* None: not an array *)
}.

Record metafield := {
  namespace : string;
  key : string;
  value : string;
  type : string;
}.

Record orderUpdateInput := {
  u_id : string;
  u_tags : list string;
  u_metafields : list metafield;
}.

Inductive call :=
  | ProductLookup (bunjangPid : string)        (* GET /api/v1/products/{pid} *)
  | CreateOrderV2 (p : payload)                (* POST /api/v2/orders *)
  | UpdateOrder (input : orderUpdateInput).    (* shopifyService.updateOrder *)

(* response.data.data of the order creation *)
Record orderData := {
  od_id : option Z;
}.

Record services := {
  (* response.data.data of the lookup, None when there is none; a 404
     and every other failure is an exception of the HTTP client *)
  productLookup : list call -> string -> outcome (option productDetails);
  postOrder : list call -> payload -> outcome (option orderData);
  updateOrder : list call -> orderUpdateInput -> outcome unit;
}.

(* the calls made so far, and the two accumulators of the loop *)
Record state := {
  log : list call;
  bunjangOrderSuccessfullyCreatedOverall : bool;
  createdBunjangOrderIds : list string;
}.

Definition M := Eff.M state.

Definition remote {A} (c : call) (answer : list call -> outcome A) : M A :=
  fun st =>
    (answer (log st),
     {| log := (log st ++ [c])%list;
        bunjangOrderSuccessfullyCreatedOverall :=
          bunjangOrderSuccessfullyCreatedOverall st;
        createdBunjangOrderIds := createdBunjangOrderIds st |}).

(* let bunjangOrderSuccessfullyCreatedOverall = false;
   let createdBunjangOrderIds = []; *)
Definition declareAccumulators : M unit :=
  fun st =>
    (Return tt,
     {| log := log st;
        bunjangOrderSuccessfullyCreatedOverall := false;
        createdBunjangOrderIds := [] |}).

(* createdBunjangOrderIds.push(id); ...Overall = true *)
Definition recordCreated (id : string) : M unit :=
  fun st =>
    (Return tt,
     {| log := log st;
        bunjangOrderSuccessfullyCreatedOverall := true;
        createdBunjangOrderIds := (createdBunjangOrderIds st ++ [id])%list |}).

(* bunjangService.getBunjangProductDetails: null when there is no pid,
   no data, a 404 or any other failure *)
Definition getBunjangProductDetails (sv : services) (pid : string)
  : M (option productDetails) :=
  if negb (JS.truthy pid) then Eff.ret None
  else
    Eff.try_catch
      (remote (ProductLookup pid) (fun l => productLookup sv l pid))
      (fun _ => Eff.ret None).

Definition truthy_id (o : option Z) : option Z :=
  match o with
  | Some 0 | None => None
  | Some n => Some n
  end.

(* bunjangService.createBunjangOrderV2 *)
Definition createBunjangOrderV2 (sv : services) (orderPayload : payload)
  : M orderData :=
  Eff.try_catch
    (response <- remote (CreateOrderV2 orderPayload)
                   (fun l => postOrder sv l orderPayload) ;;
     match response with
     | Some data =>
         match truthy_id (od_id data) with
         | Some _ => Eff.ret data
         | None =>
             Eff.throw (Err.mk AppError
               "번개장터 주문 생성 응답 형식이 유효하지 않습니다."
               "BUNJANG_ORDER_RESPONSE_INVALID")
         end
     | None =>
         Eff.throw (Err.mk AppError
           "번개장터 주문 생성 응답 형식이 유효하지 않습니다."
           "BUNJANG_ORDER_RESPONSE_INVALID")
     end)
    (fun error =>
       if Err.instanceof_AppError error then Eff.throw error
       else Eff.throw (Err.mk AppError
              ("번개장터 주문 생성 실패 (V2): " ++ message error)
              "BUNJANG_ORDER_CREATE_V2_ERROR")).

Definition shopify_updateOrder (sv : services) (input : orderUpdateInput) : M unit :=
  remote (UpdateOrder input) (fun l => updateOrder sv l input).

Definition text_field (k v : string) : metafield :=
  {| namespace := "bunjang"; key := k; value := v;
     type := "single_line_text_field" |}.

Definition integer_field (k v : string) : metafield :=
  {| namespace := "bunjang"; key := k; value := v; type := "number_integer" |}.

(* lines 53-126: the try statement run for one linked line item *)
Definition processLinkedItem (sv : services) (shopifyOrderGid : string)
    (bunjangOrderIdentifier : string) (bunjangPid : string) : M unit :=
  let errorTags (what : string) := {|
    u_id := shopifyOrderGid;
    u_tags := [bunjangOrderIdentifier ++ "_Error";
               "PID-" ++ bunjangPid ++ "-" ++ what];
    u_metafields := [] |} in
  Eff.try_catch
    (bunjangProductDetails <- getBunjangProductDetails sv bunjangPid ;;
     match bunjangProductDetails with
     | None => shopify_updateOrder sv (errorTags "NotFound")
     | Some details =>
         match mapShopifyItemToBunjangOrderPayload bunjangPid details with
         | Throw e => Eff.throw e
         | Return None => shopify_updateOrder sv (errorTags "MapFail")
         | Return (Some mapped) =>
             let actualBunjangShippingFeeKrw := deliveryPrice mapped in
             let bunjangOrderPayload :=
               {| product := product mapped; deliveryPrice := JS.of_Z 0 |} in
             bunjangApiResponse <- createBunjangOrderV2 sv bunjangOrderPayload ;;
             match truthy_id (od_id bunjangApiResponse) with
             | Some bunjangOrderId =>
                 let idString := JS.Number_toString (JS.of_Z bunjangOrderId) in
                 recordCreated idString ;;;
                 shopify_updateOrder sv {|
                   u_id := shopifyOrderGid;
                   u_tags := ["BunjangOrderPlaced"; bunjangOrderIdentifier;
                              "BunjangOrderID-" ++ idString];
                   u_metafields :=
                     [text_field "order_id" idString;
                      text_field "ordered_pid" bunjangPid;
                      integer_field "ordered_item_price_krw"
                        (JS.Number_toString (pp_price (product bunjangOrderPayload)));
                      integer_field "api_sent_shipping_fee_krw"
                        (JS.Number_toString (deliveryPrice bunjangOrderPayload));
                      integer_field "actual_bunjang_shipping_fee_krw"
                        (JS.Number_toString actualBunjangShippingFeeKrw)] |}
             | None => shopify_updateOrder sv (errorTags "CreateRespFail")
             end
         end
     end)
    (fun _ => shopify_updateOrder sv (errorTags "Exception")).

(* the for loop over the line items *)
Fixpoint processItems (sv : services) (shopifyOrderGid : string)
    (bunjangOrderIdentifier : string) (items : list lineItem) : M unit :=
  match items with
  | [] => Eff.ret tt
  | item :: rest =>
      match JS.nonempty_opt (sku item) with
      | Some s =>
          if JS.startsWith s "BJ-" then
            processLinkedItem sv shopifyOrderGid bunjangOrderIdentifier
              (substring 3 (String.length s - 3) s)
          else Eff.ret tt
      | None => Eff.ret tt
      end ;;;
      processItems sv shopifyOrderGid bunjangOrderIdentifier rest
  end.

Record result := {
  r_success : bool;
  r_bunjangOrderIds : option (list string);    (* None: the field is absent *)
  r_message : string;
}.

(* [orderIdentifierPrefix] is config.bunjang.orderIdentifierPrefix *)
Definition processShopifyOrderForBunjang (orderIdentifierPrefix : string)
    (sv : services) (order : shopifyOrder) : M result :=
  match truthy_id (o_id order), JS.nonempty_opt (admin_graphql_api_id order),
        line_items order with
  | Some shopifyOrderId, Some shopifyOrderGid, Some (item :: items) =>
      let bunjangOrderIdentifier :=
        orderIdentifierPrefix ++ JS.Number_toString (JS.of_Z shopifyOrderId) in
      declareAccumulators ;;;
      processItems sv shopifyOrderGid bunjangOrderIdentifier (item :: items) ;;;
      fun st =>
        if bunjangOrderSuccessfullyCreatedOverall st then
          (Return {| r_success := true;
                     r_bunjangOrderIds := Some (createdBunjangOrderIds st);
                     r_message :=
                       "번개장터 주문(들) 생성 성공: "
                       ++ String.concat ", " (createdBunjangOrderIds st) |}, st)
        else
          (Return {| r_success := false;
                     r_bunjangOrderIds := None;
                     r_message :=
                       "Shopify 주문에 포함된 번개장터 연동 상품에 대해 번개장터 주문을 생성하지 못했습니다." |},
           st)
  | _, _, _ =>
      Eff.throw (Err.mk ValidationError
        "유효하지 않은 Shopify 주문 데이터입니다. (ID 또는 line_items 누락)"
        "VALIDATION_ERROR")
  end.

Definition initial : state :=
  {| log := []; bunjangOrderSuccessfullyCreatedOverall := false;
     createdBunjangOrderIds := [] |}.

End OrderService.

(** ** Vocabulary of the statements *)

Module Spec.

(* the real number a double stands for (0 for what is not finite) *)
Definition exact (x : JS.number) : Q :=
  match x with
  | S754_finite s m (Zneg e') =>
      Qmake (if s then Zneg m else Zpos m) (2 ^ e')%positive
  | S754_finite s m e => inject_Z ((if s then Zneg m else Zpos m) * 2 ^ e)
  | _ => 0%Q
  end.

Definition is_negative (x : JS.number) : bool :=
  match x with S754_finite s _ _ => s | _ => false end.

(* The amount in hundredths that a string of the form
   digits "." digit digit stands for. *)
Definition read_fixed2 (s : string) : option Z :=
  let k := String.length s in
  if (4 <=? k)%nat && String.eqb (substring (k - 3) 1 s) "." then
    option_map (fun u => Z.of_N (N.of_uint u))
      (NilEmpty.uint_of_string (substring 0 (k - 3) s ++ substring (k - 2) 2 s))
  else None.



(* the code's decision as a boolean *)
Definition drops (cfg : Catalog.config) (p : Catalog.product) : bool :=
  negb (String.eqb (Catalog.saleStatus p) "SELLING")
  || (negb (JS.truthy (Catalog.pid p)) || negb (JS.truthy (Catalog.name p)) || JS.isNaN (Catalog.price p)
      || negb (JS.is_some (Catalog.updatedAt p)))
  || ((0 <? length (Catalog.filterCategoryIds cfg))%nat && JS.truthy (Catalog.categoryId p)
      && negb (existsb (String.eqb (Catalog.categoryId p)) (Catalog.filterCategoryIds cfg)))
  || (JS.ltb (Catalog.price p) PriceCalculation.zero
      || (negb (JS.isNaN (Catalog.quantity p)) && JS.ltb (Catalog.quantity p) PriceCalculation.zero)).


(** Product sync *)

Definition is_remote (ev : Sync.event) : Prop :=
  match ev with Sync.Remote _ => True | _ => False end.

(* a read or a write of the sync state store *)
Definition is_db (ev : Sync.event) : Prop :=
  match ev with Sync.Remote _ => False | _ => True end.

(* remote calls, then operations of the store *)
Definition remote_then_db (evs : list Sync.event) : Prop :=
  exists rs post, evs = (rs ++ post)%list /\ Forall is_remote rs /\ Forall is_db post.

(* Whatever its result, the computation adds to the log events for
   which [P] holds. *)
Definition traces {A} (P : list Sync.event -> Prop) (m : Sync.M A) : Prop :=
  forall w, exists evs,
    Sync.log (snd (m w)) = (Sync.log w ++ evs)%list /\ P evs.

(* computations that only call the collaborators: they leave the store
   as it is *)
Definition calls_only {A} (m : Sync.M A) : Prop :=
  forall w, exists evs,
    snd (m w) = {| Sync.store := Sync.store w; Sync.log := (Sync.log w ++ evs)%list |}
    /\ Forall is_remote evs.

(* the events of one sync of the product [pid] *)
Definition sync_shape (pid : string) (evs : list Sync.event) : Prop :=
  evs = [Sync.DbFailure pid]
  \/ evs = [Sync.DbFindOne pid; Sync.DbFailure pid]
  \/ evs = [Sync.DbFindOne pid; Sync.DbUpdateOne pid Sync.AttemptWrite;
            Sync.DbFailure pid]
  \/ exists e,
       evs = ([Sync.DbFindOne pid; Sync.DbUpdateOne pid Sync.AttemptWrite;
               Sync.DbFindOne pid] ++ e)%list
       /\ remote_then_db e.

(* The same with one condition for a return and one for an exception. *)
Definition traces2 {A} (R T : list Sync.event -> Prop) (m : Sync.M A) : Prop :=
  forall w, exists evs,
    Sync.log (snd (m w)) = (Sync.log w ++ evs)%list
    /\ match fst (m w) with
       | Return _ => R evs
       | Throw _ => T evs
       end.

(* the status that a result of the sync leaves in the store *)
Definition recorded_status (r : Sync.resultStatus) : option Sync.syncStatus :=
  match r with
  | Sync.success => Some Sync.SYNCED
  | Sync.error => Some Sync.ERROR
  | Sync.skipped_filter => Some Sync.SKIPPED_FILTER
  | Sync.skipped_no_change => None
  end.

(* the world after the remote calls [evs] *)
Definition after_calls (w : Sync.world) (evs : list Sync.event) : Sync.world :=
  {| Sync.store := Sync.store w; Sync.log := (Sync.log w ++ evs)%list |}.

(* The try block run in [w] for the product [pid]: remote calls, then
   either a return after the write of an outcome, or an exception
   without any write. *)
Definition body_run (pid : string) (w : Sync.world)
    (o : outcome Sync.syncResult) (w' : Sync.world) : Prop :=
  exists rs,
    Forall is_remote rs
    /\ match o with
       | Return r =>
           exists s d',
             Sync.log w' = (Sync.log w ++ rs
                            ++ [Sync.DbUpdateOne pid (Sync.OutcomeWrite s)])%list
             /\ recorded_status (Sync.r_status r) = Some s
             /\ Sync.store w' !! pid = Some d'
             /\ Sync.d_syncStatus d' = s
       | Throw _ => w' = after_calls w rs
       end.

(* the events that a run from [w] to [w'] added to the log *)
Definition new_events (w w' : Sync.world) : list Sync.event :=
  skipn (length (Sync.log w)) (Sync.log w').

(* the document of [p] once its attempt is written: the stored document,
   or the inserted one, with the snapshot of [p] and one attempt more *)
Definition attempted (sv : Sync.services) (p : Catalog.product) (w : Sync.world)
  : Sync.SyncedDoc :=
  let now := Sync.clock sv (Sync.log w ++ [Sync.DbFindOne (Catalog.pid p)])%list in
  Sync.set_attempt now p
    (default (Sync.inserted_doc (Catalog.pid p) now)
       (Sync.store w !! Catalog.pid p)).

(* the world right after the write of the attempt *)
Definition attempt_world (sv : Sync.services) (p : Catalog.product)
    (w : Sync.world) : Sync.world :=
  {| Sync.store := <[Catalog.pid p := attempted sv p w]> (Sync.store w);
     Sync.log := (Sync.log w
                  ++ [Sync.DbFindOne (Catalog.pid p);
                      Sync.DbUpdateOne (Catalog.pid p) Sync.AttemptWrite])%list |}.

(* the first read, the write of the attempt and the second read *)
Definition prologue (pid : string) : list Sync.event :=
  [Sync.DbFindOne pid; Sync.DbUpdateOne pid Sync.AttemptWrite; Sync.DbFindOne pid].

Definition after_attempt (sv : Sync.services) (p : Catalog.product)
    (w : Sync.world) : Sync.world :=
  {| Sync.store := <[Catalog.pid p := attempted sv p w]> (Sync.store w);
     Sync.log := (Sync.log w ++ prologue (Catalog.pid p))%list |}.

(* From [w] to [w']: remote calls, then the write of the outcome that
   the result [r] reports. *)
Definition outcome_recorded (pid : string) (w : Sync.world)
    (r : Sync.syncResult) (w' : Sync.world) : Prop :=
  exists rs s d',
    Forall is_remote rs
    /\ Sync.log w' = (Sync.log w ++ rs
                      ++ [Sync.DbUpdateOne pid (Sync.OutcomeWrite s)])%list
    /\ recorded_status (Sync.r_status r) = Some s
    /\ Sync.store w' !! pid = Some d'
    /\ Sync.d_syncStatus d' = s.

(* One sync of [p] from [w] without faults of the store: it returns,
   either skipping after the prologue or recording an outcome. *)
Definition sync_run (cfg : Catalog.config) (sv : Sync.services)
    (p : Catalog.product) (w : Sync.world)
    (res : outcome Sync.syncResult * Sync.world) : Prop :=
  exists r,
    fst res = Return r
    /\ if Sync.syncedAndNotNewer cfg p (attempted sv p w)
       then Sync.r_status r = Sync.skipped_no_change
            /\ snd res = after_attempt sv p w
       else outcome_recorded (Catalog.pid p) (after_attempt sv p w) r (snd res).


(* the store never fails *)
Definition no_db_fault (sv : Sync.services) : Prop :=
  forall l, Sync.dbFault sv l = None.

(** The retry loop *)




(** Orders *)



(* what a call says about the shipping fee: the delivery price sent to
   the source, and the fee written to the destination order as the
   actual one *)
Definition shipping_fee_zero (ev : OrderService.call) : Prop :=
  match ev with
  | OrderService.CreateOrderV2 p => OrderMapper.deliveryPrice p = JS.of_Z 0
  | OrderService.UpdateOrder input =>
      forall mf, In mf (OrderService.u_metafields input) ->
                 OrderService.key mf = "actual_bunjang_shipping_fee_krw" ->
                 OrderService.value mf = "0"
  | _ => True
  end.

(* the order passes the check of line 25 *)
Definition valid_order (order : OrderService.shopifyOrder) : Prop :=
  (exists n, OrderService.o_id order = Some n /\ n <> 0)
  /\ (exists g, OrderService.admin_graphql_api_id order = Some g /\ g <> "")
  /\ (exists item items, OrderService.line_items order = Some (item :: items)).

(* the destination accepts every order update *)
Definition updates_accepted (sv : OrderService.services) : Prop :=
  forall l input, OrderService.updateOrder sv l input = Return tt.


(* the calls made are all of a kind *)
Definition emits_only (P : OrderService.call -> Prop)
    (st st' : OrderService.state) : Prop :=
  exists evs,
    OrderService.log st' = (OrderService.log st ++ evs)%list /\ Forall P evs.

End Spec.

(** ** The scenarios of the specification, as data *)

Module Scenario.

(* markup 20 %, handling fee 2 USD *)
Definition price_cfg : PriceCalculation.config :=
  {| PriceCalculation.markupPercentage := JS.of_Z 20;
     PriceCalculation.handlingFeeUsd := JS.of_Z 2 |}.

Definition rate : JS.number := JS.parseFloat "0.00075".

(* an engine that knows the ISO date-time format only; its URL parser
   is not consulted by the scenarios, whose rows carry no image *)
Definition iso_engine : JS.engine :=
  {| JS.Date_parse_legacy := fun _ => None; JS.URL_parse := fun _ => None |}.

Definition cfg : Catalog.config := {|
  Catalog.filterCategoryIds := [];
  Catalog.kpopKeywords := [];
  Catalog.kidultKeywords := [];
  Catalog.defaultVendor := "";
  Catalog.defaultShopifyProductType := "";
  Catalog.defaultLocationId := Some "gid://shopify/Location/1";
  Catalog.forceResyncAll := false;
  Catalog.syncConcurrency := 1;
  Catalog.priceCalculation := price_cfg;
|}.


(* {id:"123", name:"X", price:10000, status:"SELLING",
    updatedAt:"2024-01-01T00:00:00Z"} with a quantity column *)
Definition feed_row (quantity : option string) : Catalog.row := {|
  Catalog.r_pid := Some "123";
  Catalog.r_name := Some "X";
  Catalog.r_description := None;
  Catalog.r_quantity := quantity;
  Catalog.r_price := Some "10000";
  Catalog.r_shippingFee := None;
  Catalog.r_shipppingFee := None;
  Catalog.r_condition := None;
  Catalog.r_saleStatus := Some "SELLING";
  Catalog.r_keywords := None;
  Catalog.r_images := None;
  Catalog.r_categoryId := None;
  Catalog.r_category_name := None;
  Catalog.r_categoryName := None;
  Catalog.r_brandId := None;
  Catalog.r_options := None;
  Catalog.r_uid := None;
  Catalog.r_updatedAt := Some "2024-01-01T00:00:00Z";
  Catalog.r_createdAt := None;
|}.

(* the same row with a negative price *)
Definition negative_price_row : Catalog.row := {|
  Catalog.r_pid := Some "123";
  Catalog.r_name := Some "X";
  Catalog.r_description := None;
  Catalog.r_quantity := Some "1";
  Catalog.r_price := Some "-1";
  Catalog.r_shippingFee := None;
  Catalog.r_shipppingFee := None;
  Catalog.r_condition := None;
  Catalog.r_saleStatus := Some "SELLING";
  Catalog.r_keywords := None;
  Catalog.r_images := None;
  Catalog.r_categoryId := None;
  Catalog.r_category_name := None;
  Catalog.r_categoryName := None;
  Catalog.r_brandId := None;
  Catalog.r_options := None;
  Catalog.r_uid := None;
  Catalog.r_updatedAt := Some "2024-01-01T00:00:00Z";
  Catalog.r_createdAt := None;
|}.

(** Product sync *)

(* the feed record of the specification, last updated at [t] *)
Definition feed_product (t : Z) : Catalog.product := {|
  Catalog.pid := "123";
  Catalog.name := "X";
  Catalog.description := "";
  Catalog.quantity := JS.of_Z 1;
  Catalog.price := JS.of_Z 10000;
  Catalog.shippingFee := JS.of_Z 0;
  Catalog.condition := "USED";
  Catalog.saleStatus := "SELLING";
  Catalog.keywords := [];
  Catalog.images := None;
  Catalog.categoryId := "";
  Catalog.categoryName := "";
  Catalog.brandId := "";
  Catalog.optionsRaw := None;
  Catalog.uid := "";
  Catalog.updatedAtString := None;
  Catalog.createdAtString := None;
  Catalog.updatedAt := Some t;
  Catalog.createdAt := None;
|}.

(* a destination and an exchange-rate service that answer every call *)
Definition healthy : Sync.services := {|
  Sync.clock := fun _ => 1706745600000;
  Sync.nowIso := fun _ => "2024-02-01T00:00:00.000Z";
  Sync.dbFault := fun _ => None;
  Sync.findProductByBunjangPidTag := fun _ _ => Return None;
  Sync.getKrwToUsdRate := fun _ => Return rate;
  Sync.queryFirstVariant := fun _ _ =>
    Return (Some {| Sync.vn_id := "gid://shopify/ProductVariant/1";
                    Sync.vn_inventoryItemId := Some "gid://shopify/InventoryItem/1" |});
  Sync.updateProduct := fun _ gid _ =>
    Return (Some {| Sync.p_id := Some gid; Sync.p_handle := Some "x" |});
  Sync.updateProductVariant := fun _ _ _ => Return tt;
  Sync.updateInventoryLevel := fun _ _ _ _ => Return tt;
  Sync.createProduct := fun _ _ _ =>
    Return (Some {| Sync.p_id := Some "gid://shopify/Product/1";
                    Sync.p_handle := Some "x" |});
  Sync.appendMediaToProduct := fun _ _ _ => Return tt;
|}.


(* the row of a second product, 124 *)
Definition second_row : Catalog.row := {|
  Catalog.r_pid := Some "124";
  Catalog.r_name := Some "Y";
  Catalog.r_description := None;
  Catalog.r_quantity := Some "1";
  Catalog.r_price := Some "20000";
  Catalog.r_shippingFee := None;
  Catalog.r_shipppingFee := None;
  Catalog.r_condition := None;
  Catalog.r_saleStatus := Some "SELLING";
  Catalog.r_keywords := None;
  Catalog.r_images := None;
  Catalog.r_categoryId := None;
  Catalog.r_category_name := None;
  Catalog.r_categoryName := None;
  Catalog.r_brandId := None;
  Catalog.r_options := None;
  Catalog.r_uid := None;
  Catalog.r_updatedAt := Some "2024-01-01T00:00:00Z";
  Catalog.r_createdAt := None;
|}.

Definition is_create (ev : Sync.event) : bool :=
  match ev with
  | Sync.Remote (Sync.CreateProduct _ _ _) => true
  | _ => false
  end.

(* a destination that refuses the first creation of a product and
   accepts the next ones *)
Definition first_create_fails : Sync.services := {|
  Sync.clock := fun _ => 1706745600000;
  Sync.nowIso := fun _ => "2024-02-01T00:00:00.000Z";
  Sync.dbFault := fun _ => None;
  Sync.findProductByBunjangPidTag := fun _ _ => Return None;
  Sync.getKrwToUsdRate := fun _ => Return rate;
  Sync.queryFirstVariant := fun _ _ => Return None;
  Sync.updateProduct := fun _ _ _ => Return None;
  Sync.updateProductVariant := fun _ _ _ => Return tt;
  Sync.updateInventoryLevel := fun _ _ _ _ => Return tt;
  Sync.createProduct := fun l _ _ =>
    if existsb is_create l
    then Return (Some {| Sync.p_id := Some "gid://shopify/Product/2";
                         Sync.p_handle := Some "y" |})
    else Throw (Err.mk ExternalServiceError "Shopify API request failed"
                  "SHOPIFY_ERROR");
  Sync.appendMediaToProduct := fun _ _ _ => Return tt;
|}.

(* the sync state of product 123 after a sync of the feed record last
   updated on 2024-01-01 *)
Definition synced_on_jan_1 : Sync.SyncedDoc := {|
  Sync.d_bunjangPid := "123";
  Sync.d_createdAt := Some 1704153600000;
  Sync.d_syncStatus := Sync.SYNCED;
  Sync.d_lastSyncAttemptAt := Some 1704153600000;
  Sync.d_bunjangProductName := "X";
  Sync.d_bunjangUpdatedAt := Some 1704067200000;
  Sync.d_bunjangOriginalPriceKrw := JS.of_Z 10000;
  Sync.d_bunjangOriginalShippingFeeKrw := JS.of_Z 0;
  Sync.d_syncAttemptCount := 0;
  Sync.d_syncSuccessCount := 1;
  Sync.d_shopifyGid := Some "gid://shopify/Product/1";
  Sync.d_shopifyProductId := Some "1";
  Sync.d_shopifyHandle := Some "x";
  Sync.d_lastSuccessfulSyncAt := Some 1704153600000;
  Sync.d_syncErrorMessage := None;
  Sync.d_syncErrorStackSample := None;
  Sync.d_shopifyListedPriceUsd := Some "11.00";
|}.

Definition empty_world : Sync.world := {| Sync.store := ∅; Sync.log := [] |}.

Definition world_synced_on_jan_1 : Sync.world :=
  {| Sync.store := {[ "123" := synced_on_jan_1 ]}; Sync.log := [] |}.

(** The retry loop *)

(* the defaults of lines 395-396 *)
Definition retry_cfg : Retry.config :=
  {| Retry.MAX_SHOPIFY_RETRIES := 3;
     Retry.INITIAL_SHOPIFY_RETRY_DELAY_MS := JS.of_Z 2000 |}.

Definition http_error (status : Z) (retry_after : option string) : exn :=
  {| cls := GraphqlQueryError; message := "Received an error response";
     errorCode := ""; statusCode := Some status; retryAfter := retry_after;
     userErrors := []; networkError := false; stack := None |}.

(* the first request is answered with [first], the next ones with data;
   Math.random() gives 0.5 *)
Definition answers_after (first : exn) : Retry.services :=
  {| Retry.getShopifyAdminGraphQLClient := Return tt;
     Retry.query := fun l =>
       match l with
       | [] => Throw first
       | _ => Return {| Retry.b_errors := []; Retry.b_data := Some "{}" |}
       end;
     Retry.random := fun _ => JS.of_decimal false 5 (-1) |}.

(** Orders *)

(* one line item, sku "BJ-555" *)
Definition order_555 : OrderService.shopifyOrder := {|
  OrderService.o_id := Some 1001;
  OrderService.admin_graphql_api_id := Some "gid://shopify/Order/1001";
  OrderService.line_items := Some [ {| OrderService.sku := Some "BJ-555" |} ];
|}.

(* the source product 555 costs 10000 KRW and ships for 3000 KRW; the
   order placed for it gets the id 9001 *)
Definition source_has_555 : OrderService.services := {|
  OrderService.productLookup := fun _ _ =>
    Return (Some {| OrderMapper.pd_price := Some (OrderMapper.Num (JS.of_Z 10000));
                    OrderMapper.pd_shippingFee := Some (OrderMapper.Num (JS.of_Z 3000)) |});
  OrderService.postOrder := fun _ _ => Return (Some {| OrderService.od_id := Some 9001 |});
  OrderService.updateOrder := fun _ _ => Return tt;
|}.



End Scenario.

(** ** services/priceCalculationService.js: calculateInternalTotalCostUsd *)

Module InternalCost.
Import PriceCalculation.
Local Open Scope eff_scope.

Record cost := {
  itemPriceKrw : JS.number;
  shippingFeeKrw : JS.number;
  exchangeRateUsed : JS.number;
  itemPriceUsd : JS.number;
  shippingFeeUsd : JS.number;
  handlingFeeUsd : JS.number;
  totalEstimatedCostUsd : JS.number;
}.

(* parseFloat(x.toFixed(f)) *)
Definition rounded (x : JS.number) (f : nat) : JS.number :=
  JS.parseFloat (JS.toFixed x f).

(* lines 82-119; None is the null that the function returns *)
Definition calculateInternalTotalCostUsd {S} (cfg : config)
    (getKrwToUsdRate : Eff.M S JS.number)
    (bunjangPriceKrw bunjangShippingFeeKrw : JS.number)
  : Eff.M S (option cost) :=
  if JS.isNaN bunjangPriceKrw || JS.ltb bunjangPriceKrw zero
     || JS.isNaN bunjangShippingFeeKrw || JS.ltb bunjangShippingFeeKrw zero
  then Eff.ret None
  else
    fetched <-
      Eff.try_catch (rate <- getKrwToUsdRate ;; Eff.ret (Some rate))
        (fun _ => Eff.ret None) ;;
    match fetched with
    | None => Eff.ret None
    | Some krwToUsdRate =>
        match convertKrwToUsd bunjangPriceKrw krwToUsdRate with
        | Throw e => Eff.throw e
        | Return priceInUsdBeforeMarkup =>
            let markupRatio := JS.div (markupPercentage cfg) (JS.of_Z 100) in
            let itemPriceUsd :=
              JS.mul priceInUsdBeforeMarkup (JS.add (JS.of_Z 1) markupRatio) in
            match convertKrwToUsd bunjangShippingFeeKrw krwToUsdRate with
            | Throw e => Eff.throw e
            | Return shippingFeeUsd =>
                let handlingFeeUsd := PriceCalculation.handlingFeeUsd cfg in
                let totalEstimatedCostUsd :=
                  JS.add (JS.add itemPriceUsd shippingFeeUsd) handlingFeeUsd in
                Eff.ret (Some {|
                  itemPriceKrw := bunjangPriceKrw;
                  shippingFeeKrw := bunjangShippingFeeKrw;
                  exchangeRateUsed := rounded krwToUsdRate 8;
                  itemPriceUsd := rounded itemPriceUsd 2;
                  shippingFeeUsd := rounded shippingFeeUsd 2;
                  handlingFeeUsd := rounded handlingFeeUsd 2;
                  totalEstimatedCostUsd := rounded totalEstimatedCostUsd 2;
                |})
            end
        end
    end.

End InternalCost.

(** ** services/shopifyService.js: the product operations

    Every operation goes through [shopifyGraphqlRequest] (module
    [Retry]); here a request is one awaited call whose answer, the
    [data] of the response body or an exception, depends on the
    requests made before it.  The responses follow the GraphQL schema
    of the queries: a node or a payload is an object or null, names and
    ids of objects are strings. *)

Module Shopify.
Import Catalog.
Local Open Scope eff_scope.

(* findProductByBunjangPidTag, line 1118: the search query; the pid is
   a string at the call site *)
Definition searchQuery (bunjangPid : string) : string :=
  "tag:'bunjang_pid:" ++ JS.trim bunjangPid ++ "'".

(* userErrors { field message code } *)
Record userError := {
  e_field : option (list string);
  e_message : string;
  e_code : option string;
}.

(* a node of product.variants.edges *)
Record variantNode := {
  n_id : string;
  n_sku : option string;
  n_inventoryItemId : option string;        (* inventoryItem?.id *)
}.

(* the product of productCreate and productUpdate *)
Record productNode := {
  id : string;
  handle : string;
  variants : option (list variantNode);     (* variants?.edges *)
}.

Record productPayload := {
  pp_product : option productNode;
  pp_userErrors : list userError;           (* null or empty: [] *)
}.

Record bulkVariant := {
  bv_id : string;
  bv_price : string;
  bv_inventoryPolicy : inventoryPolicy;
}.

Record bulkPayload := {
  bp_productVariants : option (list bulkVariant);
  bp_userErrors : list userError;
}.

Record skuVariant := {
  sv_id : string;
  sv_sku : option string;
}.

Record skuPayload := {
  sp_productVariant : option skuVariant;
  sp_userErrors : list userError;
}.

Record inventoryPayload := {
  ip_createdAt : option string;             (* inventoryAdjustmentGroup?.createdAt *)
  ip_userErrors : list userError;
}.

(* a node of publications.edges *)
Record publication := {
  pub_id : string;
  pub_name : string;
}.

(* a node of resourcePublicationsV2.edges *)
Record resourcePublication := {
  rp_publication : publication;
  rp_isPublished : bool;
}.

Record mediaNode := {
  m_id : string;
  m_status : string;
}.

Record mediaPayload := {
  mp_media : option (list mediaNode);
  mp_mediaUserErrors : list userError;
}.

(* response.data, with the fields the operations below read; the
   payloads of the two publish mutations are only logged *)
Record data := {
  productCreate : option productPayload;
  productUpdate : option productPayload;
  productVariant_product_id : option string;             (* productVariant?.product?.id *)
  productVariantsBulkUpdate : option bulkPayload;
  productVariantUpdate : option skuPayload;
  inventorySetOnHandQuantities : option inventoryPayload;
  publications : option (list publication);              (* publications?.edges *)
  product_resourcePublicationsV2 : option (list resourcePublication);
  productCreateMedia : option mediaPayload;
}.

(* the query or mutation sent, with its variables *)
Inductive operation :=
  | ProductCreate (input : productInput) (collectionsToJoin : option (list string))
  | GetProductFromVariant (variantId : string)
  | ProductVariantsBulkUpdate (productId variantId price : string)
      (policy : inventoryPolicy)
  | ProductVariantUpdate (variantId sku : string)
  | InventorySetOnHandQuantities (inventoryItemId locationId : string)
      (quantity : JS.number)
  | Publications
  | PublishablePublish (productId : string) (publicationIds : list string)
  | ProductUpdate (productId : string) (input : productInput)
      (collectionsToJoin collectionsToLeave : option (list string))
  | GetProductPublications (productId : string)
  | ProductResourcePublicationsUpdate (productId publicationId publishDate : string)
  | ProductCreateMedia (productId : string) (media : list Sync.mediaInput).

Record services := {
  nowIso : list operation -> string;                     (* new Date().toISOString() *)
  shopifyGraphqlRequest : list operation -> operation -> outcome (option data);
}.

Definition M := Eff.M (list operation).

Definition request (sv : services) (op : operation) : M (option data) :=
  fun l => (shopifyGraphqlRequest sv l op, (l ++ [op])%list).

Definition toISOString (sv : services) : M string :=
  fun l => (Return (nowIso sv l), l).

(* e.field?.join(',') || 'N/A' *)
Definition fieldText (e : userError) : string :=
  match e_field e with
  | Some f =>
      if JS.truthy (String.concat "," f) then String.concat "," f else "N/A"
  | None => "N/A"
  end.

(* userErrors.map(e => `Field: ..., Msg: ...`).join('; ') *)
Definition errorMessage (userErrors : list userError) : string :=
  String.concat "; "
    (map (fun e => "Field: " ++ fieldText e ++ ", Msg: " ++ e_message e)
         userErrors).

(* line 1014 *)
Definition inventoryErrorMessage (userErrors : list userError) : string :=
  String.concat "; "
    (map (fun e => "Field: " ++ fieldText e
                   ++ ", Code: " ++ JS.or_else (e_code e) "N/A"
                   ++ ", Msg: " ++ e_message e)
         userErrors).

(* reading a property of null *)
Definition TypeError (property : string) : exn :=
  Err.mk PlainError
    ("Cannot read properties of null (reading '" ++ property ++ "')") "TypeError".

(* lines 741-772 *)
Definition updateVariantSku (sv : services) (variantId sku : string)
  : M (option skuVariant) :=
  response <- request sv (ProductVariantUpdate variantId sku) ;;
  match response ≫= productVariantUpdate with
  | Some payload =>
      match sp_userErrors payload with
      | _ :: _ =>
          Eff.throw (Err.mk ExternalServiceError
            ("SKU update failed: " ++ errorMessage (sp_userErrors payload))
            "SHOPIFY_SKU_UPDATE_ERROR")
      | [] => Eff.ret (sp_productVariant payload)
      end
  | None => Eff.ret None
  end.

(* lines 774-831; variantInput.sku is only logged *)
Definition updateProductVariant (sv : services) (variantId price : string)
    (policy : inventoryPolicy) : M (option bulkVariant) :=
  productResponse <- request sv (GetProductFromVariant variantId) ;;
  match JS.nonempty_opt (productResponse ≫= productVariant_product_id) with
  | None =>
      Eff.throw (Err.mk PlainError "Could not find product ID for variant" "Error")
  | Some productId =>
      response <-
        request sv (ProductVariantsBulkUpdate productId variantId price policy) ;;
      match response ≫= productVariantsBulkUpdate with
      | Some payload =>
          match bp_userErrors payload with
          | _ :: _ =>
              Eff.throw (Err.mk ExternalServiceError
                ("Variant update failed: " ++ errorMessage (bp_userErrors payload))
                "SHOPIFY_VARIANT_UPDATE_ERROR")
          | [] => Eff.ret (bp_productVariants payload ≫= head)
          end
      | None => Eff.ret None
      end
  end.

(* lines 974-1020; availableQuantity is a number at the call sites *)
Definition updateInventoryLevel (sv : services)
    (inventoryItemId locationId : option string) (availableQuantity : JS.number)
  : M (option inventoryPayload) :=
  match JS.nonempty_opt inventoryItemId, JS.nonempty_opt locationId with
  | Some item, Some location =>
      response <-
        request sv (InventorySetOnHandQuantities item location availableQuantity) ;;
      match response ≫= inventorySetOnHandQuantities with
      | Some payload =>
          match ip_userErrors payload with
          | _ :: _ =>
              Eff.throw (Err.mk ExternalServiceError
                ("Inventory update failed: "
                 ++ inventoryErrorMessage (ip_userErrors payload))
                "SHOPIFY_INVENTORY_UPDATE_ERROR")
          | [] => Eff.ret (Some payload)
          end
      | None => Eff.ret None
      end
  | _, _ => Eff.ret None
  end.

(* lines 464-476: what is sent as the input of productCreate *)
Definition baseProductInput (productInput : productInput) (now : string)
  : Catalog.productInput := {|
  title := title productInput;
  descriptionHtml := descriptionHtml productInput;
  vendor := vendor productInput;
  productType := productType productInput;
  tags := tags productInput;
  status := "ACTIVE";
  publishedAt :=
    if JS.truthy (publishedAt productInput) then publishedAt productInput else now;
|}.

(* collectionGID ? [collectionGID] : absent *)
Definition collectionList (collectionGID : option string) : option (list string) :=
  match JS.nonempty_opt collectionGID with
  | Some gid => Some [gid]
  | None => None
  end.

(* lines 593-600 *)
Definition isSalesChannel (pub : publication) : bool :=
  let name := JS.toLowerCase (pub_name pub) in
  JS.includes name "online store"
  || String.eqb name "online store"
  || JS.includes name "온라인 스토어"
  || JS.includes name "shop".

(* lines 537-567: the default variant gets its price, SKU and stock *)
Definition updateDefaultVariant (sv : services) (variantInfo : Sync.variantInfo)
    (defaultVariant : variantNode) : M unit :=
  Eff.try_catch
    (updateProductVariant sv (n_id defaultVariant) (Sync.vi_price variantInfo)
       (Sync.vi_inventoryPolicy variantInfo) ;;;
     (if JS.truthy (Sync.vi_sku variantInfo)
         && match n_sku defaultVariant with
            | Some sku => negb (String.eqb (Sync.vi_sku variantInfo) sku)
            | None => true
            end
      then updateVariantSku sv (n_id defaultVariant) (Sync.vi_sku variantInfo) ;;;
           Eff.ret tt
      else Eff.ret tt) ;;;
     match JS.nonempty_opt (n_inventoryItemId defaultVariant),
           JS.nonempty_opt (Sync.vi_locationId variantInfo) with
     | Some _, Some _ =>
         updateInventoryLevel sv (n_inventoryItemId defaultVariant)
           (Sync.vi_locationId variantInfo) (Sync.vi_quantity variantInfo) ;;;
         Eff.ret tt
     | _, _ => Eff.ret tt
     end)
    (fun _ => Eff.ret tt).

(* lines 570-642 *)
Definition publishToSalesChannels (sv : services) (createdProduct : productNode)
  : M unit :=
  Eff.try_catch
    (pubResponse <- request sv Publications ;;
     let publications := default [] (pubResponse ≫= publications) in
     let channelsToPublish := filter isSalesChannel publications in
     if (0 <? length channelsToPublish)%nat then
       request sv (PublishablePublish (id createdProduct)
                     (map pub_id channelsToPublish)) ;;;
       Eff.ret tt
     else Eff.ret tt)
    (fun _ => Eff.ret tt).

(* lines 462-645 *)
Definition createProduct (sv : services) (productInput : productInput)
    (collectionGID : option string) (variantInfo : option Sync.variantInfo)
  : M productNode :=
  now <- toISOString sv ;;
  response <-
    request sv (ProductCreate (baseProductInput productInput now)
                  (collectionList collectionGID)) ;;
  match response with
  | None => Eff.throw (TypeError "productCreate")
  | Some data =>
      match productCreate data with
      | None => Eff.throw (TypeError "userErrors")
      | Some payload =>
          match pp_userErrors payload with
          | _ :: _ =>
              Eff.throw (Err.mk ExternalServiceError
                ("Product creation failed: " ++ errorMessage (pp_userErrors payload))
                "SHOPIFY_PRODUCT_CREATE_ERROR")
          | [] =>
              match pp_product payload with
              | None =>
                  Eff.throw (Err.mk ExternalServiceError
                    "Product creation returned null product"
                    "SHOPIFY_PRODUCT_CREATE_NULL")
              | Some createdProduct =>
                  match variantInfo, variants createdProduct with
                  | Some variantInfo, Some (defaultVariant :: _) =>
                      updateDefaultVariant sv variantInfo defaultVariant
                  | _, _ => Eff.ret tt
                  end ;;;
                  publishToSalesChannels sv createdProduct ;;;
                  Eff.ret createdProduct
              end
          end
      end
  end.

(* lines 934-937 *)
Definition isOnlineStore (pub : resourcePublication) : bool :=
  let name := JS.toLowerCase (pub_name (rp_publication pub)) in
  JS.includes name "online store" || String.eqb name "online store".

(* lines 911-969 *)
Definition republish (sv : services) (updatedProduct : productNode) : M unit :=
  Eff.try_catch
    (pubResponse <- request sv (GetProductPublications (id updatedProduct)) ;;
     let publications :=
       default [] (pubResponse ≫= product_resourcePublicationsV2) in
     match find isOnlineStore publications with
     | Some onlineStore =>
         if negb (rp_isPublished onlineStore) then
           publishDate <- toISOString sv ;;
           request sv (ProductResourcePublicationsUpdate (id updatedProduct)
                         (pub_id (rp_publication onlineStore)) publishDate) ;;;
           Eff.ret tt
         else Eff.ret tt
     | None => Eff.ret tt
     end)
    (fun _ => Eff.ret tt).

(* lines 833-972; productUpdateInput is the product input with its id *)
Definition updateProduct (sv : services) (productId : option string)
    (productUpdateInput : productInput)
    (collectionGIDToJoin collectionGIDToLeave : option string) : M productNode :=
  match JS.nonempty_opt productId with
  | None =>
      Eff.throw (Err.mk ValidationError
        "Shopify product GID (id) is required for update." "VALIDATION_ERROR")
  | Some gid =>
      response <-
        request sv (ProductUpdate gid productUpdateInput
                      (collectionList collectionGIDToJoin)
                      (collectionList collectionGIDToLeave)) ;;
      match response with
      | None => Eff.throw (TypeError "productUpdate")
      | Some data =>
          match productUpdate data with
          | None => Eff.throw (TypeError "userErrors")
          | Some payload =>
              match pp_userErrors payload with
              | _ :: _ =>
                  Eff.throw (Err.mk ExternalServiceError
                    ("Product update failed: "
                     ++ errorMessage (pp_userErrors payload))
                    "SHOPIFY_PRODUCT_UPDATE_ERROR")
              | [] =>
                  match pp_product payload with
                  | None =>
                      Eff.throw (Err.mk ExternalServiceError
                        "Product update returned null product"
                        "SHOPIFY_PRODUCT_UPDATE_NULL")
                  | Some updatedProduct =>
                      republish sv updatedProduct ;;;
                      Eff.ret updatedProduct
                  end
              end
          end
      end
  end.

(* lines 1032-1057 *)
Definition processMediaInput (media : Sync.mediaInput) : Sync.mediaInput :=
  let url := Sync.originalSource media in
  let url :=
    if JS.truthy url && JS.startsWith url "http://"
    then JS.replace_first url "http://" "https://" else url in
  let url :=
    if JS.truthy url && JS.includes url "{res}"
    then JS.replace_first url "{res}" "856" else url in
  {| Sync.originalSource := url;
     Sync.mediaContentType :=
       if JS.truthy (Sync.mediaContentType media)
       then Sync.mediaContentType media else "IMAGE";
     Sync.alt := Sync.alt media |}.

(* what appendMediaToProduct returns *)
Record mediaResult := {
  mediaUserErrors : list userError;
  media : option (list mediaNode);
  warning : option string;
}.

(* lines 1022-1115 *)
Definition appendMediaToProduct (sv : services) (productId : string)
    (mediaInputs : list Sync.mediaInput) : M mediaResult :=
  if negb (JS.truthy productId) then
    Eff.throw (Err.mk ValidationError
      "Product ID is required to append media." "VALIDATION_ERROR")
  else
    match mediaInputs with
    | [] => Eff.ret {| mediaUserErrors := []; media := Some []; warning := None |}
    | _ :: _ =>
        let processedMediaInputs := map processMediaInput mediaInputs in
        Eff.try_catch
          (response <-
             request sv (ProductCreateMedia productId processedMediaInputs) ;;
           match response with
           | None => Eff.throw (TypeError "productCreateMedia")
           | Some data =>
               match productCreateMedia data with
               | None => Eff.throw (TypeError "mediaUserErrors")
               | Some payload =>
                   match mp_mediaUserErrors payload with
                   | _ :: _ =>
                       let failedCount :=
                         Z.of_nat (length (mp_mediaUserErrors payload)) in
                       Eff.ret {|
                         mediaUserErrors := mp_mediaUserErrors payload;
                         media := Some (default [] (mp_media payload));
                         warning := Some
                           (JS.Number_toString (JS.of_Z failedCount)
                            ++ " images failed validation. This is common with Bunjang image URLs due to regional server restrictions.") |}
                   | [] =>
                       Eff.ret {| mediaUserErrors := [];
                                  media := mp_media payload;
                                  warning := None |}
                   end
               end
           end)
          (fun error =>
             match cls error with
             | ExternalServiceError => Eff.throw error
             | _ =>
                 Eff.throw (Err.mk ExternalServiceError
                   ("Failed to append media to product " ++ productId)
                   "EXTERNAL_SERVICE_ERROR")
             end)
    end.

End Shopify.

(** ** Sample requests and answers of the Shopify service *)

Module ShopifyScenario.
Import Catalog Shopify.

Definition input : productInput := {|
  title := "Photocard set";
  descriptionHtml := "<p>Photocard set</p>";
  vendor := "BunjangImport";
  productType := "K-Pop";
  tags := ["bunjang_import"; "bunjang_pid:555"];
  status := "DRAFT";
  publishedAt := "";
|}.

Definition variant : Sync.variantInfo := {|
  Sync.vi_price := "17.50";
  Sync.vi_sku := "BJ-555";
  Sync.vi_inventoryPolicy := DENY;
  Sync.vi_quantity := JS.of_Z 1;
  Sync.vi_locationId := Some "gid://shopify/Location/1";
|}.

Definition listed : productNode := {|
  id := "gid://shopify/Product/1";
  handle := "photocard-set";
  variants := Some [{| n_id := "gid://shopify/ProductVariant/1";
                       n_sku := None;
                       n_inventoryItemId := Some "gid://shopify/InventoryItem/1" |}];
|}.

Definition no_data : data := {|
  productCreate := None;
  productUpdate := None;
  productVariant_product_id := None;
  productVariantsBulkUpdate := None;
  productVariantUpdate := None;
  inventorySetOnHandQuantities := None;
  publications := None;
  product_resourcePublicationsV2 := None;
  productCreateMedia := None;
|}.

Definition written : productPayload :=
  {| pp_product := Some listed; pp_userErrors := [] |}.

Definition rejected_image : mediaPayload := {|
  mp_media := None;
  mp_mediaUserErrors :=
    [{| e_field := Some ["media"; "0"; "originalSource"];
        e_message := "Image URL is invalid";
        e_code := Some "INVALID" |}];
|}.

Definition answer (payload : data) : outcome (option data) := Return (Some payload).

(* the two product mutations and the media mutation are answered, every
   other request fails *)
Definition only_mutations_answer : services := {|
  nowIso := fun _ => "2024-05-24T00:00:00.000Z";
  shopifyGraphqlRequest := fun _ op =>
    match op with
    | ProductCreate _ _ =>
        answer {| productCreate := Some written;
                  productUpdate := None;
                  productVariant_product_id := None;
                  productVariantsBulkUpdate := None;
                  productVariantUpdate := None;
                  inventorySetOnHandQuantities := None;
                  publications := None;
                  product_resourcePublicationsV2 := None;
                  productCreateMedia := None |}
    | ProductUpdate _ _ _ _ =>
        answer {| productCreate := None;
                  productUpdate := Some written;
                  productVariant_product_id := None;
                  productVariantsBulkUpdate := None;
                  productVariantUpdate := None;
                  inventorySetOnHandQuantities := None;
                  publications := None;
                  product_resourcePublicationsV2 := None;
                  productCreateMedia := None |}
    | ProductCreateMedia _ _ =>
        answer {| productCreate := None;
                  productUpdate := None;
                  productVariant_product_id := None;
                  productVariantsBulkUpdate := None;
                  productVariantUpdate := None;
                  inventorySetOnHandQuantities := None;
                  publications := None;
                  product_resourcePublicationsV2 := None;
                  productCreateMedia := Some rejected_image |}
    | _ =>
        Throw (Err.mk ExternalServiceError
                 "Shopify API request failed after all retries (Operation: UnnamedOperation)"
                 "EXTERNAL_SERVICE_ERROR")
    end;
|}.

Definition photo : Sync.mediaInput := {|
  Sync.originalSource := "http://media.bunjang.co.kr/product/555_1_{res}.jpg";
  Sync.mediaContentType := "IMAGE";
  Sync.alt := "Photocard set";
|}.

End ShopifyScenario.

(** ** middleware/shopifyWebhookValidator.js *)

Module Webhook.

(* what the middleware reads of the request: the header
   X-Shopify-Hmac-Sha256 and the raw body, a Buffer; None: undefined *)
Record request := {
  hmacHeader : option string;
  rawBody : option string;
}.

(* The exceptions that leave the function.  The file imports
   UnauthorizedError and ApiError only: the name AppError that its catch
   block tests the caught error against is not bound, and evaluating it
   throws a ReferenceError in place of the error caught. *)
Inductive thrown :=
  | UnauthorizedError (message code : string)
  | ApiError (message : string) (statusCode : Z) (code : string)
  | ReferenceError (message : string).

(* next() is called, or an exception is thrown *)
Inductive verdict :=
  | Next
  | Thrown (e : thrown).

(* Buffer.from(string), the UTF-8 bytes; the characters of a header
   value have codes below 256 *)
Definition utf8_char (c : ascii) : list nat :=
  let n := nat_of_ascii c in
  if (n <? 128)%nat then [n] else [192 + n / 64; 128 + n mod 64]%nat.

Fixpoint Buffer_from (s : string) : list nat :=
  match s with
  | EmptyString => []
  | String c s' => (utf8_char c ++ Buffer_from s')%list
  end.

(* crypto.timingSafeEqual on buffers of the same length *)
Definition timingSafeEqual (a b : list nat) : bool :=
  forallb (fun xy => (fst xy =? snd xy)%nat) (combine a b).

(* lines 15-58.  [digest] is crypto.createHmac('sha256',
   config.shopify.webhookSecret).update(rawBody).digest('base64'), which
   throws for a secret that is not a string or a buffer. *)
Definition verifyShopifyWebhook (digest : string -> outcome string)
    (req : request) : verdict :=
  match JS.nonempty_opt (hmacHeader req) with
  | None => Thrown (UnauthorizedError "HMAC 서명이 누락되었습니다." "HMAC_MISSING")
  | Some hmacHeader =>
      match JS.nonempty_opt (rawBody req) with
      | None =>
          Thrown (ApiError "HMAC 검증을 위한 원시 요청 본문이 없습니다." 400
                    "RAW_BODY_MISSING")
      | Some rawBody =>
          let caught := Thrown (ReferenceError "AppError is not defined") in
          match digest rawBody with
          | Return generatedHash =>
              let hmacBuffer := Buffer_from hmacHeader in
              let generatedHashBuffer := Buffer_from generatedHash in
              if (length hmacBuffer =? length generatedHashBuffer)%nat
                 && timingSafeEqual hmacBuffer generatedHashBuffer
              then Next
              else caught
          | Throw _ => caught
          end
      end
  end.

End Webhook.

(** ** Further vocabulary of the statements *)

Module Notions.

(** Orders *)

(* a line item whose SKU marks a product synced from the source:
   item.sku && item.sku.startsWith('BJ-') *)
Definition linked (item : OrderService.lineItem) : bool :=
  match JS.nonempty_opt (OrderService.sku item) with
  | Some s => JS.startsWith s "BJ-"
  | None => false
  end.

Definition is_update (c : OrderService.call) : bool :=
  match c with OrderService.UpdateOrder _ => true | _ => false end.

Definition is_lookup (c : OrderService.call) : bool :=
  match c with OrderService.ProductLookup _ => true | _ => false end.

Definition is_creation (c : OrderService.call) : bool :=
  match c with OrderService.CreateOrderV2 _ => true | _ => false end.

Definition count {A} (f : A -> bool) (l : list A) : nat :=
  length (List.filter f l).

(* the calls that a run from [st] to [st'] added to the log *)
Definition new_calls (st st' : OrderService.state) : list OrderService.call :=
  skipn (length (OrderService.log st)) (OrderService.log st').

(* From [st] to [st']: [n] order updates, at most as many lookups, and
   no more creations than lookups. *)
Definition updates_made (n : nat) (st st' : OrderService.state) : Prop :=
  exists evs,
    OrderService.log st' = (OrderService.log st ++ evs)%list
    /\ count is_update evs = n
    /\ (count is_lookup evs <= n)%nat
    /\ (count is_creation evs <= count is_lookup evs)%nat.

(** The retry loop *)

(* the queries of a request from attempt [first] on, a sleep between
   two of them *)
Fixpoint retry_trace (first : nat) (delays : list JS.number) : list Retry.event :=
  match delays with
  | [] => [Retry.Query first]
  | d :: ds => Retry.Query first :: Retry.Sleep d :: retry_trace (S first) ds
  end.

Definition is_query (ev : Retry.event) : bool :=
  match ev with Retry.Query _ => true | Retry.Sleep _ => false end.

(* error instanceof GraphqlQueryError with a status or message that the
   loop retries *)
Definition retryable (error : exn) : bool :=
  match cls error with
  | GraphqlQueryError => Retry.isThrottled error || Retry.isServerError error
  | _ => false
  end.

(** Strings *)

(* a string that does not begin with white space *)
Definition no_leading_space (s : string) : Prop :=
  match s with
  | String c _ => JS.is_whitespace c = false
  | EmptyString => True
  end.

(** Product sync *)

(* computations that leave the documents outside [P] as they are *)
Definition keeps_outside {A} (P : string -> Prop) (m : Sync.M A) : Prop :=
  forall w q, ~ P q -> Sync.store (snd (m w)) !! q = Sync.store w !! q.

(* what a returned result says about the document [d] found before the
   try block and the one in the store afterwards *)
Definition success_recorded (p : Catalog.product) (now : Z) (d : Sync.SyncedDoc)
    (res : outcome Sync.syncResult * Sync.world) : Prop :=
  forall r,
    fst res = Return r -> Sync.r_status r = Sync.success ->
    exists id handle priceString,
      Sync.r_shopifyGid r = Some id
      /\ id <> ""
      /\ Sync.store (snd res) !! Catalog.pid p
         = Some (Sync.set_synced now p id handle priceString d).






(** Shopify operations *)

(* the productCreate and the productUpdate mutation *)
Definition writes_product (op : Shopify.operation) : bool :=
  match op with
  | Shopify.ProductCreate _ _ | Shopify.ProductUpdate _ _ _ _ => true
  | _ => false
  end.

(* at most [n] further requests, none of them one of these two *)
Definition follow_ups (n : nat) (ops : list Shopify.operation) : Prop :=
  (length ops <= n)%nat /\ forallb (fun op => negb (writes_product op)) ops = true.

(* [m] makes at most [n] follow-up requests *)
Definition within {A} (n : nat) (m : Shopify.M A) : Prop :=
  forall l, exists ops, snd (m l) = (l ++ ops)%list /\ follow_ups n ops.

(* [m] returns, after at most [n] follow-up requests *)
Definition settles {A} (n : nat) (m : Shopify.M A) : Prop :=
  forall l, exists a ops, m l = (Return a, (l ++ ops)%list) /\ follow_ups n ops.

End Notions.


(** * Properties *)

(** ** Price calculation *)

Section PriceFacts.
Import JS Spec.

Lemma Qabs_signed (s : bool) (m : positive) (d : positive) :
  Qabs ((if s then Z.neg m else Z.pos m) # d) = (Z.pos m # d).
Proof. destruct s; reflexivity. Qed.

Lemma toFixed_n_nearest (s : bool) (m : positive) (e : Z) (f : nat) :
  (inject_Z (toFixed_n m e f) - (1 # 2)
     <= inject_Z (10 ^ Z.of_nat f) * Qabs (exact (S754_finite s m e)))%Q
  /\ (inject_Z (10 ^ Z.of_nat f) * Qabs (exact (S754_finite s m e))
     < inject_Z (toFixed_n m e f) + (1 # 2))%Q.
Proof.
  assert (Hp : 0 < 10 ^ Z.of_nat f) by (apply Z.pow_pos_nonneg; lia).
  set (p := 10 ^ Z.of_nat f) in *.
  destruct e as [|e'|e']; unfold toFixed_n, exact; fold p.
  - assert (E : forall z, inject_Z (z * 2 ^ 0) = (z # 1)) by (intros; unfold inject_Z; rewrite Z.pow_0_r, Z.mul_1_r; reflexivity).
    rewrite E. rewrite Qabs_signed.
    unfold Qle, Qlt, inject_Z; cbn. split; nia.
  - assert (H2 : 0 < 2 ^ Z.pos e') by (apply Z.pow_pos_nonneg; lia).
    replace ((if s then Z.neg m else Z.pos m) * 2 ^ Z.pos e')
      with (if s then - (Z.pos m * 2 ^ Z.pos e') else Z.pos m * 2 ^ Z.pos e')
      by (destruct s; lia).
    assert (A : Qabs (inject_Z (if s then - (Z.pos m * 2 ^ Z.pos e')
                               else Z.pos m * 2 ^ Z.pos e'))
                = inject_Z (Z.pos m * 2 ^ Z.pos e')).
    { unfold inject_Z, Qabs. f_equal. destruct s; lia. }
    rewrite A. unfold Qle, Qlt, inject_Z; cbn. split; nia.
  - rewrite Qabs_signed.
    assert (HD : Z.pos (2 ^ e') = 2 ^ Z.pos e') by apply Pos2Z.inj_pow.
    assert (H2 : 0 < 2 ^ Z.pos e') by (apply Z.pow_pos_nonneg; lia).
    set (D := 2 ^ Z.pos e') in *.
    pose proof (Z.mul_div_le (2 * Z.pos m * p + D) (2 * D) ltac:(lia)) as L.
    pose proof (Z.mul_succ_div_gt (2 * Z.pos m * p + D) (2 * D) ltac:(lia)) as U.
    set (n := (2 * Z.pos m * p + D) `div` (2 * D)) in *.
    unfold Qle, Qlt, inject_Z, Qminus, Qplus, Qopp, Qmult; cbn [Qnum Qden].
    rewrite ?Pos2Z.inj_mul, ?HD. split; nia.
Qed.

(** Strings: length and substring over an append *)

Lemma append_cons (c : ascii) (s t : string) : String c s ++ t = String c (s ++ t).
Proof. reflexivity. Qed.

Lemma append_nil (t : string) : "" ++ t = t.
Proof. reflexivity. Qed.

Lemma length_append (s t : string) :
  String.length (s ++ t) = (String.length s + String.length t)%nat.
Proof. induction s as [|c s IH]; simpl; [reflexivity | now rewrite IH]. Qed.

Lemma substring_full (s : string) : substring 0 (String.length s) s = s.
Proof. induction s as [|c s IH]; simpl; [reflexivity | now rewrite IH]. Qed.

Lemma substring_prefix_append (s t : string) :
  substring 0 (String.length s) (s ++ t) = s.
Proof. induction s as [|c s IH]; simpl; [now destruct t | now rewrite IH]. Qed.

Lemma substring_skip_append (s t : string) (n m : nat) :
  substring (String.length s + n) m (s ++ t) = substring n m t.
Proof. induction s as [|c s IH]; simpl; [reflexivity | apply IH]. Qed.

Lemma substring_split (s : string) (a : nat) :
  (a <= String.length s)%nat ->
  substring 0 a s ++ substring a (String.length s - a) s = s.
Proof.
  revert a. induction s as [|c s IH]; intros [|a] H; simpl in *; try lia.
  - reflexivity.
  - rewrite append_nil. now rewrite substring_full.
  - rewrite append_cons. f_equal. apply IH. lia.
Qed.

Lemma length_substring (s : string) (a b : nat) :
  (a + b <= String.length s)%nat -> String.length (substring a b s) = b.
Proof.
  revert a b. induction s as [|c s IH]; intros [|a] [|b] H; simpl in *;
    try lia; try reflexivity.
  - f_equal. apply (IH 0%nat). lia.
  - apply IH. lia.
  - apply IH. lia.
Qed.

Lemma length_zeros (j : nat) : String.length (zeros j) = j.
Proof. induction j; simpl; congruence. Qed.

Lemma read_zeros_digits (j : nat) (n : Z) :
  0 <= n ->
  option_map (fun u => Z.of_N (N.of_uint u))
    (NilEmpty.uint_of_string (zeros j ++ digits n)) = Some n.
Proof.
  intros Hn. induction j as [|j IH].
  - cbn [zeros]. rewrite append_nil. unfold digits. rewrite NilEmpty.usu. cbn.
    rewrite DecimalN.Unsigned.of_to. f_equal. lia.
  - cbn [zeros]. rewrite append_cons. cbn [NilEmpty.uint_of_string].
    destruct (NilEmpty.uint_of_string (zeros j ++ digits n)) as [u|];
      [|discriminate].
    cbn in *. exact IH.
Qed.

(** The string [fixed_digits n 2] reads back as [n] hundredths. *)
Lemma read_fixed_digits (n : Z) :
  0 <= n -> read_fixed2 (fixed_digits n 2) = Some n.
Proof.
  intros Hn. unfold fixed_digits.
  set (m' := if (String.length (digits n) <=? 2)%nat
             then zeros (2 + 1 - String.length (digits n)) ++ digits n
             else digits n).
  assert (Hlen : (3 <= String.length m')%nat).
  { unfold m'. destruct (Nat.leb_spec (String.length (digits n)) 2).
    - rewrite length_append, length_zeros. lia.
    - lia. }
  assert (Hread : option_map (fun u => Z.of_N (N.of_uint u))
                    (NilEmpty.uint_of_string m') = Some n).
  { unfold m'. destruct (String.length (digits n) <=? 2)%nat.
    - now apply read_zeros_digits.
    - now apply (read_zeros_digits 0). }
  set (k' := String.length m') in *.
  set (a := substring 0 (k' - 2) m').
  set (b := substring (k' - 2) 2 m').
  assert (Ha : String.length a = (k' - 2)%nat)
    by (apply length_substring; fold k'; lia).
  assert (Hb : String.length b = 2%nat)
    by (apply length_substring; fold k'; lia).
  assert (Hab : a ++ b = m').
  { pose proof (substring_split m' (k' - 2) ltac:(fold k'; lia)) as Hs.
    replace (String.length m' - (k' - 2))%nat with 2%nat in Hs by (fold k'; lia).
    exact Hs. }
  unfold read_fixed2.
  rewrite !length_append, Ha, Hb. cbn [String.length].
  replace (k' - 2 + (1 + 2) - 3)%nat with (String.length a + 0)%nat by lia.
  replace (k' - 2 + (1 + 2) - 2)%nat with (String.length a + 1)%nat by lia.
  replace (4 <=? k' - 2 + (1 + 2))%nat with true
    by (symmetry; apply Nat.leb_le; lia).
  rewrite !substring_skip_append. rewrite Nat.add_0_r.
  rewrite substring_prefix_append.
  rewrite append_cons, append_nil.
  assert (Hb' : substring 0 2 b = b) by (rewrite <- Hb at 1; apply substring_full).
  cbn [substring]. rewrite Hb'. cbn [String.eqb Ascii.eqb Bool.eqb andb].
  replace (substring 0 0 b) with "" by (destruct b; reflexivity).
  rewrite Hab. exact Hread.
Qed.

Lemma geb_zero_valid (x : number) :
  geb x PriceCalculation.zero = true ->
  isNaN x || ltb x PriceCalculation.zero = false.
Proof. destruct x as [[]|[]| |[] m e]; cbv; congruence. Qed.

Lemma gtb_zero_valid (x : number) :
  gtb x PriceCalculation.zero = true ->
  isNaN x || leb x PriceCalculation.zero = false.
Proof. destruct x as [[]|[]| |[] m e]; cbv; congruence. Qed.

Lemma ge_1e21_false (s : bool) (m : positive) (e : Z) :
  (Qabs (exact (S754_finite s m e)) < inject_Z (10 ^ 21))%Q ->
  ge_1e21 m e = false.
Proof.
  unfold ge_1e21, exact. destruct e as [|e'|e'].
  - replace ((if s then Z.neg m else Z.pos m) * 2 ^ 0)
      with (if s then Z.neg m else Z.pos m) by (destruct s; lia).
    change (inject_Z (if s then Z.neg m else Z.pos m))
      with ((if s then Z.neg m else Z.pos m) # 1).
    rewrite Qabs_signed. unfold Qlt, inject_Z; cbn [Qnum Qden].
    intros H. apply Z.leb_gt. lia.
  - assert (A : Qabs (inject_Z ((if s then Z.neg m else Z.pos m) * 2 ^ Z.pos e'))
                = inject_Z (Z.pos m * 2 ^ Z.pos e')).
    { assert (0 < 2 ^ Z.pos e') by (apply Z.pow_pos_nonneg; lia).
      unfold inject_Z, Qabs. f_equal. destruct s; cbn [Qnum]; nia. }
    rewrite A. unfold Qlt, inject_Z; cbn [Qnum Qden].
    intros H. apply Z.leb_gt. lia.
  - rewrite Qabs_signed. unfold Qlt, inject_Z; cbn [Qnum Qden].
    rewrite Pos2Z.inj_pow. intros H. apply Z.leb_gt. lia.
Qed.

End PriceFacts.

(** C1 (as amended).  The listing price is the double
    [krw * rate * (1 + markup/100) + fee] rendered by [toFixed(2)]:
    whenever that double is finite and below 10^21 in magnitude, the
    result is its sign followed by the digits of an integer number [n]
    of hundredths with a point before the last two, and [n] is the
    integer nearest to 100 times the exact value of the double (the
    larger one on a tie).  For the price 10000, the rate 0.00075, a
    markup of 20 % and a fee of 2 the result is "11.00". *)
Theorem price_is_final_price_to_two_decimals :
  (forall (S : Type) (cfg : PriceCalculation.config)
          (getKrwToUsdRate : Eff.M S JS.number) (s s' : S)
          (krw rate : JS.number),
      getKrwToUsdRate s = (Return rate, s') ->
      JS.geb krw PriceCalculation.zero = true ->
      JS.gtb rate PriceCalculation.zero = true ->
      JS.is_finite (PriceCalculation.finalPriceUsd cfg krw rate) = true ->
      (Qabs (Spec.exact (PriceCalculation.finalPriceUsd cfg krw rate))
         < inject_Z (10 ^ 21))%Q ->
      exists n : Z,
        PriceCalculation.calculateShopifyPriceUsd cfg getKrwToUsdRate krw s
        = (Return
             (JS.sign_prefix
                (Spec.is_negative (PriceCalculation.finalPriceUsd cfg krw rate))
              ++ JS.fixed_digits n 2), s')
        /\ Spec.read_fixed2 (JS.fixed_digits n 2) = Some n
        /\ (inject_Z n - (1 # 2)
              <= 100 * Qabs (Spec.exact (PriceCalculation.finalPriceUsd cfg krw rate)))%Q
        /\ (100 * Qabs (Spec.exact (PriceCalculation.finalPriceUsd cfg krw rate))
              < inject_Z n + (1 # 2))%Q)
  /\ PriceCalculation.calculateShopifyPriceUsd Scenario.price_cfg
       (Eff.ret Scenario.rate) (JS.of_Z 10000) tt
     = (Return "11.00", tt).
Proof.
  split; [|vm_compute; reflexivity].
  intros S cfg getRate s s' krw rate Hrate Hkrw Hr Hfin Hlt.
  unfold PriceCalculation.calculateShopifyPriceUsd.
  rewrite (geb_zero_valid _ Hkrw).
  unfold Eff.bind, Eff.try_catch. rewrite Hrate.
  unfold PriceCalculation.convertKrwToUsd.
  rewrite (geb_zero_valid _ Hkrw), (gtb_zero_valid _ Hr).
  unfold Eff.ret.
  change (JS.add (JS.mul (JS.mul krw rate)
            (JS.add (JS.of_Z 1)
               (JS.div (PriceCalculation.markupPercentage cfg) (JS.of_Z 100))))
            (PriceCalculation.handlingFeeUsd cfg))
    with (PriceCalculation.finalPriceUsd cfg krw rate).
  destruct (PriceCalculation.finalPriceUsd cfg krw rate) as [z|z| |sg m e];
    try discriminate Hfin.
  - exists 0. repeat split; try reflexivity; vm_compute; congruence.
  - exists (JS.toFixed_n m e 2).
    assert (Hn : 0 <= JS.toFixed_n m e 2).
    { unfold JS.toFixed_n. destruct e as [|e'|e'].
      - lia.
      - assert (0 < 2 ^ Z.pos e') by (apply Z.pow_pos_nonneg; lia). nia.
      - assert (0 < 2 ^ Z.pos e') by (apply Z.pow_pos_nonneg; lia).
        apply Z.div_pos; nia. }
    unfold JS.toFixed. rewrite (ge_1e21_false _ _ _ Hlt).
    split; [reflexivity|]. split; [now apply read_fixed_digits|].
    exact (toFixed_n_nearest sg m e 2).
Qed.

(** The theorem at the scenario of the specification. *)
Lemma price_is_final_price_to_two_decimals_witness :
  exists n : Z,
    PriceCalculation.calculateShopifyPriceUsd Scenario.price_cfg
      (Eff.ret Scenario.rate) (JS.of_Z 10000) tt
    = (Return
         (JS.sign_prefix
            (Spec.is_negative
               (PriceCalculation.finalPriceUsd Scenario.price_cfg (JS.of_Z 10000)
                  Scenario.rate))
          ++ JS.fixed_digits n 2), tt)
    /\ Spec.read_fixed2 (JS.fixed_digits n 2) = Some n
    /\ (inject_Z n - (1 # 2)
          <= 100 * Qabs (Spec.exact
                 (PriceCalculation.finalPriceUsd Scenario.price_cfg (JS.of_Z 10000)
                    Scenario.rate)))%Q
    /\ (100 * Qabs (Spec.exact
                 (PriceCalculation.finalPriceUsd Scenario.price_cfg (JS.of_Z 10000)
                    Scenario.rate))
          < inject_Z n + (1 # 2))%Q.
Proof.
  apply (proj1 price_is_final_price_to_two_decimals unit Scenario.price_cfg
           (Eff.ret Scenario.rate) tt tt (JS.of_Z 10000) Scenario.rate).
  - reflexivity.
  - vm_compute; reflexivity.
  - vm_compute; reflexivity.
  - vm_compute; reflexivity.
  - vm_compute; reflexivity.
Defined.

(** C1 as stated fails: a source amount of 1e25 is a number >= 0, and
    with the rate 0.00075, 20 % and 2 the result is not a fixed-point
    decimal string. *)
Lemma price_not_fixed_point_counterexample :
  PriceCalculation.calculateShopifyPriceUsd Scenario.price_cfg
    (Eff.ret Scenario.rate) (JS.parseFloat "1e25") tt
  = (Return "9.000000000000001e+21", tt)
  /\ Spec.read_fixed2 "9.000000000000001e+21" = None
  /\ JS.geb (JS.parseFloat "1e25") PriceCalculation.zero = true
  /\ JS.gtb Scenario.rate PriceCalculation.zero = true.
Proof. vm_compute. repeat split; reflexivity. Qed.

Example price_of_Infinity :
  PriceCalculation.calculateShopifyPriceUsd Scenario.price_cfg
    (Eff.ret Scenario.rate) JS.Infinity tt
  = (Return "Infinity", tt).
Proof. vm_compute; reflexivity. Qed.


(** ** The record normaliser and the transformation *)

Section CatalogFacts.
Import JS Catalog Spec.

Lemma truthy_false (s : string) : truthy s = false <-> s = "".
Proof.
  unfold truthy. rewrite negb_false_iff. apply String.eqb_eq.
Qed.

Lemma truthy_true (s : string) : truthy s = true <-> s <> "".
Proof.
  unfold truthy. rewrite negb_true_iff. apply String.eqb_neq.
Qed.




Lemma processCatalogRow_drops (en : engine) (cfg : config) (r : row) :
  processCatalogRow en cfg r
  = if drops cfg (buildProduct en r) then None else Some (buildProduct en r).
Proof.
  unfold processCatalogRow, drops.
  destruct (negb (String.eqb (saleStatus (buildProduct en r)) "SELLING"));
    [reflexivity|].
  destruct (negb (truthy (pid (buildProduct en r)))
            || negb (truthy (name (buildProduct en r)))
            || isNaN (price (buildProduct en r))
            || negb (is_some (updatedAt (buildProduct en r)))); [reflexivity|].
  destruct ((0 <? length (filterCategoryIds cfg))%nat
            && truthy (categoryId (buildProduct en r))
            && negb (existsb (String.eqb (categoryId (buildProduct en r)))
                       (filterCategoryIds cfg))); [reflexivity|].
  destruct (ltb (price (buildProduct en r)) PriceCalculation.zero
            || negb (isNaN (quantity (buildProduct en r)))
               && ltb (quantity (buildProduct en r)) PriceCalculation.zero);
    reflexivity.
Qed.




End CatalogFacts.



Section QuantityFacts.
Import JS Catalog Spec.

Lemma eqb_zero (q : number) :
  eqb q PriceCalculation.zero = true -> exists s, q = S754_zero s.
Proof.
  destruct q as [s|s| |s m e]; cbv; try discriminate; try (destruct s; discriminate).
  intros _. now exists s.
Qed.







End QuantityFacts.






(** ** The order service *)

Section OrderFacts.
Import JS OrderMapper OrderService Spec.




Ltac oracle_case :=
  match goal with
  | |- context [updateOrder ?sv ?l ?i] =>
      destruct (updateOrder sv l i) as [[]|?] eqn:?
  | |- context [postOrder ?sv ?l ?p] =>
      destruct (postOrder sv l p) as [[?|]|?] eqn:?
  | |- context [productLookup ?sv ?l ?p] =>
      destruct (productLookup sv l p) as [[?|]|?] eqn:?
  | |- context [mapShopifyItemToBunjangOrderPayload ?p ?d] =>
      destruct (mapShopifyItemToBunjangOrderPayload p d) as [[?|]|?] eqn:?
  | |- context [truthy_id ?o] => destruct (truthy_id o) eqn:?
  | |- context [Err.instanceof_AppError ?e] =>
      destruct (Err.instanceof_AppError e) eqn:?
  end.





(* with a destination that accepts the updates nothing is thrown *)
Lemma processLinkedItem_returns (sv : services) (gid ident pid : string) (st : state) :
  updates_accepted sv ->
  fst (processLinkedItem sv gid ident pid st) = Return tt.
Proof.
  intros Hu.
  unfold processLinkedItem, getBunjangProductDetails, createBunjangOrderV2,
    shopify_updateOrder, recordCreated, remote,
    Eff.try_catch, Eff.bind, Eff.ret, Eff.throw.
  destruct (negb (truthy pid));
    repeat (cbn [fst snd log createdBunjangOrderIds
                   bunjangOrderSuccessfullyCreatedOverall]; oracle_case);
    try reflexivity;
    repeat match goal with
           | E : updateOrder _ _ _ = Throw _ |- _ => rewrite Hu in E; discriminate
           end.
Qed.

Lemma bind_returns {S A B} (m : Eff.M S A) (k : A -> Eff.M S B) (st : S) (b : B) :
  (exists a, fst (m st) = Return a) ->
  (forall a st1, fst (k a st1) = Return b) ->
  fst (Eff.bind m k st) = Return b.
Proof.
  intros [a Hm] Hk. unfold Eff.bind. destruct (m st) as [[a'|e] st1]; cbn [fst] in *.
  - apply Hk.
  - discriminate.
Qed.

Lemma processItems_returns (sv : services) (gid ident : string)
    (items : list lineItem) (st : state) :
  updates_accepted sv ->
  fst (processItems sv gid ident items st) = Return tt.
Proof.
  intros Hu. revert st. induction items as [|item rest IH]; intros st.
  - reflexivity.
  - cbn [processItems]. apply bind_returns; [|intros _ st1; apply IH].
    exists tt.
    destruct (nonempty_opt (sku item)) as [s|]; [|reflexivity].
    destruct (startsWith s "BJ-"); [|reflexivity].
    now apply processLinkedItem_returns.
Qed.

Lemma emits_only_refl (P : call -> Prop) (st : state) : emits_only P st st.
Proof. exists []. now rewrite app_nil_r. Qed.

Lemma emits_only_bind (P : call -> Prop) {A B} (m : M A) (k : A -> M B) (st : state) :
  emits_only P st (snd (m st)) ->
  (forall a st1, emits_only P st1 (snd (k a st1))) ->
  emits_only P st (snd (Eff.bind m k st)).
Proof.
  intros Hm Hk. unfold Eff.bind. destruct (m st) as [[a|e] st1]; cbn [snd] in *;
    [|exact Hm].
  destruct Hm as (e1 & L1 & F1). destruct (Hk a st1) as (e2 & L2 & F2).
  exists (e1 ++ e2)%list. rewrite L2, L1, app_assoc. split; [reflexivity|].
  now apply Forall_app.
Qed.

Lemma mapper_deliveryPrice (pid : string) (d : productDetails) (p : payload) :
  mapShopifyItemToBunjangOrderPayload pid d = Return (Some p) ->
  deliveryPrice p = JS.of_Z 0.
Proof.
  unfold mapShopifyItemToBunjangOrderPayload.
  destruct (negb (truthy pid)); [discriminate|].
  destruct (pd_price d); [|discriminate].
  destruct (pd_shippingFee d); [|discriminate].
  destruct (_ || _); [discriminate|].
  destruct (_ || _); [discriminate|].
  intros H. injection H as <-. reflexivity.
Qed.

Ltac fee_done :=
  unfold emits_only;
  cbn [fst snd log createdBunjangOrderIds bunjangOrderSuccessfullyCreatedOverall];
  eexists; split; [rewrite <- ?app_assoc; cbn [app]; reflexivity|];
  repeat constructor; cbn [shipping_fee_zero u_metafields deliveryPrice];
  try reflexivity;
  try (intros mf Hin Hkey; cbn [In] in Hin;
       repeat (destruct Hin as [<-|Hin]; [try discriminate Hkey|]);
       try contradiction).

Lemma processLinkedItem_fee (sv : services) (gid ident pid : string) (st : state) :
  emits_only shipping_fee_zero st (snd (processLinkedItem sv gid ident pid st)).
Proof.
  unfold processLinkedItem, getBunjangProductDetails, createBunjangOrderV2,
    shopify_updateOrder, recordCreated, remote,
    Eff.try_catch, Eff.bind, Eff.ret, Eff.throw.
  destruct (negb (truthy pid));
    repeat (cbn [fst snd log createdBunjangOrderIds
                   bunjangOrderSuccessfullyCreatedOverall]; oracle_case);
    fee_done.
  all: cbn [value integer_field];
    match goal with
    | E : mapShopifyItemToBunjangOrderPayload _ _ = Return (Some _) |- _ =>
        rewrite (mapper_deliveryPrice _ _ _ E)
    end; reflexivity.
Qed.

Lemma processItems_fee (sv : services) (gid ident : string) (items : list lineItem)
    (st : state) :
  emits_only shipping_fee_zero st (snd (processItems sv gid ident items st)).
Proof.
  revert st. induction items as [|item rest IH]; intros st.
  - apply emits_only_refl.
  - cbn [processItems]. apply emits_only_bind; [|intros _ st1; apply IH].
    destruct (nonempty_opt (sku item)) as [s|]; [|apply emits_only_refl].
    destruct (startsWith s "BJ-"); [|apply emits_only_refl].
    apply processLinkedItem_fee.
Qed.

Lemma truthy_id_nonzero (n : Z) : n <> 0 -> truthy_id (Some n) = Some n.
Proof. destruct n; cbn; congruence. Qed.

Lemma nonempty_opt_Some (g : string) : g <> "" -> nonempty_opt (Some g) = Some g.
Proof. intros H. cbn. apply truthy_true in H. now rewrite H. Qed.

(* a valid order runs the loop from fresh accumulators *)
Lemma process_valid (prefix : string) (sv : services) (order : shopifyOrder)
    (st : state) (n : Z) (g : string) (items : list lineItem) :
  o_id order = Some n -> n <> 0 ->
  admin_graphql_api_id order = Some g -> g <> "" ->
  line_items order = Some items -> items <> [] ->
  processShopifyOrderForBunjang prefix sv order st
  = let st0 := {| log := log st; bunjangOrderSuccessfullyCreatedOverall := false;
                  createdBunjangOrderIds := [] |} in
    match processItems sv g (prefix ++ Number_toString (of_Z n)) items st0 with
    | (Return _, st') =>
        (Return
           (if bunjangOrderSuccessfullyCreatedOverall st' then
              {| r_success := true;
                 r_bunjangOrderIds := Some (createdBunjangOrderIds st');
                 r_message := "번개장터 주문(들) 생성 성공: "
                              ++ String.concat ", " (createdBunjangOrderIds st') |}
            else
              {| r_success := false; r_bunjangOrderIds := None;
                 r_message := "Shopify 주문에 포함된 번개장터 연동 상품에 대해 번개장터 주문을 생성하지 못했습니다." |}),
         st')
    | (Throw e, st') => (Throw e, st')
    end.
Proof.
  intros Hid Hn Hg Hg' Hl Hi. unfold processShopifyOrderForBunjang.
  rewrite Hid, Hg, Hl, (truthy_id_nonzero _ Hn), (nonempty_opt_Some _ Hg').
  destruct items as [|item items]; [congruence|].
  unfold Eff.bind, declareAccumulators. cbn zeta.
  destruct (processItems sv g _ (item :: items) _) as [[[]|e] st']; [|reflexivity].
  destruct (bunjangOrderSuccessfullyCreatedOverall st'); reflexivity.
Qed.


End OrderFacts.




(** C3: what the code does.  Every creation call sends the delivery
    price 0; but the fee written to the destination order as the actual
    shipping fee is "0" as well, for every order and every answer of the
    source: the mapper has already put 0 where the order service reads
    the actual fee.  For the product 555, whose shipping fee is 3000,
    the order update carries actual_bunjang_shipping_fee_krw = "0". *)
Theorem actual_shipping_fee_written_as_zero :
  (forall (prefix : string) (sv : OrderService.services)
          (order : OrderService.shopifyOrder) (st : OrderService.state),
      exists evs,
        OrderService.log
          (snd (OrderService.processShopifyOrderForBunjang prefix sv order st))
        = (OrderService.log st ++ evs)%list
        /\ Forall Spec.shipping_fee_zero evs)
  /\ OrderService.log
       (snd (OrderService.processShopifyOrderForBunjang "BJ_ORDER_"
               Scenario.source_has_555 Scenario.order_555 OrderService.initial))
     = [OrderService.ProductLookup "555";
        OrderService.CreateOrderV2
          {| OrderMapper.product :=
               {| OrderMapper.pp_id := JS.of_Z 555;
                  OrderMapper.pp_price := JS.of_Z 10000 |};
             OrderMapper.deliveryPrice := JS.of_Z 0 |};
        OrderService.UpdateOrder
          {| OrderService.u_id := "gid://shopify/Order/1001";
             OrderService.u_tags :=
               ["BunjangOrderPlaced"; "BJ_ORDER_1001"; "BunjangOrderID-9001"];
             OrderService.u_metafields :=
               [OrderService.text_field "order_id" "9001";
                OrderService.text_field "ordered_pid" "555";
                OrderService.integer_field "ordered_item_price_krw" "10000";
                OrderService.integer_field "api_sent_shipping_fee_krw" "0";
                OrderService.integer_field "actual_bunjang_shipping_fee_krw" "0"] |}].
Proof.
  split; [|vm_compute; reflexivity].
  intros prefix sv order st. unfold OrderService.processShopifyOrderForBunjang.
  destruct (OrderService.truthy_id (OrderService.o_id order)) as [n|];
    [|exists []; cbn; now rewrite app_nil_r].
  destruct (JS.nonempty_opt (OrderService.admin_graphql_api_id order)) as [g|];
    [|exists []; cbn; now rewrite app_nil_r].
  destruct (OrderService.line_items order) as [[|item items]|];
    try (exists []; cbn; now rewrite app_nil_r).
  unfold Eff.bind at 1. unfold OrderService.declareAccumulators at 1.
  unfold Eff.bind.
  destruct (processItems_fee sv g (prefix ++ JS.Number_toString (JS.of_Z n))
              (item :: items)
              {| OrderService.log := OrderService.log st;
                 OrderService.bunjangOrderSuccessfullyCreatedOverall := false;
                 OrderService.createdBunjangOrderIds := [] |}) as (evs & L & F).
  exists evs. split; [|exact F].
  destruct (OrderService.processItems sv g _ (item :: items) _) as [[[]|e] st1];
    cbn [snd OrderService.log] in *; [|exact L].
  destruct (OrderService.bunjangOrderSuccessfullyCreatedOverall st1); exact L.
Qed.

(** ** The retry loop *)

Section FloatFacts.
Import JS Spec.

(** The rounding of a non-negative mantissa is never NaN. *)















(** Comparison *)

Lemma SFcompare_antisym (x y : number) :
  SFcompare y x = option_map CompOpp (SFcompare x y).
Proof.
  destruct x as [sx|sx| |sx mx ex], y as [sy|sy| |sy my ey];
    try reflexivity;
    try (destruct sx; reflexivity); try (destruct sy; reflexivity);
    try (destruct sx, sy; reflexivity).
  cbn. destruct sx, sy; try reflexivity;
    rewrite (Z.compare_antisym ex ey);
    destruct (ex ?= ey) eqn:E; cbn; try reflexivity;
    rewrite (Pos.compare_cont_antisym mx my Eq); cbn;
    destruct (Pos.compare_cont Eq mx my); reflexivity.
Qed.

Lemma leb_refl (x : number) : isNaN x = false -> leb x x = true.
Proof.
  destruct x as [s|s| |s m e]; try discriminate; intros _;
    unfold leb, SFleb; cbn.
  - reflexivity.
  - destruct s; reflexivity.
  - destruct s; rewrite Z.compare_refl, Pos.compare_cont_refl; reflexivity.
Qed.

Lemma ltb_leb (x y : number) : ltb x y = true -> leb x y = true.
Proof.
  unfold ltb, leb, SFltb, SFleb. destruct (SFcompare x y) as [[]|]; congruence.
Qed.

Lemma not_ltb_leb (x y : number) :
  isNaN x = false -> isNaN y = false -> ltb x y = false -> leb y x = true.
Proof.
  intros Hx Hy. unfold ltb, leb, SFltb, SFleb. rewrite (SFcompare_antisym x y).
  destruct x, y; try discriminate;
    destruct (SFcompare _ _) as [[]|] eqn:E; cbn; try congruence;
    cbn in E; discriminate.
Qed.

Lemma Math_max_not_NaN (a b : number) :
  isNaN a = false -> isNaN b = false -> isNaN (Math_max a b) = false.
Proof.
  intros Ha Hb. unfold Math_max. rewrite Ha, Hb. cbn.
  destruct (ltb a b); [exact Hb|]. destruct (ltb b a); [exact Ha|].
  destruct a as [[]| | |]; assumption.
Qed.


Lemma Math_max_ge_l (a b : number) :
  isNaN a = false -> isNaN b = false -> geb (Math_max a b) a = true.
Proof.
  intros Ha Hb. unfold geb, Math_max. rewrite Ha, Hb. cbn [orb].
  change SFleb with leb.
  destruct (ltb a b) eqn:E1; [now apply ltb_leb|].
  destruct (ltb b a) eqn:E2; [now apply leb_refl|].
  assert (leb a b = true) by now apply not_ltb_leb.
  destruct a as [[]| | |]; try assumption; now apply leb_refl.
Qed.


End FloatFacts.

Section RetryFacts.
Import JS Retry Spec.










End RetryFacts.



(** The whole request, for the two responses. *)
Example request_after_429_with_retry_after_5 :
  Retry.shopifyGraphqlRequest Scenario.retry_cfg
    (Scenario.answers_after (Scenario.http_error 429 (Some "5"))) "orderUpdate" []
  = (Return {| Retry.b_errors := []; Retry.b_data := Some "{}" |},
     [Retry.Query 0; Retry.Sleep (JS.of_Z 5500); Retry.Query 1]).
Proof. vm_compute; reflexivity. Qed.

Example request_after_404 :
  exists fatal,
    Retry.shopifyGraphqlRequest Scenario.retry_cfg
      (Scenario.answers_after (Scenario.http_error 404 None)) "orderUpdate" []
    = (Throw fatal, [Retry.Query 0])
    /\ cls fatal = ExternalServiceError.
Proof. eexists. split; [vm_compute; reflexivity | reflexivity]. Qed.

(** Without jitter (a random draw of 0.5) the default delays are 2000,
    4000 and 8000 ms; the draws 0 and 1 - 2^-53 give the ends of the
    jitter range. *)
Example default_delays :
  map (fun n => Retry.jittered Scenario.retry_cfg n (JS.of_decimal false 5 (-1)))
    [0; 1; 2]%nat
  = [JS.of_Z 2000; JS.of_Z 4000; JS.of_Z 8000]
  /\ map (fun n => Retry.jittered Scenario.retry_cfg n (JS.of_Z 0)) [0; 1; 2]%nat
     = [JS.of_Z 1400; JS.of_Z 2800; JS.of_Z 5600]
  /\ map (fun n => Retry.jittered Scenario.retry_cfg n
                     (S754_finite false 9007199254740991 (-53))) [0; 1; 2]%nat
     = [JS.of_Z 2600; JS.of_Z 5200; JS.of_Z 10400].
Proof. vm_compute. repeat split; reflexivity. Qed.

(** ** Product sync: the order of the store operations and the remote calls *)

Section TraceFacts.
Import JS Catalog Sync Spec.

Lemma traces_ret {A} (P : list event -> Prop) (a : A) :
  P [] -> traces P (Eff.ret a).
Proof. intros H w. exists []. cbn. now rewrite app_nil_r. Qed.

Lemma traces_throw {A} (P : list event -> Prop) (e : exn) :
  P [] -> traces P (@Eff.throw world A e).
Proof. intros H w. exists []. cbn. now rewrite app_nil_r. Qed.

Lemma traces_bind {A B} (P Q R : list event -> Prop) (m : M A) (k : A -> M B) :
  traces P m -> (forall a, traces Q (k a)) ->
  (forall e1, P e1 -> R e1) ->
  (forall e1 e2, P e1 -> Q e2 -> R (e1 ++ e2)%list) ->
  traces R (Eff.bind m k).
Proof.
  intros Hm Hk H1 H2 w. unfold Eff.bind.
  destruct (Hm w) as (e1 & L1 & P1).
  destruct (m w) as [[a|e] w1]; cbn [snd] in *.
  - destruct (Hk a w1) as (e2 & L2 & Q2).
    exists (e1 ++ e2)%list. rewrite L2, L1, app_assoc. split; [reflexivity|].
    now apply H2.
  - exists e1. split; [exact L1 | now apply H1].
Qed.

Lemma traces_try_catch {A} (P Q R : list event -> Prop) (m : M A) (h : exn -> M A) :
  traces P m -> (forall e, traces Q (h e)) ->
  (forall e1, P e1 -> R e1) ->
  (forall e1 e2, P e1 -> Q e2 -> R (e1 ++ e2)%list) ->
  traces R (Eff.try_catch m h).
Proof.
  intros Hm Hh H1 H2 w. unfold Eff.try_catch.
  destruct (Hm w) as (e1 & L1 & P1).
  destruct (m w) as [[a|e] w1]; cbn [snd] in *.
  - exists e1. split; [exact L1 | now apply H1].
  - destruct (Hh e w1) as (e2 & L2 & Q2).
    exists (e1 ++ e2)%list. rewrite L2, L1, app_assoc. split; [reflexivity|].
    now apply H2.
Qed.

Lemma traces_weaken {A} (P Q : list event -> Prop) (m : M A) :
  traces P m -> (forall e, P e -> Q e) -> traces Q m.
Proof.
  intros Hm H w. destruct (Hm w) as (e & L & Pe). exists e. split; [exact L | now apply H].
Qed.

Lemma calls_only_ret {A} (a : A) : calls_only (Eff.ret a).
Proof.
  intros w. exists []. cbn. rewrite app_nil_r. split; [now destruct w | constructor].
Qed.

Lemma calls_only_throw {A} (e : exn) : calls_only (@Eff.throw world A e).
Proof.
  intros w. exists []. cbn. rewrite app_nil_r. split; [now destruct w | constructor].
Qed.

Lemma calls_only_remote {A} (c : call) (f : list event -> outcome A) :
  calls_only (remote c f).
Proof.
  intros w. exists [Remote c]. split; [reflexivity|]. repeat constructor.
Qed.

Lemma calls_only_nowIso (sv : services) : calls_only (nowIso_ sv).
Proof.
  intros w. exists []. cbn. rewrite app_nil_r. split; [now destruct w | constructor].
Qed.

Lemma calls_only_bind {A B} (m : M A) (k : A -> M B) :
  calls_only m -> (forall a, calls_only (k a)) -> calls_only (Eff.bind m k).
Proof.
  intros Hm Hk w. unfold Eff.bind. destruct (Hm w) as (e1 & W1 & F1).
  destruct (m w) as [[a|e] w1]; cbn [snd] in *.
  - destruct (Hk a w1) as (e2 & W2 & F2). exists (e1 ++ e2)%list.
    rewrite W2, W1. cbn. rewrite app_assoc. split; [reflexivity|].
    now apply Forall_app.
  - exists e1. now split.
Qed.

Lemma calls_only_try_catch {A} (m : M A) (h : exn -> M A) :
  calls_only m -> (forall e, calls_only (h e)) -> calls_only (Eff.try_catch m h).
Proof.
  intros Hm Hh w. unfold Eff.try_catch. destruct (Hm w) as (e1 & W1 & F1).
  destruct (m w) as [[a|e] w1]; cbn [snd] in *.
  - exists e1. now split.
  - destruct (Hh e w1) as (e2 & W2 & F2). exists (e1 ++ e2)%list.
    rewrite W2, W1. cbn. rewrite app_assoc. split; [reflexivity|].
    now apply Forall_app.
Qed.

Lemma calls_only_traces {A} (m : M A) :
  calls_only m -> traces (Forall is_remote) m.
Proof.
  intros H w. destruct (H w) as (e & W & F). exists e. rewrite W. now split.
Qed.

Lemma calls_only_price (pc : PriceCalculation.config) (sv : services) (krw : number) :
  calls_only (PriceCalculation.calculateShopifyPriceUsd pc
                (remote GetKrwToUsdRate (getKrwToUsdRate sv)) krw).
Proof.
  unfold PriceCalculation.calculateShopifyPriceUsd.
  destruct (_ || _); [apply calls_only_throw|].
  apply calls_only_bind.
  - apply calls_only_try_catch; [apply calls_only_remote|].
    intros e. apply calls_only_throw.
  - intros rate. destruct (PriceCalculation.convertKrwToUsd krw rate);
      [apply calls_only_ret | apply calls_only_throw].
Qed.

Lemma calls_only_updateExisting (sv : services) (gid : string) (tr : transformResult) :
  calls_only (updateExisting sv gid tr).
Proof.
  unfold updateExisting.
  apply calls_only_bind.
  { apply calls_only_try_catch; [apply calls_only_remote|].
    intros e. apply calls_only_ret. }
  intros existingVariant. apply calls_only_bind; [apply calls_only_remote|].
  intros res. apply calls_only_bind; [|intros; apply calls_only_ret].
  destruct existingVariant as [v|]; [|apply calls_only_ret].
  apply calls_only_try_catch; [|intros; apply calls_only_ret].
  apply calls_only_bind; [apply calls_only_remote|]. intros _.
  destruct (nonempty (vn_inventoryItemId v)); [|apply calls_only_ret].
  destruct (nonempty (i_locationId (t_inventoryInfo tr))); [|apply calls_only_ret].
  destruct (geb _ _); [|apply calls_only_ret].
  apply calls_only_try_catch; [apply calls_only_remote|].
  intros; apply calls_only_ret.
Qed.

Lemma calls_only_createNew (sv : services) (tr : transformResult) :
  calls_only (createNew sv tr).
Proof. apply calls_only_remote. Qed.

Lemma calls_only_attachMedia (en : engine) (sv : services) (p : product) (id : string) :
  calls_only (attachMedia en sv p id).
Proof.
  unfold attachMedia. destruct (_ <? _)%nat; [|apply calls_only_ret].
  apply calls_only_try_catch; [apply calls_only_remote|].
  intros; apply calls_only_ret.
Qed.

(* operations of the store *)
Lemma db_updateOne_trace (sv : services) (pid : string) (kind : db_write)
    (upsert : option SyncedDoc) (f : SyncedDoc -> SyncedDoc) :
  traces (Forall is_db) (db_updateOne sv pid kind upsert f).
Proof.
  intros w. unfold db_updateOne. destruct (dbFault sv (log w)).
  - exists [DbFailure pid]. split; [reflexivity|]. repeat constructor.
  - exists [DbUpdateOne pid kind]. split; [reflexivity|]. repeat constructor.
Qed.

Lemma remote_then_db_of_remote (evs : list event) :
  Forall is_remote evs -> remote_then_db evs.
Proof. intros H. exists evs, []. rewrite app_nil_r. repeat split; auto. Qed.

Lemma remote_then_db_of_db (evs : list event) :
  Forall is_db evs -> remote_then_db evs.
Proof. intros H. exists [], evs. repeat split; auto. Qed.

Lemma remote_then_db_cons_remote (e1 e2 : list event) :
  Forall is_remote e1 -> remote_then_db e2 -> remote_then_db (e1 ++ e2)%list.
Proof.
  intros H1 (rs & post & -> & Hr & Hp). exists (e1 ++ rs)%list, post.
  rewrite app_assoc. repeat split; auto. now apply Forall_app.
Qed.

Lemma remote_then_db_snoc_db (e1 e2 : list event) :
  remote_then_db e1 -> Forall is_db e2 -> remote_then_db (e1 ++ e2)%list.
Proof.
  intros (rs & post & -> & Hr & Hp) H2. exists rs, (post ++ e2)%list.
  rewrite app_assoc. repeat split; auto. now apply Forall_app.
Qed.

Lemma syncBody_trace (en : engine) (cfg : config) (sv : services) (p : product)
    (now : Z) (gid : option string) :
  traces remote_then_db (syncBody en cfg sv p now gid).
Proof.
  unfold syncBody.
  eapply traces_bind; [apply calls_only_traces, calls_only_price| |apply remote_then_db_of_remote
                       |intros e1 e2 H1 H2; apply remote_then_db_cons_remote; eauto].
  intros priceString.
  eapply (traces_bind (Forall is_remote) remote_then_db);
    [apply calls_only_traces, calls_only_nowIso | | apply remote_then_db_of_remote
     | intros e1 e2 H1 H2; apply remote_then_db_cons_remote; eauto].
  intros iso.
  destruct (transformBunjangRowToShopifyInput cfg iso p priceString) as [tr|].
  - eapply (traces_bind (Forall is_remote) remote_then_db);
      [apply calls_only_traces;
       destruct gid; [apply calls_only_updateExisting | apply calls_only_createNew]
      | | apply remote_then_db_of_remote
      | intros e1 e2 H1 H2; apply remote_then_db_cons_remote; eauto].
    intros res. destruct (nonempty _) as [id|];
      [|apply traces_throw; apply remote_then_db_of_db; constructor].
    eapply (traces_bind (Forall is_remote) remote_then_db);
      [apply calls_only_traces, calls_only_attachMedia | | apply remote_then_db_of_remote
      | intros e1 e2 H1 H2; apply remote_then_db_cons_remote; eauto].
    intros _.
    eapply (traces_bind (Forall is_db) (Forall is_db));
      [apply db_updateOne_trace | intros; apply traces_ret; constructor
      | apply remote_then_db_of_db
      | intros e1 e2 H1 H2; apply remote_then_db_of_db; now apply Forall_app].
  - eapply (traces_bind (Forall is_db) (Forall is_db));
      [apply db_updateOne_trace | intros; apply traces_ret; constructor
      | apply remote_then_db_of_db
      | intros e1 e2 H1 H2; apply remote_then_db_of_db; now apply Forall_app].
Qed.

Lemma syncCatch_trace (sv : services) (p : product) (gid : option string) (e : exn) :
  traces (Forall is_db) (syncCatch sv p gid e).
Proof.
  unfold syncCatch.
  eapply (traces_bind (Forall is_db) (Forall is_db));
    [apply db_updateOne_trace | intros; apply traces_ret; constructor
    | auto | intros; now apply Forall_app].
Qed.

Lemma syncAfterAttempt_trace (en : engine) (cfg : config) (sv : services)
    (p : product) (now : Z) (found : option SyncedDoc) :
  traces remote_then_db (syncAfterAttempt en cfg sv p now found).
Proof.
  unfold syncAfterAttempt. destruct found as [syncedDoc|];
    [|apply traces_throw, remote_then_db_of_db; constructor].
  destruct (syncedAndNotNewer cfg p syncedDoc);
    [apply traces_ret, remote_then_db_of_db; constructor|].
  eapply (traces_bind (Forall is_remote) remote_then_db);
    [apply calls_only_traces | | apply remote_then_db_of_remote
    | intros e1 e2 H1 H2; apply remote_then_db_cons_remote; eauto].
  - destruct (nonempty (d_shopifyGid syncedDoc)); [apply calls_only_ret|].
    destruct (truthy (pid p)); [|apply calls_only_ret].
    apply calls_only_try_catch; [|intros; apply calls_only_ret].
    apply calls_only_bind; [apply calls_only_remote | intros; apply calls_only_ret].
  - intros gid.
    eapply (traces_try_catch remote_then_db (Forall is_db));
      [apply syncBody_trace | intros; apply syncCatch_trace | auto
      | intros e1 e2 H1 H2; now apply remote_then_db_snoc_db].
Qed.

Lemma sync_has_shape (en : engine) (cfg : config) (sv : services) (p : product)
    (w : world) :
  exists evs,
    log (snd (syncBunjangProductToShopify en cfg sv p w)) = (log w ++ evs)%list
    /\ sync_shape (pid p) evs.
Proof.
  unfold syncBunjangProductToShopify, Eff.bind, db_findOne, db_updateOne, now_.
  destruct (dbFault sv (log w)).
  { eexists. split; [reflexivity|]. now left. }
  cbn [fst snd log emit store].
  destruct (dbFault sv (log w ++ [DbFindOne (pid p)])).
  { eexists. cbn [snd log emit]. rewrite <- app_assoc. split; [reflexivity|].
    right; now left. }
  cbn [fst snd log emit store].
  destruct (dbFault sv ((log w ++ [DbFindOne (pid p)])
                        ++ [DbUpdateOne (pid p) AttemptWrite])).
  { eexists. cbn [snd log emit]. rewrite <- !app_assoc. split; [reflexivity|].
    right; right; now left. }
  match goal with
  | |- context [syncAfterAttempt en cfg sv p ?now ?found ?w3] =>
      destruct (syncAfterAttempt_trace en cfg sv p now found w3) as (e & L & He)
  end.
  exists ([DbFindOne (pid p); DbUpdateOne (pid p) AttemptWrite; DbFindOne (pid p)]
          ++ e)%list.
  split; [|right; right; right; now exists e].
  rewrite L. cbn [log emit]. rewrite <- !app_assoc. reflexivity.
Qed.

Lemma shape_attempt_before_remote (pid : string) (evs : list event) :
  sync_shape pid evs ->
  forall i c, evs !! i = Some (Remote c) ->
    exists j, (j < i)%nat /\ evs !! j = Some (DbUpdateOne pid AttemptWrite).
Proof.
  intros [->|[->|[->|(e & -> & _)]]] i c H.
  - destruct i as [|[|]]; discriminate.
  - destruct i as [|[|[|]]]; discriminate.
  - destruct i as [|[|[|[|]]]]; discriminate.
  - destruct i as [|[|[|i]]]; try discriminate.
    exists 1%nat. split; [lia | reflexivity].
Qed.

Lemma shape_outcome_after_remote (pid : string) (evs : list event) :
  sync_shape pid evs ->
  forall i s j c,
    evs !! i = Some (DbUpdateOne pid (OutcomeWrite s)) ->
    evs !! j = Some (Remote c) -> (j < i)%nat.
Proof.
  intros [->|[->|[->|(e & -> & rs & post & -> & Hr & Hp)]]] i s j c Hi Hj.
  - destruct j as [|[|]]; discriminate.
  - destruct j as [|[|[|]]]; discriminate.
  - destruct j as [|[|[|[|]]]]; discriminate.
  - destruct i as [|[|[|i]]]; try discriminate.
    destruct j as [|[|[|j]]]; try discriminate.
    change (app rs post !! i = Some (DbUpdateOne pid (OutcomeWrite s))) in Hi.
    change (app rs post !! j = Some (Remote c)) in Hj.
    assert (Hi' : (length rs <= i)%nat).
    { destruct (Nat.le_gt_cases (length rs) i) as [|Hlt]; [assumption|].
      rewrite lookup_app_l in Hi by exact Hlt.
      rewrite Forall_lookup in Hr. specialize (Hr _ _ Hi). contradiction. }
    assert (Hj' : (j < length rs)%nat).
    { destruct (Nat.le_gt_cases (length rs) j) as [Hle|]; [|assumption].
      rewrite lookup_app_r in Hj by exact Hle.
      rewrite Forall_lookup in Hp. specialize (Hp _ _ Hj). contradiction. }
    lia.
Qed.

(** Without faults of the store *)

Lemma bind_calls_only {A B} (m : M A) (k : A -> M B) (w : world)
    (Q : outcome B -> world -> Prop) :
  calls_only m ->
  (forall a evs, Forall is_remote evs ->
     Q (fst (k a (after_calls w evs))) (snd (k a (after_calls w evs)))) ->
  (forall e evs, Forall is_remote evs -> Q (Throw e) (after_calls w evs)) ->
  Q (fst (Eff.bind m k w)) (snd (Eff.bind m k w)).
Proof.
  intros Hm Hr Ht. unfold Eff.bind. destruct (Hm w) as (e1 & W1 & F1).
  destruct (m w) as [[a|e] w1]; cbn [snd] in W1; subst w1.
  - now apply Hr.
  - now apply Ht.
Qed.

Lemma db_updateOne_ok (sv : services) (pid : string) (kind : db_write)
    (upsert : option SyncedDoc) (f : SyncedDoc -> SyncedDoc) (w : world)
    (d : SyncedDoc) :
  dbFault sv (log w) = None ->
  store w !! pid = Some d ->
  db_updateOne sv pid kind upsert f w
  = (Return tt, {| store := <[pid := f d]> (store w);
                   log := app (log w) [DbUpdateOne pid kind] |}).
Proof. intros Hf Hd. unfold db_updateOne. now rewrite Hf, Hd. Qed.

Lemma after_calls_app (w : world) (e1 e2 : list event) :
  after_calls (after_calls w e1) e2 = after_calls w (e1 ++ e2).
Proof. unfold after_calls. cbn. now rewrite app_assoc. Qed.

Lemma after_calls_nil (w : world) : after_calls w [] = w.
Proof. unfold after_calls. rewrite app_nil_r. now destruct w. Qed.

Lemma syncBody_run (en : engine) (cfg : config) (sv : services) (p : product)
    (now : Z) (gid : option string) (w : world) (d : SyncedDoc) :
  no_db_fault sv ->
  store w !! pid p = Some d ->
  body_run (pid p) w (fst (syncBody en cfg sv p now gid w))
    (snd (syncBody en cfg sv p now gid w)).
Proof.
  intros Hf Hd. unfold syncBody.
  apply bind_calls_only; [apply calls_only_price| |intros e e1 F1; now exists e1].
  intros priceString e1 F1.
  apply bind_calls_only; [apply calls_only_nowIso| |intros e e2 F2;
    rewrite after_calls_app; exists (e1 ++ e2)%list; split;
    [now apply Forall_app | reflexivity]].
  intros iso e2 F2. rewrite after_calls_app.
  assert (F12 : Forall is_remote (e1 ++ e2)%list) by now apply Forall_app.
  revert F12. generalize (e1 ++ e2)%list. clear e1 e2 F1 F2. intros e1 F1.
  destruct (transformBunjangRowToShopifyInput cfg iso p priceString) as [tr|].
  - apply bind_calls_only;
      [destruct gid; [apply calls_only_updateExisting | apply calls_only_createNew]
      | | intros e e2 F2; rewrite after_calls_app; exists (e1 ++ e2)%list; split;
          [now apply Forall_app | reflexivity]].
    intros res e2 F2. rewrite after_calls_app.
    assert (F12 : Forall is_remote (e1 ++ e2)%list) by now apply Forall_app.
    revert F12. generalize (e1 ++ e2)%list. clear e1 e2 F1 F2. intros e1 F1.
    destruct (nonempty (res ≫= p_id)) as [id|]; [|now exists e1].
    apply bind_calls_only;
      [apply calls_only_attachMedia
      | | intros e e2 F2; rewrite after_calls_app; exists (e1 ++ e2)%list; split;
          [now apply Forall_app | reflexivity]].
    intros [] e2 F2. rewrite after_calls_app.
    assert (F12 : Forall is_remote (e1 ++ e2)%list) by now apply Forall_app.
    revert F12. generalize (e1 ++ e2)%list. clear e1 e2 F1 F2. intros e1 F1.
    unfold Eff.bind.
    rewrite (db_updateOne_ok sv (pid p) _ _ _ (after_calls w e1) d (Hf _) Hd).
    cbn [fst snd Eff.ret]. exists e1. split; [exact F1|].
    exists SYNCED. eexists. cbn [log store after_calls r_status recorded_status].
    rewrite <- app_assoc.
    split; [reflexivity|]. split; [reflexivity|].
    split; [apply lookup_insert_eq | reflexivity].
  - unfold Eff.bind.
    rewrite (db_updateOne_ok sv (pid p) _ _ _ (after_calls w e1) d (Hf _) Hd).
    cbn [fst snd Eff.ret]. exists e1. split; [exact F1|].
    exists SKIPPED_FILTER. eexists.
    cbn [log store after_calls r_status recorded_status].
    rewrite <- app_assoc.
    split; [reflexivity|]. split; [reflexivity|].
    split; [apply lookup_insert_eq | reflexivity].
Qed.

Lemma syncTry_run (en : engine) (cfg : config) (sv : services) (p : product)
    (now : Z) (gid : option string) (w : world) (d : SyncedDoc) :
  no_db_fault sv ->
  store w !! pid p = Some d ->
  exists r w',
    Eff.try_catch (syncBody en cfg sv p now gid) (syncCatch sv p gid) w
    = (Return r, w')
    /\ outcome_recorded (pid p) w r w'
    /\ (forall e, fst (syncBody en cfg sv p now gid w) = Throw e ->
          r = {| r_status := error; r_operation := None;
                 r_message := Some (substring 0 255 (errorMessageOf e));
                 r_shopifyGid := gid |}
          /\ d_syncStatus <$> store w' !! pid p = Some ERROR).
Proof.
  intros Hf Hd. unfold Eff.try_catch.
  pose proof (syncBody_run en cfg sv p now gid w d Hf Hd) as (rs & F & H).
  destruct (syncBody en cfg sv p now gid w) as [[r|e] w2]; cbn [fst snd] in *.
  - destruct H as (s & d' & L & R & St & Ds). exists r, w2.
    split; [reflexivity|]. split; [now exists rs, s, d'|]. intros e; discriminate.
  - subst w2. unfold syncCatch, Eff.bind.
    rewrite (db_updateOne_ok sv (pid p) _ _ _ (after_calls w rs) d (Hf _) Hd).
    cbn [Eff.ret]. eexists; eexists. split; [reflexivity|]. split.
    + exists rs, ERROR. eexists. cbn [log store after_calls r_status recorded_status].
      rewrite <- app_assoc. split; [exact F|]. split; [reflexivity|].
      split; [reflexivity|]. split; [apply lookup_insert_eq | reflexivity].
    + intros e' [= <-]. split; [reflexivity|].
      cbn [store after_calls]. now rewrite lookup_insert_eq.
Qed.

Lemma syncAfterAttempt_run (en : engine) (cfg : config) (sv : services)
    (p : product) (now : Z) (w : world) (d : SyncedDoc) :
  no_db_fault sv ->
  store w !! pid p = Some d ->
  exists r w',
    syncAfterAttempt en cfg sv p now (Some d) w = (Return r, w')
    /\ if syncedAndNotNewer cfg p d
       then r_status r = skipped_no_change /\ w' = w
       else outcome_recorded (pid p) w r w'.
Proof.
  intros Hf Hd. unfold syncAfterAttempt.
  destruct (syncedAndNotNewer cfg p d).
  { eexists; eexists. split; [reflexivity|]. split; reflexivity. }
  assert (tail : forall gid e1, Forall is_remote e1 ->
            exists r w',
              Eff.try_catch (syncBody en cfg sv p now gid) (syncCatch sv p gid)
                (after_calls w e1) = (Return r, w')
              /\ outcome_recorded (pid p) w r w').
  { intros gid e1 F1.
    destruct (syncTry_run en cfg sv p now gid (after_calls w e1) d Hf Hd)
      as (r & w' & E & (rs & s & d' & F & L & R & St & Ds) & _).
    exists r, w'. split; [exact E|]. exists (e1 ++ rs)%list, s, d'.
    split; [apply Forall_app; split; assumption|]. split; [|auto].
    rewrite L. cbn [log after_calls]. now rewrite <- !app_assoc. }
  unfold Eff.bind at 1.
  destruct (nonempty (d_shopifyGid d)) as [g|].
  - cbn [Eff.ret]. specialize (tail (Some g) [] (Forall_nil_2 _)).
      rewrite after_calls_nil in tail. exact tail.
  - destruct (truthy (pid p)).
    + unfold Eff.try_catch at 1, Eff.bind at 1, remote.
      destruct (findProductByBunjangPidTag sv (log w) (pid p)) as [ex|e];
        cbn [Eff.ret]; apply (tail _ [Remote (FindProductByBunjangPidTag (pid p))]);
        repeat constructor.
    + cbn [Eff.ret]. specialize (tail None [] (Forall_nil_2 _)).
      rewrite after_calls_nil in tail. exact tail.
Qed.

(* The run passes through the world in which the attempt is written. *)
Lemma sync_attempt_first (en : engine) (cfg : config) (sv : services)
    (p : product) (w : world) :
  dbFault sv (log w) = None ->
  dbFault sv (log w ++ [DbFindOne (pid p)])%list = None ->
  syncBunjangProductToShopify en cfg sv p w
  = Eff.bind (db_findOne sv (pid p))
      (syncAfterAttempt en cfg sv p
         (clock sv (log w ++ [DbFindOne (pid p)])%list))
      (attempt_world sv p w).
Proof.
  intros H0 H1. unfold syncBunjangProductToShopify.
  unfold Eff.bind at 1. unfold db_findOne at 1. rewrite H0.
  unfold Eff.bind at 1. unfold now_.
  unfold Eff.bind at 1. unfold db_updateOne, emit. cbn [log store]. rewrite H1.
  unfold attempt_world, attempted. rewrite <- app_assoc. cbn [app].
  destruct (store w !! pid p); reflexivity.
Qed.

Lemma sync_prologue (en : engine) (cfg : config) (sv : services)
    (p : product) (w : world) :
  no_db_fault sv ->
  syncBunjangProductToShopify en cfg sv p w
  = syncAfterAttempt en cfg sv p (clock sv (log w ++ [DbFindOne (pid p)])%list)
      (Some (attempted sv p w)) (after_attempt sv p w).
Proof.
  intros Hf. rewrite sync_attempt_first by apply Hf.
  unfold Eff.bind, db_findOne, emit. rewrite Hf.
  unfold attempt_world, after_attempt, prologue. cbn [store log].
  rewrite lookup_insert_eq, <- app_assoc. reflexivity.
Qed.

Lemma sync_runs (en : engine) (cfg : config) (sv : services) (p : product)
    (w : world) :
  no_db_fault sv ->
  sync_run cfg sv p w (syncBunjangProductToShopify en cfg sv p w).
Proof.
  intros Hf. rewrite (sync_prologue en cfg sv p w Hf).
  destruct (syncAfterAttempt_run en cfg sv p
              (clock sv (log w ++ [DbFindOne (pid p)])%list)
              (after_attempt sv p w) (attempted sv p w) Hf) as (r & w' & E & H).
  { apply lookup_insert_eq. }
  rewrite E. exists r. split; [reflexivity|]. exact H.
Qed.

Lemma new_events_app (w w' : world) (evs : list event) :
  log w' = (log w ++ evs)%list -> new_events w w' = evs.
Proof. unfold new_events. intros ->. apply drop_app_length. Qed.

Lemma rest_grows (en : engine) (cfg : config) (sv : services) (p : product)
    (now : Z) (w : world) :
  exists e,
    log (snd (Eff.bind (db_findOne sv (pid p))
                (syncAfterAttempt en cfg sv p now) w))
    = (log w ++ e)%list.
Proof.
  unfold Eff.bind, db_findOne.
  destruct (dbFault sv (log w)); [now eexists|].
  destruct (syncAfterAttempt_trace en cfg sv p now (store w !! pid p)
              (emit (DbFindOne (pid p)) w)) as (e & L & _).
  exists (DbFindOne (pid p) :: e). rewrite L. cbn [log emit].
  now rewrite <- app_assoc.
Qed.

(* The stored timestamp plays no part in the comparison. *)
Lemma syncedAndNotNewer_after_attempt (cfg : config) (p : product) (now : Z)
    (d : SyncedDoc) :
  syncedAndNotNewer cfg p (set_attempt now p d)
  = syncStatus_eqb (d_syncStatus d) SYNCED
    && is_some (updatedAt p) && negb (forceResyncAll cfg).
Proof.
  unfold syncedAndNotNewer. cbn [d_syncStatus d_bunjangUpdatedAt set_attempt].
  destruct (updatedAt p) as [t|]; [|reflexivity].
  now rewrite Z.leb_refl.
Qed.

(* A record stored as SYNCED is skipped whatever timestamp it was
   synced at. *)
Lemma synced_record_is_skipped (en : engine) (cfg : config) (sv : services)
    (p : product) (w : world) (d : SyncedDoc) (t : Z) :
  no_db_fault sv ->
  store w !! pid p = Some d ->
  d_syncStatus d = SYNCED ->
  updatedAt p = Some t ->
  forceResyncAll cfg = false ->
  exists r,
    fst (syncBunjangProductToShopify en cfg sv p w) = Return r
    /\ r_status r = skipped_no_change
    /\ new_events w (snd (syncBunjangProductToShopify en cfg sv p w))
       = prologue (pid p).
Proof.
  intros Hf Hd Hs Ht Hc.
  destruct (sync_runs en cfg sv p w Hf) as (r & E & H).
  unfold attempted in H at 1. rewrite syncedAndNotNewer_after_attempt in H.
  rewrite Hd in H. cbn [default from_option id] in H.
  rewrite Hs, Ht, Hc in H. cbn in H. destruct H as [Hr ->].
  exists r. split; [exact E|]. split; [exact Hr|].
  now apply new_events_app.
Qed.

(* The round trip: after a sync that succeeded, a second sync of the
   same record is skipped and calls no collaborator. *)
Lemma second_pass_is_skipped (en : engine) (cfg : config) (sv : services)
    (p : product) (w : world) (r1 : syncResult) (t : Z) :
  no_db_fault sv ->
  updatedAt p = Some t ->
  forceResyncAll cfg = false ->
  fst (syncBunjangProductToShopify en cfg sv p w) = Return r1 ->
  r_status r1 = success ->
  let w1 := snd (syncBunjangProductToShopify en cfg sv p w) in
  exists r2,
    fst (syncBunjangProductToShopify en cfg sv p w1) = Return r2
    /\ r_status r2 = skipped_no_change
    /\ new_events w1 (snd (syncBunjangProductToShopify en cfg sv p w1))
       = prologue (pid p).
Proof.
  intros Hf Ht Hc E1 S1 w1.
  destruct (sync_runs en cfg sv p w Hf) as (r & E & H).
  rewrite E1 in E. injection E as <-.
  destruct (syncedAndNotNewer cfg p (attempted sv p w)).
  { destruct H as [H _]. rewrite S1 in H. discriminate. }
  destruct H as (rs & s & d' & _ & _ & R & St & Ds).
  rewrite S1 in R. injection R as <-.
  now apply (synced_record_is_skipped en cfg sv p w1 d' t).
Qed.

End TraceFacts.

(** C9.  In every sync of a product, whatever the store and the
    collaborators answer, a remote call is preceded by the write of the
    attempt for the product, and a write of an outcome for it comes
    after every remote call.  The write of the attempt is the second
    operation of the run as soon as the store accepts the first read and
    the write; it is made before the stored state is looked at, adds one
    to the attempt counter, stores the snapshot of the feed record and
    the time of the attempt, and inserts the document with status
    PENDING when there is none.  With a store that works, a run that
    made a remote call ends with the write of an outcome. *)
Theorem attempt_written_before_remote_calls_outcome_after :
  forall (en : JS.engine) (cfg : Catalog.config) (sv : Sync.services)
         (p : Catalog.product) (w : Sync.world),
    let pid := Catalog.pid p in
    let evs :=
      Spec.new_events w (snd (Sync.syncBunjangProductToShopify en cfg sv p w)) in
    (forall i c,
        evs !! i = Some (Sync.Remote c) ->
        exists j, (j < i)%nat
                  /\ evs !! j = Some (Sync.DbUpdateOne pid Sync.AttemptWrite))
    /\ (forall i s j c,
          evs !! i = Some (Sync.DbUpdateOne pid (Sync.OutcomeWrite s)) ->
          evs !! j = Some (Sync.Remote c) -> (j < i)%nat)
    /\ (Sync.dbFault sv (Sync.log w) = None ->
        Sync.dbFault sv (Sync.log w ++ [Sync.DbFindOne pid])%list = None ->
        let now := Sync.clock sv (Sync.log w ++ [Sync.DbFindOne pid])%list in
        let old := Sync.store w !! pid in
        let d := Spec.attempted sv p w in
        evs !! 1%nat = Some (Sync.DbUpdateOne pid Sync.AttemptWrite)
        /\ Sync.syncBunjangProductToShopify en cfg sv p w
           = Eff.bind (Sync.db_findOne sv pid)
               (Sync.syncAfterAttempt en cfg sv p now)
               (Spec.attempt_world sv p w)
        /\ Sync.store (Spec.attempt_world sv p w) !! pid = Some d
        /\ Sync.d_syncAttemptCount d
           = from_option Sync.d_syncAttemptCount 0 old + 1
        /\ Sync.d_syncStatus d = from_option Sync.d_syncStatus Sync.PENDING old
        /\ Sync.d_lastSyncAttemptAt d = Some now
        /\ Sync.d_bunjangProductName d = Catalog.name p
        /\ Sync.d_bunjangUpdatedAt d = Catalog.updatedAt p
        /\ Sync.d_bunjangOriginalPriceKrw d = Catalog.price p
        /\ Sync.d_bunjangOriginalShippingFeeKrw d = Catalog.shippingFee p)
    /\ (Spec.no_db_fault sv ->
        (exists i c, evs !! i = Some (Sync.Remote c)) ->
        exists s, last evs = Some (Sync.DbUpdateOne pid (Sync.OutcomeWrite s))).
Proof.
  intros en cfg sv p w pid evs. subst pid.
  destruct (sync_has_shape en cfg sv p w) as (evs' & L & Sh).
  assert (E : evs = evs') by now apply new_events_app.
  split; [|split; [|split]].
  - rewrite E. now apply shape_attempt_before_remote.
  - rewrite E. now apply shape_outcome_after_remote.
  - intros H0 H1 now old d.
    split; [|split; [now apply sync_attempt_first|]].
    + subst evs. rewrite (sync_attempt_first en cfg sv p w H0 H1).
      destruct (rest_grows en cfg sv p
                  (Sync.clock sv (Sync.log w ++ [Sync.DbFindOne (Catalog.pid p)])%list)
                  (Spec.attempt_world sv p w)) as (e & Le).
      rewrite (new_events_app w _
                 ([Sync.DbFindOne (Catalog.pid p); Sync.DbUpdateOne (Catalog.pid p) Sync.AttemptWrite] ++ e)%list).
      * reflexivity.
      * rewrite Le. unfold Spec.attempt_world. cbn [Sync.log].
        now rewrite <- app_assoc.
    + split; [apply lookup_insert_eq|].
      subst d old. unfold Spec.attempted.
      destruct (Sync.store w !! (Catalog.pid p)); cbn; repeat split; reflexivity.
  - intros Hf (i & c & Hi).
    destruct (sync_runs en cfg sv p w Hf) as (r & _ & H).
    destruct (Sync.syncedAndNotNewer cfg p (Spec.attempted sv p w)).
    + destruct H as [_ W]. exfalso. subst evs. rewrite W in Hi.
      rewrite (new_events_app w _ (Spec.prologue (Catalog.pid p))) in Hi by reflexivity.
      destruct i as [|[|[|]]]; discriminate.
    + destruct H as (rs & s & d' & _ & Lo & _). exists s. subst evs.
      rewrite (new_events_app w _
                 ((Spec.prologue (Catalog.pid p) ++ rs)
                  ++ [Sync.DbUpdateOne (Catalog.pid p) (Sync.OutcomeWrite s)])%list).
      * apply last_snoc.
      * rewrite Lo. cbn [Sync.log Spec.after_attempt].
        now rewrite <- !app_assoc.
Qed.

(** The theorem at the first sync of the feed record of the
    specification, with a store and a destination that work. *)
Lemma attempt_written_before_remote_calls_outcome_after_witness :
  let evs :=
    Spec.new_events Scenario.empty_world
      (snd (Sync.syncBunjangProductToShopify Scenario.iso_engine Scenario.cfg
              Scenario.healthy (Scenario.feed_product 1704067200000)
              Scenario.empty_world)) in
  (exists j, (j < 4)%nat
             /\ evs !! j = Some (Sync.DbUpdateOne "123" Sync.AttemptWrite))
  /\ (4 < 6)%nat
  /\ evs !! 1%nat = Some (Sync.DbUpdateOne "123" Sync.AttemptWrite)
  /\ (exists s, last evs = Some (Sync.DbUpdateOne "123" (Sync.OutcomeWrite s))).
Proof.
  pose proof (attempt_written_before_remote_calls_outcome_after
                Scenario.iso_engine Scenario.cfg Scenario.healthy
                (Scenario.feed_product 1704067200000) Scenario.empty_world)
    as (H1 & H2 & H3 & H4).
  split; [|split; [|split]].
  - apply (H1 4%nat Sync.GetKrwToUsdRate). vm_compute. reflexivity.
  - apply (H2 6%nat Sync.SYNCED 4%nat Sync.GetKrwToUsdRate);
      vm_compute; reflexivity.
  - apply H3; reflexivity.
  - apply H4.
    + intros l. reflexivity.
    + exists 4%nat, Sync.GetKrwToUsdRate. vm_compute. reflexivity.
Defined.

(** C4.  The comparison that decides the skip is made on the document
    read back after the write of the attempt, and that write has stored
    the timestamp of the feed record: the stored timestamp is compared
    with itself, and a record stored as SYNCED is skipped whenever the
    feed record has a timestamp and the force-resync flag is not set.
    So the record of product 123, stored as SYNCED with the source
    timestamp 2024-01-01, is skipped when the feed brings it with the
    timestamp 2024-02-01: the result is skipped_no_change and the run
    consists of the two reads and the write of the attempt, without any
    remote call. *)
Theorem unchanged_check_compares_the_timestamp_just_written :
  (forall (cfg : Catalog.config) (p : Catalog.product) (now : Z)
          (d : Sync.SyncedDoc),
      Sync.syncedAndNotNewer cfg p (Sync.set_attempt now p d)
      = Sync.syncStatus_eqb (Sync.d_syncStatus d) Sync.SYNCED
        && JS.is_some (Catalog.updatedAt p)
        && negb (Catalog.forceResyncAll cfg))
  /\ Sync.d_bunjangUpdatedAt
       <$> Sync.store Scenario.world_synced_on_jan_1 !! "123"
     = Some (Some 1704067200000)
  /\ Catalog.updatedAt (Scenario.feed_product 1706745600000)
     = Some 1706745600000
  /\ (1704067200000 >=? 1706745600000) = false
  /\ Catalog.forceResyncAll Scenario.cfg = false
  /\ fst (Sync.syncBunjangProductToShopify Scenario.iso_engine Scenario.cfg
            Scenario.healthy (Scenario.feed_product 1706745600000)
            Scenario.world_synced_on_jan_1)
     = Return {| Sync.r_status := Sync.skipped_no_change;
                 Sync.r_operation := None;
                 Sync.r_message :=
                   Some "Already synced and no update in catalog based on bunjangUpdatedAt.";
                 Sync.r_shopifyGid := None |}
  /\ Spec.new_events Scenario.world_synced_on_jan_1
       (snd (Sync.syncBunjangProductToShopify Scenario.iso_engine Scenario.cfg
               Scenario.healthy (Scenario.feed_product 1706745600000)
               Scenario.world_synced_on_jan_1))
     = [Sync.DbFindOne "123"; Sync.DbUpdateOne "123" Sync.AttemptWrite;
        Sync.DbFindOne "123"].
Proof.
  split; [exact syncedAndNotNewer_after_attempt|].
  repeat split; vm_compute; reflexivity.
Qed.

(** ** The batch *)

Section BatchFacts.
Import JS Catalog Sync Spec.





Lemma chunks_fuel_concat {A} (fuel concurrency : nat) (l : list A) :
  (1 <= concurrency)%nat -> (length l <= fuel)%nat ->
  concat (chunks_fuel fuel concurrency l) = l.
Proof.
  intros Hc. revert l. induction fuel as [|fuel IH]; intros l Hl.
  - destruct l; [reflexivity | cbn in Hl; lia].
  - destruct l as [|a l]; [reflexivity|].
    cbn [chunks_fuel concat]. rewrite IH.
    + apply firstn_skipn.
    + rewrite length_skipn. cbn [length] in *. lia.
Qed.

Lemma chunks_concat {A} (concurrency : nat) (l : list A) :
  (1 <= concurrency)%nat -> concat (chunks concurrency l) = l.
Proof. intros Hc. now apply chunks_fuel_concat. Qed.

End BatchFacts.



(** A batch of two records with a destination that refuses the first
    creation: the first record is counted and stored as an error, the
    second one is synced. *)
Example batch_continues_after_a_failure :
  let res :=
    Sync.fetchAndProcessBunjangCatalog Scenario.iso_engine Scenario.cfg
      Scenario.first_create_fails "catalog.csv.gz"
      [Scenario.feed_row (Some "1"); Scenario.second_row] Scenario.empty_world in
  fst res
  = Return {| Sync.filename := "catalog.csv.gz";
              Sync.totalOriginalCsvRows := 2;
              Sync.validProductsToProcess := 2;
              Sync.successfullyProcessed := 1;
              Sync.errors := 1;
              Sync.skippedByFilter := 0;
              Sync.skippedNoChange := 0 |}
  /\ Sync.d_syncStatus <$> Sync.store (snd res) !! "123" = Some Sync.ERROR
  /\ Sync.d_syncStatus <$> Sync.store (snd res) !! "124" = Some Sync.SYNCED.
Proof. repeat split; vm_compute; reflexivity. Qed.

(** A batch whose only row is dropped by the normaliser. *)
Example batch_without_valid_rows :
  Sync.fetchAndProcessBunjangCatalog Scenario.iso_engine Scenario.cfg
    Scenario.healthy "catalog.csv.gz" [Scenario.negative_price_row]
    Scenario.empty_world
  = (Return {| Sync.filename := "catalog.csv.gz";
               Sync.totalOriginalCsvRows := 1;
               Sync.validProductsToProcess := 0;
               Sync.successfullyProcessed := 0;
               Sync.errors := 0;
               Sync.skippedByFilter := 0;
               Sync.skippedNoChange := 0 |}, Scenario.empty_world).
Proof. vm_compute. reflexivity. Qed.

(** ** Orders: the calls of a run *)

Section OrderCalls.
Import JS OrderMapper OrderService Spec Notions.

Lemma count_app {A} (f : A -> bool) (l1 l2 : list A) :
  count f (l1 ++ l2)%list = (count f l1 + count f l2)%nat.
Proof. unfold count. now rewrite List.filter_app, length_app. Qed.

Lemma updates_made_refl (st : state) : updates_made 0 st st.
Proof. exists []. rewrite app_nil_r. cbn. repeat split; lia. Qed.

Lemma updates_made_trans (n m : nat) (st1 st2 st3 : state) :
  updates_made n st1 st2 -> updates_made m st2 st3 ->
  updates_made (n + m) st1 st3.
Proof.
  intros (e1 & L1 & U1 & K1 & C1) (e2 & L2 & U2 & K2 & C2).
  exists (e1 ++ e2)%list. rewrite L2, L1, app_assoc, !count_app.
  repeat split; lia.
Qed.

Ltac order_oracle :=
  match goal with
  | |- context [updateOrder ?sv ?l ?i] =>
      destruct (updateOrder sv l i) as [[]|?] eqn:?
  | |- context [postOrder ?sv ?l ?p] =>
      destruct (postOrder sv l p) as [[?|]|?] eqn:?
  | |- context [productLookup ?sv ?l ?p] =>
      destruct (productLookup sv l p) as [[?|]|?] eqn:?
  | |- context [mapShopifyItemToBunjangOrderPayload ?p ?d] =>
      destruct (mapShopifyItemToBunjangOrderPayload p d) as [[?|]|?] eqn:?
  | |- context [truthy_id ?o] => destruct (truthy_id o) eqn:?
  | |- context [Err.instanceof_AppError ?e] =>
      destruct (Err.instanceof_AppError e) eqn:?
  end.

Lemma processLinkedItem_updates (sv : services) (gid ident pid : string)
    (st : state) :
  updates_accepted sv ->
  updates_made 1 st (snd (processLinkedItem sv gid ident pid st)).
Proof.
  intros Hu.
  unfold processLinkedItem, getBunjangProductDetails, createBunjangOrderV2,
    shopify_updateOrder, recordCreated, remote,
    Eff.try_catch, Eff.bind, Eff.ret, Eff.throw.
  destruct (negb (truthy pid));
    repeat (cbn [fst snd log createdBunjangOrderIds
                   bunjangOrderSuccessfullyCreatedOverall]; order_oracle);
    repeat match goal with
           | E : updateOrder _ _ _ = Throw _ |- _ => rewrite Hu in E; discriminate
           end;
    unfold updates_made; cbn [fst snd log];
    (eexists; split; [rewrite <- ?app_assoc; cbn [app]; reflexivity|]);
    cbn; repeat split; lia.
Qed.

Lemma processItems_updates (sv : services) (gid ident : string)
    (items : list lineItem) (st : state) :
  updates_accepted sv ->
  updates_made (count linked items) st (snd (processItems sv gid ident items st)).
Proof.
  intros Hu. revert st. induction items as [|item rest IH]; intros st.
  - apply updates_made_refl.
  - cbn [processItems]. unfold Eff.bind.
    change (count linked (item :: rest))
      with (length (if linked item then item :: List.filter linked rest
                    else List.filter linked rest)).
    unfold linked at 1.
    destruct (nonempty_opt (sku item)) as [s|].
    + destruct (startsWith s "BJ-").
      * pose proof (processLinkedItem_returns sv gid ident
                      (substring 3 (String.length s - 3) s) st Hu) as R.
        pose proof (processLinkedItem_updates sv gid ident
                      (substring 3 (String.length s - 3) s) st Hu) as U.
        destruct (processLinkedItem sv gid ident _ st) as [o st1].
        cbn [fst snd] in *. subst o.
        apply (updates_made_trans 1 _ st st1); [exact U | apply IH].
      * cbn [Eff.ret]. apply IH.
    + cbn [Eff.ret]. apply IH.
Qed.

End OrderCalls.

Section OrderRuns.
Import JS OrderMapper OrderService Spec Notions.

Lemma new_calls_app (st st' : state) (evs : list call) :
  log st' = (log st ++ evs)%list -> new_calls st st' = evs.
Proof. unfold new_calls. intros ->. apply drop_app_length. Qed.

Lemma processItems_unlinked (sv : services) (gid ident : string)
    (items : list lineItem) (st : state) :
  forallb (fun item => negb (linked item)) items = true ->
  processItems sv gid ident items st = (Return tt, st).
Proof.
  induction items as [|item rest IH]; intros H; [reflexivity|].
  cbn [forallb] in H. apply andb_true_iff in H as [H1 H2].
  cbn [processItems]. unfold Eff.bind. unfold linked in H1.
  destruct (nonempty_opt (sku item)) as [s|].
  - apply negb_true_iff in H1. rewrite H1. cbn [Eff.ret]. now apply IH.
  - cbn [Eff.ret]. now apply IH.
Qed.

Lemma startsWith_append (p s : string) : startsWith (p ++ s) p = true.
Proof.
  unfold startsWith. induction p as [|c p IH].
  - now destruct s.
  - rewrite append_cons. cbn [String.prefix].
    destruct (ascii_dec c c); [exact IH | contradiction].
Qed.

End OrderRuns.

(** X1.  With a destination that accepts the order updates, the
    processing of a valid order writes one update to the destination
    order for each linked line item, whatever the source answers: the
    tags of a placed order or an error tag.  It looks up at most one
    source product per linked item and places no more orders than it
    made lookups. *)
Theorem each_linked_item_gets_one_order_update :
  forall (prefix : string) (sv : OrderService.services)
         (order : OrderService.shopifyOrder) (st : OrderService.state)
         (items : list OrderService.lineItem),
    Spec.updates_accepted sv ->
    Spec.valid_order order ->
    OrderService.line_items order = Some items ->
    let calls :=
      Notions.new_calls st
        (snd (OrderService.processShopifyOrderForBunjang prefix sv order st)) in
    Notions.count Notions.is_update calls = Notions.count Notions.linked items
    /\ (Notions.count Notions.is_lookup calls
        <= Notions.count Notions.linked items)%nat
    /\ (Notions.count Notions.is_creation calls
        <= Notions.count Notions.is_lookup calls)%nat.
Proof.
  intros prefix sv order st items Hu ((n & Hn & Hn0) & (g & Hg & Hg0) & (i & is' & Hi)) Hitems.
  rewrite Hi in Hitems. injection Hitems as <-.
  intros calls. subst calls.
  rewrite (process_valid prefix sv order st n g (i :: is') Hn Hn0 Hg Hg0 Hi)
    by discriminate.
  cbv zeta.
  set (st0 := {| OrderService.log := OrderService.log st;
                 OrderService.bunjangOrderSuccessfullyCreatedOverall := false;
                 OrderService.createdBunjangOrderIds := [] |}).
  pose proof (processItems_returns sv g
                (prefix ++ JS.Number_toString (JS.of_Z n)) (i :: is') st0 Hu) as R.
  pose proof (processItems_updates sv g
                (prefix ++ JS.Number_toString (JS.of_Z n)) (i :: is') st0 Hu)
    as (evs & L & U & K & C).
  destruct (OrderService.processItems sv g _ (i :: is') st0) as [o st1].
  cbn [fst snd] in *. subst o. cbn [snd].
  rewrite (new_calls_app st st1 evs) by exact L.
  repeat split; assumption.
Qed.

(** The theorem at the order of the specification, for the product 555
    that the source has. *)
Lemma each_linked_item_gets_one_order_update_witness :
  let calls :=
    Notions.new_calls OrderService.initial
      (snd (OrderService.processShopifyOrderForBunjang "BJ_ORDER_"
              Scenario.source_has_555 Scenario.order_555 OrderService.initial)) in
  Notions.count Notions.is_update calls = 1%nat
  /\ (Notions.count Notions.is_lookup calls <= 1)%nat
  /\ (Notions.count Notions.is_creation calls
      <= Notions.count Notions.is_lookup calls)%nat.
Proof.
  apply (each_linked_item_gets_one_order_update "BJ_ORDER_"
           Scenario.source_has_555 Scenario.order_555 OrderService.initial
           [ {| OrderService.sku := Some "BJ-555" |} ]).
  - intros l input. reflexivity.
  - repeat split.
    + exists 1001. split; [reflexivity | lia].
    + exists "gid://shopify/Order/1001". split; [reflexivity | discriminate].
    + eexists; eexists; reflexivity.
  - reflexivity.
Defined.

(** X2.  The order service calls nobody when there is nothing to order.
    An order without an id, without a GraphQL id or without line items
    is refused with a ValidationError, and an order none of whose line
    items carries a SKU starting with BJ- gets the result success false
    without ids; in both cases no lookup, creation or order update is
    made. *)
Theorem nothing_to_order_makes_no_call :
  forall (prefix : string) (sv : OrderService.services)
         (order : OrderService.shopifyOrder) (st : OrderService.state),
    (~ Spec.valid_order order ->
     exists e,
       OrderService.processShopifyOrderForBunjang prefix sv order st
       = (Throw e, st)
       /\ cls e = ValidationError)
    /\ (forall items,
          Spec.valid_order order ->
          OrderService.line_items order = Some items ->
          forallb (fun item => negb (Notions.linked item)) items = true ->
          exists r st',
            OrderService.processShopifyOrderForBunjang prefix sv order st
            = (Return r, st')
            /\ OrderService.r_success r = false
            /\ OrderService.r_bunjangOrderIds r = None
            /\ OrderService.log st' = OrderService.log st).
Proof.
  intros prefix sv order st. split.
  - intros Hinv. unfold OrderService.processShopifyOrderForBunjang.
    destruct (OrderService.truthy_id (OrderService.o_id order)) as [n|] eqn:En;
      [|eexists; split; reflexivity].
    destruct (JS.nonempty_opt (OrderService.admin_graphql_api_id order))
      as [g|] eqn:Eg; [|eexists; split; reflexivity].
    destruct (OrderService.line_items order) as [[|i is']|] eqn:Ei;
      try (eexists; split; reflexivity).
    exfalso. apply Hinv. repeat split.
    + destruct (OrderService.o_id order) as [[|m|m]|]; try discriminate;
        eexists; split; try reflexivity; lia.
    + destruct (OrderService.admin_graphql_api_id order) as [g'|];
        [|discriminate].
      exists g'. split; [reflexivity|]. intros ->. discriminate.
    + now exists i, is'.
  - intros items ((n & Hn & Hn0) & (g & Hg & Hg0) & (i & is' & Hi)) Hitems Hun.
    rewrite Hi in Hitems. injection Hitems as <-.
    rewrite (process_valid prefix sv order st n g (i :: is') Hn Hn0 Hg Hg0 Hi)
      by discriminate.
    cbv zeta. rewrite processItems_unlinked by exact Hun.
    cbn. eexists; eexists. split; [reflexivity|]. repeat split.
Qed.

(** The theorem at an order without a GraphQL id, and at an order for a
    product that does not come from the source. *)
Lemma nothing_to_order_makes_no_call_witness :
  (exists e,
      OrderService.processShopifyOrderForBunjang "BJ_ORDER_"
        Scenario.source_has_555
        {| OrderService.o_id := Some 1001;
           OrderService.admin_graphql_api_id := None;
           OrderService.line_items :=
             Some [ {| OrderService.sku := Some "BJ-555" |} ] |}
        OrderService.initial
      = (Throw e, OrderService.initial)
      /\ cls e = ValidationError)
  /\ (exists r st',
        OrderService.processShopifyOrderForBunjang "BJ_ORDER_"
          Scenario.source_has_555
          {| OrderService.o_id := Some 1001;
             OrderService.admin_graphql_api_id := Some "gid://shopify/Order/1001";
             OrderService.line_items :=
               Some [ {| OrderService.sku := Some "TSHIRT-1" |};
                      {| OrderService.sku := None |} ] |}
          OrderService.initial
        = (Return r, st')
        /\ OrderService.r_success r = false
        /\ OrderService.r_bunjangOrderIds r = None
        /\ OrderService.log st' = OrderService.log OrderService.initial).
Proof.
  split.
  - apply (proj1 (nothing_to_order_makes_no_call "BJ_ORDER_"
                    Scenario.source_has_555 _ OrderService.initial)).
    intros (_ & (g & Hg & _) & _). discriminate.
  - apply (proj2 (nothing_to_order_makes_no_call "BJ_ORDER_"
                    Scenario.source_has_555 _ OrderService.initial)
             [ {| OrderService.sku := Some "TSHIRT-1" |};
               {| OrderService.sku := None |} ]).
    + repeat split.
      * exists 1001. split; [reflexivity | lia].
      * exists "gid://shopify/Order/1001". split; [reflexivity | discriminate].
      * eexists; eexists; reflexivity.
    + reflexivity.
    + reflexivity.
Defined.

(** X3.  The SKU that the catalog sync gives the variant of a product is
    the one the order service looks for: a line item with that SKU is
    taken as linked, and the source product id cut out of the SKU is the
    id of the product the variant was made from. *)
Theorem catalog_sku_leads_back_to_the_source_product :
  forall (cfg : Catalog.config) (iso priceString : string) (p : Catalog.product)
         (tr : Catalog.transformResult)
         (sv : OrderService.services) (gid ident : string)
         (st : OrderService.state),
    Catalog.transformBunjangRowToShopifyInput cfg iso p priceString = Some tr ->
    let item := {| OrderService.sku := Some (Catalog.v_sku (Catalog.t_variantData tr)) |} in
    Notions.linked item = true
    /\ OrderService.processItems sv gid ident [item] st
       = Eff.bind (OrderService.processLinkedItem sv gid ident (Catalog.pid p))
           (fun _ => Eff.ret tt) st.
Proof.
  intros cfg iso priceString p tr sv gid ident st Ht item.
  unfold Catalog.transformBunjangRowToShopifyInput in Ht.
  injection Ht as <-. subst item.
  cbn [Catalog.v_sku Catalog.t_variantData].
  assert (Hs : JS.startsWith ("BJ-" ++ Catalog.pid p) "BJ-" = true)
    by apply startsWith_append.
  assert (Hn : JS.nonempty_opt (Some ("BJ-" ++ Catalog.pid p))
               = Some ("BJ-" ++ Catalog.pid p))
    by (apply nonempty_opt_Some; discriminate).
  assert (Hc : substring 3 (String.length ("BJ-" ++ Catalog.pid p) - 3)
                 ("BJ-" ++ Catalog.pid p) = Catalog.pid p).
  { rewrite length_append. change (String.length "BJ-") with 3%nat.
    replace (3 + String.length (Catalog.pid p) - 3)%nat
      with (String.length (Catalog.pid p)) by lia.
    etransitivity;
      [exact (substring_skip_append "BJ-" (Catalog.pid p) 0
                (String.length (Catalog.pid p)))
      | apply substring_full]. }
  split.
  - unfold Notions.linked. cbn [OrderService.sku]. now rewrite Hn.
  - cbn [OrderService.processItems OrderService.sku]. now rewrite Hn, Hs, Hc.
Qed.

(** The theorem at the feed record of the specification. *)
Lemma catalog_sku_leads_back_to_the_source_product_witness :
  exists tr,
    Catalog.transformBunjangRowToShopifyInput Scenario.cfg
      "2024-02-01T00:00:00.000Z" (Scenario.feed_product 1704067200000) "11.00"
    = Some tr
    /\ Catalog.v_sku (Catalog.t_variantData tr) = "BJ-123"
    /\ Notions.linked
         {| OrderService.sku := Some (Catalog.v_sku (Catalog.t_variantData tr)) |}
       = true
    /\ OrderService.processItems Scenario.source_has_555
         "gid://shopify/Order/1001" "BJ_ORDER_1001"
         [ {| OrderService.sku := Some (Catalog.v_sku (Catalog.t_variantData tr)) |} ]
         OrderService.initial
       = Eff.bind
           (OrderService.processLinkedItem Scenario.source_has_555
              "gid://shopify/Order/1001" "BJ_ORDER_1001" "123")
           (fun _ => Eff.ret tt) OrderService.initial.
Proof.
  eexists. split; [reflexivity|]. split; [reflexivity|].
  apply (catalog_sku_leads_back_to_the_source_product Scenario.cfg
           "2024-02-01T00:00:00.000Z" "11.00" (Scenario.feed_product 1704067200000)).
  reflexivity.
Defined.

(** ** The retry loop as a whole *)

Section RetryRuns.
Import JS Retry Notions.

Lemma attempts_trace (cfg : config) (sv : services) (op : string) (fuel : nat) :
  forall (attempt : nat) (l : list event),
    Z.of_nat attempt + Z.of_nat (S fuel) = MAX_SHOPIFY_RETRIES cfg + 1 ->
    exists delays,
      (length delays <= fuel)%nat
      /\ snd (attempts cfg sv op (S fuel) attempt l)
         = (l ++ retry_trace attempt delays)%list.
Proof.
  induction fuel as [|fuel IH]; intros attempt l Hf;
    [|remember (S fuel) as f eqn:Ef];
    cbn [attempts]; unfold Eff.bind, client_query, Eff.ret, Eff.throw.
  - exists []. split; [cbn; lia|].
    destruct (query sv l) as [b|e]; [destruct (b_errors b)|]; try reflexivity.
    destruct (cls e); try reflexivity.
    replace (Z.of_nat attempt <? MAX_SHOPIFY_RETRIES cfg) with false
      by (symmetry; apply Z.ltb_ge; lia).
    reflexivity.
  - destruct (query sv l) as [b|e];
      [destruct (b_errors b); exists []; (split; [cbn; lia | reflexivity])|].
    destruct (cls e); try (exists []; split; [cbn; lia | reflexivity]).
    destruct ((Z.of_nat attempt <? MAX_SHOPIFY_RETRIES cfg)
              && (isThrottled e || isServerError e));
      [|exists []; split; [cbn; lia | reflexivity]].
    unfold Math_random, emit. cbn [fst snd]. subst f.
    destruct (IH (S attempt)
                ((l ++ [Query attempt])
                 ++ [Sleep (retryDelay cfg attempt
                              (random sv (l ++ [Query attempt])) e)])%list)
      as (delays & Hl & Ht); [lia|].
    exists (retryDelay cfg attempt (random sv (l ++ [Query attempt])) e :: delays).
    split; [cbn; lia|].
    rewrite Ht. cbn [retry_trace]. rewrite <- !app_assoc. reflexivity.
Qed.

Lemma attempts_answer (cfg : config) (sv : services) (op : string) (fuel : nat) :
  forall (attempt : nat) (l : list event) (b : body) (l' : list event),
    attempts cfg sv op fuel attempt l = (Return b, l') ->
    b_errors b = []
    /\ exists pre k, l' = (pre ++ [Query k])%list /\ query sv pre = Return b.
Proof.
  induction fuel as [|fuel IH]; intros attempt l b l'; [discriminate|].
  cbn [attempts]. unfold Eff.bind, client_query, Eff.ret, Eff.throw.
  destruct (query sv l) as [b0|e] eqn:Eq.
  - destruct (b_errors b0) eqn:Eb; [|discriminate].
    intros [= <- <-]. split; [exact Eb|]. now exists l, attempt.
  - destruct (cls e); try discriminate.
    destruct ((Z.of_nat attempt <? MAX_SHOPIFY_RETRIES cfg)
              && (isThrottled e || isServerError e)); [|discriminate].
    unfold Math_random, emit. cbn [fst snd]. apply IH.
Qed.

End RetryRuns.

(** X4.  A request through the retry layer makes at most
    MAX_SHOPIFY_RETRIES + 1 queries, numbered from 0, with one sleep
    between two consecutive queries and nothing after the last one.  A
    body that it returns is the answer to its last query and carries no
    GraphQL errors. *)
Theorem request_makes_a_bounded_run_of_queries :
  forall (cfg : Retry.config) (sv : Retry.services) (operationName : string)
         (l : list Retry.event),
    0 <= Retry.MAX_SHOPIFY_RETRIES cfg ->
    Retry.getShopifyAdminGraphQLClient sv = Return tt ->
    let res := Retry.shopifyGraphqlRequest cfg sv operationName l in
    (exists delays,
        Z.of_nat (length delays) <= Retry.MAX_SHOPIFY_RETRIES cfg
        /\ snd res = (l ++ Notions.retry_trace 0 delays)%list)
    /\ (forall b,
          fst res = Return b ->
          Retry.b_errors b = []
          /\ exists pre k,
               snd res = (pre ++ [Retry.Query k])%list
               /\ Retry.query sv pre = Return b).
Proof.
  intros cfg sv op l Hmax Hc res. subst res.
  unfold Retry.shopifyGraphqlRequest, Eff.bind. rewrite Hc.
  replace (Z.to_nat (Retry.MAX_SHOPIFY_RETRIES cfg + 1))
    with (S (Z.to_nat (Retry.MAX_SHOPIFY_RETRIES cfg))) by lia.
  split.
  - destruct (attempts_trace cfg sv op (Z.to_nat (Retry.MAX_SHOPIFY_RETRIES cfg))
                0%nat l) as (delays & Hl & Ht); [lia|].
    exists delays. split; [lia | exact Ht].
  - intros b Hb.
    destruct (Retry.attempts cfg sv op _ 0 l) as [o l'] eqn:E.
    cbn [fst snd] in *. subst o.
    exact (attempts_answer cfg sv op _ 0%nat l b l' E).
Qed.

(** The theorem at the request whose first query is answered with a 429
    and retry-after 5, with the defaults of the code. *)
Lemma request_makes_a_bounded_run_of_queries_witness :
  let res :=
    Retry.shopifyGraphqlRequest Scenario.retry_cfg
      (Scenario.answers_after (Scenario.http_error 429 (Some "5")))
      "orderUpdate" [] in
  (exists delays,
      Z.of_nat (length delays) <= 3
      /\ snd res = ([] ++ Notions.retry_trace 0 delays)%list)
  /\ (Retry.b_errors {| Retry.b_errors := []; Retry.b_data := Some "{}" |} = []
      /\ exists pre k,
           snd res = (pre ++ [Retry.Query k])%list
           /\ Retry.query
                (Scenario.answers_after (Scenario.http_error 429 (Some "5"))) pre
              = Return {| Retry.b_errors := []; Retry.b_data := Some "{}" |}).
Proof.
  pose proof (request_makes_a_bounded_run_of_queries Scenario.retry_cfg
                (Scenario.answers_after (Scenario.http_error 429 (Some "5")))
                "orderUpdate" []) as H.
  destruct H as (H1 & H2); [cbn; lia | reflexivity |].
  split; [exact H1|].
  apply H2. vm_compute. reflexivity.
Defined.

(** X5.  Failures that the loop does not retry end the request after
    the query that met them, without a sleep: a response whose body
    carries GraphQL errors is turned into an ExternalServiceError with
    the code SHOPIFY_GQL_USER_ERRORS, an exception of the application's
    own error classes is passed on as it is, and any other exception
    that is not a GraphqlQueryError is wrapped into an
    ExternalServiceError. *)
Theorem failures_without_a_response_status_are_not_retried :
  forall (cfg : Retry.config) (sv : Retry.services) (operationName : string)
         (fuel attempt : nat) (l : list Retry.event),
    (forall b,
        Retry.query sv l = Return b -> Retry.b_errors b <> [] ->
        exists e,
          Retry.attempts cfg sv operationName (S fuel) attempt l
          = (Throw e, app l [Retry.Query attempt])
          /\ cls e = ExternalServiceError
          /\ errorCode e = "SHOPIFY_GQL_USER_ERRORS")
    /\ (forall error,
          Retry.query sv l = Throw error ->
          Err.instanceof_AppError error = true ->
          Retry.attempts cfg sv operationName (S fuel) attempt l
          = (Throw error, app l [Retry.Query attempt]))
    /\ (forall error,
          Retry.query sv l = Throw error ->
          cls error = PlainError ->
          exists e,
            Retry.attempts cfg sv operationName (S fuel) attempt l
            = (Throw e, app l [Retry.Query attempt])
            /\ cls e = ExternalServiceError
            /\ message e
               = "Unexpected system error during Shopify API call (Operation: "
                 ++ operationName ++ ")").
Proof.
  intros cfg sv op fuel attempt l. split; [|split].
  - intros b Hq Hb. cbn [Retry.attempts].
    unfold Eff.bind, Retry.client_query, Eff.throw. rewrite Hq.
    destruct (Retry.b_errors b); [contradiction|].
    eexists. split; [reflexivity|]. split; reflexivity.
  - intros error Hq Hc. cbn [Retry.attempts].
    unfold Eff.bind, Retry.client_query. rewrite Hq.
    unfold Err.instanceof_AppError in Hc.
    destruct (cls error); try discriminate; reflexivity.
  - intros error Hq Hc. cbn [Retry.attempts].
    unfold Eff.bind, Retry.client_query. rewrite Hq, Hc.
    eexists. split; [reflexivity|]. split; reflexivity.
Qed.

Lemma failures_without_a_response_status_are_not_retried_witness :
  (exists e,
      Retry.attempts Scenario.retry_cfg
        {| Retry.getShopifyAdminGraphQLClient := Return tt;
           Retry.query := fun _ =>
             Return {| Retry.b_errors := ["Throttled"]; Retry.b_data := None |};
           Retry.random := fun _ => JS.of_Z 0 |}
        "productCreate" 4 0 []
      = (Throw e, app [] [Retry.Query 0])
      /\ cls e = ExternalServiceError
      /\ errorCode e = "SHOPIFY_GQL_USER_ERRORS")
  /\ Retry.attempts Scenario.retry_cfg
       {| Retry.getShopifyAdminGraphQLClient := Return tt;
          Retry.query := fun _ =>
            Throw (Err.mk AppError "no session" "SHOPIFY_SESSION_ERROR");
          Retry.random := fun _ => JS.of_Z 0 |}
       "productCreate" 4 0 []
     = (Throw (Err.mk AppError "no session" "SHOPIFY_SESSION_ERROR"),
        app [] [Retry.Query 0])
  /\ (exists e,
        Retry.attempts Scenario.retry_cfg
          {| Retry.getShopifyAdminGraphQLClient := Return tt;
             Retry.query := fun _ =>
               Throw (Err.mk PlainError "socket hang up" "ECONNRESET");
             Retry.random := fun _ => JS.of_Z 0 |}
          "productCreate" 4 0 []
        = (Throw e, app [] [Retry.Query 0])
        /\ cls e = ExternalServiceError
        /\ message e
           = "Unexpected system error during Shopify API call (Operation: "
             ++ "productCreate" ++ ")").
Proof.
  split; [|split].
  - apply (proj1 (failures_without_a_response_status_are_not_retried
                    Scenario.retry_cfg _ "productCreate" 3 0 [])
             {| Retry.b_errors := ["Throttled"]; Retry.b_data := None |});
      [reflexivity | discriminate].
  - apply (proj1 (proj2 (failures_without_a_response_status_are_not_retried
                           Scenario.retry_cfg _ "productCreate" 3 0 [])));
      reflexivity.
  - apply (proj2 (proj2 (failures_without_a_response_status_are_not_retried
                           Scenario.retry_cfg _ "productCreate" 3 0 []))
             (Err.mk PlainError "socket hang up" "ECONNRESET"));
      reflexivity.
Defined.

Section RetryExhaustion.
Import JS Retry Notions.

Lemma attempts_exhaust (cfg : config) (sv : services) (op : string) (fuel : nat) :
  (forall l', exists e, query sv l' = Throw e /\ retryable e = true) ->
  forall (attempt : nat) (l : list event),
    Z.of_nat attempt + Z.of_nat (S fuel) = MAX_SHOPIFY_RETRIES cfg + 1 ->
    exists delays last,
      attempts cfg sv op (S fuel) attempt l
      = (Throw (Err.mk ExternalServiceError
                  ("Shopify API request failed (Operation: " ++ op
                   ++ ", Status: " ++ statusText last ++ ")")
                  "EXTERNAL_SERVICE_ERROR"),
         (l ++ retry_trace attempt delays)%list)
      /\ length delays = fuel
      /\ retryable last = true.
Proof.
  intros Hall.
  induction fuel as [|fuel IH]; intros attempt l Hf;
    [|remember (S fuel) as f eqn:Ef];
    cbn [attempts]; unfold Eff.bind, client_query, Eff.ret, Eff.throw;
    destruct (Hall l) as (e & Hq & Hr); rewrite Hq;
    unfold retryable in Hr;
    destruct (cls e) eqn:Ec; try discriminate; rewrite Hr.
  - replace (Z.of_nat attempt <? MAX_SHOPIFY_RETRIES cfg) with false
      by (symmetry; apply Z.ltb_ge; lia).
    cbn [andb]. exists [], e. split; [reflexivity|]. split; [reflexivity|].
    unfold retryable. now rewrite Ec.
  - replace (Z.of_nat attempt <? MAX_SHOPIFY_RETRIES cfg) with true
      by (symmetry; apply Z.ltb_lt; lia).
    cbn [andb]. unfold Math_random, emit. cbn [fst snd]. subst f.
    destruct (IH (S attempt)
                ((l ++ [Query attempt])
                 ++ [Sleep (retryDelay cfg attempt
                              (random sv (l ++ [Query attempt])) e)])%list)
      as (delays & last & Ht & Hl & Hlast); [lia|].
    exists (retryDelay cfg attempt (random sv (l ++ [Query attempt])) e :: delays),
      last.
    rewrite Ht. cbn [retry_trace length]. rewrite <- !app_assoc.
    split; [reflexivity|]. split; [now rewrite Hl | exact Hlast].
Qed.

End RetryExhaustion.

(** X6.  When every query is answered with a retryable failure (a
    GraphqlQueryError with status 429, a 5xx status or the throttled
    marker), the request makes exactly MAX_SHOPIFY_RETRIES + 1 queries
    with a sleep after each but the last, and then throws an
    ExternalServiceError that names the operation and the status of a
    retryable failure.  With a negative MAX_SHOPIFY_RETRIES the request
    makes no query at all and throws the error of the exhausted
    retries. *)
Theorem persistent_failure_uses_up_the_retries :
  forall (cfg : Retry.config) (sv : Retry.services) (operationName : string)
         (l : list Retry.event),
    Retry.getShopifyAdminGraphQLClient sv = Return tt ->
    (0 <= Retry.MAX_SHOPIFY_RETRIES cfg ->
     (forall l', exists e, Retry.query sv l' = Throw e /\ Notions.retryable e = true) ->
     exists delays last,
       Retry.shopifyGraphqlRequest cfg sv operationName l
       = (Throw (Err.mk ExternalServiceError
                   ("Shopify API request failed (Operation: " ++ operationName
                    ++ ", Status: " ++ Retry.statusText last ++ ")")
                   "EXTERNAL_SERVICE_ERROR"),
          (l ++ Notions.retry_trace 0 delays)%list)
       /\ Z.of_nat (length delays) = Retry.MAX_SHOPIFY_RETRIES cfg
       /\ Notions.retryable last = true)
    /\ (Retry.MAX_SHOPIFY_RETRIES cfg < 0 ->
        Retry.shopifyGraphqlRequest cfg sv operationName l
        = (Throw (Err.mk ExternalServiceError
                    ("Shopify API request failed after all retries (Operation: "
                     ++ operationName ++ ")") "EXTERNAL_SERVICE_ERROR"), l)).
Proof.
  intros cfg sv op l Hc. unfold Retry.shopifyGraphqlRequest, Eff.bind.
  rewrite Hc. split.
  - intros Hmax Hall.
    replace (Z.to_nat (Retry.MAX_SHOPIFY_RETRIES cfg + 1))
      with (S (Z.to_nat (Retry.MAX_SHOPIFY_RETRIES cfg))) by lia.
    destruct (attempts_exhaust cfg sv op (Z.to_nat (Retry.MAX_SHOPIFY_RETRIES cfg))
                Hall 0%nat l) as (delays & last & E & Hl & Hr); [lia|].
    exists delays, last. split; [exact E|]. split; [lia | exact Hr].
  - intros Hneg.
    replace (Z.to_nat (Retry.MAX_SHOPIFY_RETRIES cfg + 1)) with 0%nat by lia.
    reflexivity.
Qed.

(** The theorem with the defaults of the code and a destination that
    answers every query with a 503, and with the retries set to -1. *)
Lemma persistent_failure_uses_up_the_retries_witness :
  (exists delays last,
      Retry.shopifyGraphqlRequest Scenario.retry_cfg
        {| Retry.getShopifyAdminGraphQLClient := Return tt;
           Retry.query := fun _ => Throw (Scenario.http_error 503 None);
           Retry.random := fun _ => JS.of_decimal false 5 (-1) |}
        "productCreate" []
      = (Throw (Err.mk ExternalServiceError
                  ("Shopify API request failed (Operation: " ++ "productCreate"
                   ++ ", Status: " ++ Retry.statusText last ++ ")")
                  "EXTERNAL_SERVICE_ERROR"),
         ([] ++ Notions.retry_trace 0 delays)%list)
      /\ Z.of_nat (length delays) = 3
      /\ Notions.retryable last = true)
  /\ Retry.shopifyGraphqlRequest
       {| Retry.MAX_SHOPIFY_RETRIES := -1;
          Retry.INITIAL_SHOPIFY_RETRY_DELAY_MS := JS.of_Z 2000 |}
       (Scenario.answers_after (Scenario.http_error 503 None))
       "productCreate" []
     = (Throw (Err.mk ExternalServiceError
                 ("Shopify API request failed after all retries (Operation: "
                  ++ "productCreate" ++ ")") "EXTERNAL_SERVICE_ERROR"), []).
Proof.
  split.
  - apply (proj1 (persistent_failure_uses_up_the_retries Scenario.retry_cfg
                    {| Retry.getShopifyAdminGraphQLClient := Return tt;
                       Retry.query := fun _ => Throw (Scenario.http_error 503 None);
                       Retry.random := fun _ => JS.of_decimal false 5 (-1) |}
                    "productCreate" [] eq_refl)).
    + cbn. lia.
    + intros l'. eexists. split; reflexivity.
  - apply (proj2 (persistent_failure_uses_up_the_retries
                    {| Retry.MAX_SHOPIFY_RETRIES := -1;
                       Retry.INITIAL_SHOPIFY_RETRY_DELAY_MS := JS.of_Z 2000 |}
                    (Scenario.answers_after (Scenario.http_error 503 None))
                    "productCreate" [] eq_refl)).
    cbn. lia.
Defined.

(** The default run under a persistent 503: four queries, and sleeps of
    2000, 4000 and 8000 ms when the random draw is 0.5. *)
Example request_under_persistent_503 :
  snd (Retry.shopifyGraphqlRequest Scenario.retry_cfg
         {| Retry.getShopifyAdminGraphQLClient := Return tt;
            Retry.query := fun _ => Throw (Scenario.http_error 503 None);
            Retry.random := fun _ => JS.of_decimal false 5 (-1) |}
         "productCreate" [])
  = [Retry.Query 0; Retry.Sleep (JS.of_Z 2000);
     Retry.Query 1; Retry.Sleep (JS.of_Z 4000);
     Retry.Query 2; Retry.Sleep (JS.of_Z 8000);
     Retry.Query 3].
Proof. vm_compute. reflexivity. Qed.

(** ** Prices: how the calculation ends *)

(** X7.  calculateShopifyPriceUsd returns a price exactly when the
    source price is a number that is not negative and the exchange-rate
    service returns a rate above zero.  For an invalid price it throws a
    ValidationError without calling the service.  Whatever goes wrong,
    the exception is one of the application's own: a failure of the
    service is wrapped into an AppError that carries its message. *)
Theorem price_is_returned_exactly_for_valid_price_and_rate :
  forall (S : Type) (cfg : PriceCalculation.config)
         (getKrwToUsdRate : Eff.M S JS.number) (krw : JS.number) (s : S),
    let res := PriceCalculation.calculateShopifyPriceUsd cfg getKrwToUsdRate krw s in
    ((exists priceString, fst res = Return priceString)
     <-> JS.isNaN krw = false /\ JS.ltb krw PriceCalculation.zero = false
         /\ exists rate,
              fst (getKrwToUsdRate s) = Return rate
              /\ JS.gtb rate PriceCalculation.zero = true)
    /\ (JS.isNaN krw || JS.ltb krw PriceCalculation.zero = true ->
        exists e, res = (Throw e, s) /\ cls e = ValidationError)
    /\ (forall e, fst res = Throw e -> Err.instanceof_AppError e = true)
    /\ (JS.isNaN krw || JS.ltb krw PriceCalculation.zero = false ->
        forall rateError,
          fst (getKrwToUsdRate s) = Throw rateError ->
          exists e,
            fst res = Throw e /\ cls e = AppError
            /\ errorCode e = "EXCHANGE_RATE_UNAVAILABLE_FOR_PRICE_CALC"
            /\ message e
               = "가격 계산에 필요한 환율 정보를 가져올 수 없습니다. (원인: "
                 ++ message rateError ++ ")").
Proof.
  intros S cfg getRate krw s res. subst res.
  unfold PriceCalculation.calculateShopifyPriceUsd.
  destruct (JS.isNaN krw || JS.ltb krw PriceCalculation.zero) eqn:Ek.
  - cbn [Eff.throw fst]. split; [|split; [|split]].
    + split; [intros [p H]; discriminate|].
      intros (H1 & H2 & _). rewrite H1, H2 in Ek. discriminate.
    + intros _. eexists. split; reflexivity.
    + intros e [= <-]. reflexivity.
    + discriminate.
  - apply orb_false_iff in Ek as [Ek1 Ek2].
    unfold Eff.bind, Eff.try_catch, Eff.throw, Eff.ret.
    unfold PriceCalculation.convertKrwToUsd. rewrite Ek1, Ek2. cbn [orb].
    destruct (getRate s) as [[rate|e0] s'] eqn:Er; cbn [fst].
    + destruct (JS.isNaN rate || JS.leb rate PriceCalculation.zero) eqn:Ev;
        cbn [fst].
      * split; [|split; [|split]].
        -- split; [intros [p H]; discriminate|].
           intros (_ & _ & r & Hr0 & Hr). injection Hr0 as <-.
           apply gtb_zero_valid in Hr. rewrite Hr in Ev. discriminate.
        -- discriminate.
        -- intros e He. injection He as <-. reflexivity.
        -- intros _ rateError H. discriminate.
      * split; [|split; [|split]].
        -- split; [|now eexists].
           intros _. split; [reflexivity|]. split; [reflexivity|].
           exists rate. split; [reflexivity|].
           destruct rate as [[]|[]| |[] m e]; cbv in Ev |- *; congruence.
        -- discriminate.
        -- intros e H. discriminate.
        -- intros _ rateError H. discriminate.
    + split; [|split; [|split]].
      * split; [intros [p H]; discriminate|].
        intros (_ & _ & r & H & _). discriminate.
      * discriminate.
      * intros e He. injection He as <-. reflexivity.
      * intros _ rateError He. injection He as <-. eexists. repeat split.
Qed.

(** The theorem at the price of the specification, at a negative price
    and at a service that fails. *)
Lemma price_is_returned_exactly_for_valid_price_and_rate_witness :
  (exists priceString,
      fst (PriceCalculation.calculateShopifyPriceUsd Scenario.price_cfg
             (Eff.ret Scenario.rate) (JS.of_Z 10000) tt) = Return priceString)
  /\ (exists e,
        PriceCalculation.calculateShopifyPriceUsd Scenario.price_cfg
          (Eff.ret Scenario.rate) (JS.of_Z (-1)) tt = (Throw e, tt)
        /\ cls e = ValidationError)
  /\ (exists e,
        fst (PriceCalculation.calculateShopifyPriceUsd Scenario.price_cfg
               (Eff.throw (Err.mk PlainError "timeout" "ETIMEDOUT"))
               (JS.of_Z 10000) tt) = Throw e
        /\ cls e = AppError
        /\ errorCode e = "EXCHANGE_RATE_UNAVAILABLE_FOR_PRICE_CALC"
        /\ message e
           = "가격 계산에 필요한 환율 정보를 가져올 수 없습니다. (원인: "
             ++ message (Err.mk PlainError "timeout" "ETIMEDOUT") ++ ")").
Proof.
  split; [|split].
  - apply (proj1 (price_is_returned_exactly_for_valid_price_and_rate unit
                    Scenario.price_cfg (Eff.ret Scenario.rate) (JS.of_Z 10000) tt)).
    split; [reflexivity|]. split; [reflexivity|].
    exists Scenario.rate. split; reflexivity.
  - apply (proj1 (proj2 (price_is_returned_exactly_for_valid_price_and_rate unit
                    Scenario.price_cfg (Eff.ret Scenario.rate) (JS.of_Z (-1)) tt))).
    reflexivity.
  - apply (proj2 (proj2 (proj2
             (price_is_returned_exactly_for_valid_price_and_rate unit
                Scenario.price_cfg
                (Eff.throw (Err.mk PlainError "timeout" "ETIMEDOUT"))
                (JS.of_Z 10000) tt))));
      reflexivity.
Defined.

(** X8.  A source price of zero is listed at the handling fee alone:
    with a finite rate above zero and a finite markup factor, the price
    string is the handling fee rendered by toFixed(2), whatever the rate
    and the markup are. *)
Theorem zero_price_is_listed_at_the_handling_fee :
  forall (S : Type) (cfg : PriceCalculation.config)
         (getKrwToUsdRate : Eff.M S JS.number) (krw rate : JS.number) (s s' : S),
    getKrwToUsdRate s = (Return rate, s') ->
    JS.eqb krw PriceCalculation.zero = true ->
    JS.gtb rate PriceCalculation.zero = true ->
    JS.is_finite rate = true ->
    JS.is_finite
      (JS.add (JS.of_Z 1)
         (JS.div (PriceCalculation.markupPercentage cfg) (JS.of_Z 100))) = true ->
    PriceCalculation.calculateShopifyPriceUsd cfg getKrwToUsdRate krw s
    = (Return (JS.toFixed (PriceCalculation.handlingFeeUsd cfg) 2), s').
Proof.
  intros S cfg getRate krw rate s s' Hg Hk Hr Hf Hm.
  destruct (eqb_zero krw Hk) as [sk ->].
  unfold PriceCalculation.calculateShopifyPriceUsd.
  change (JS.isNaN (S754_zero sk) || JS.ltb (S754_zero sk) PriceCalculation.zero)
    with false.
  cbv iota. unfold Eff.bind, Eff.try_catch. rewrite Hg.
  unfold PriceCalculation.convertKrwToUsd.
  change (JS.isNaN (S754_zero sk) || JS.ltb (S754_zero sk) PriceCalculation.zero)
    with false.
  rewrite (gtb_zero_valid rate Hr). cbv iota. unfold Eff.ret. f_equal. f_equal.
  destruct rate as [sr|sr| |sr m e]; try discriminate.
  destruct sr; [discriminate|].
  change (JS.mul (S754_zero sk) (S754_finite false m e))
    with (S754_zero (xorb sk false)).
  generalize (xorb sk false). clear sk Hk. intros sk.
  destruct (JS.add (JS.of_Z 1)
              (JS.div (PriceCalculation.markupPercentage cfg) (JS.of_Z 100)))
    as [sf|sf| |sf mf ef]; try discriminate.
  - change (JS.mul (S754_zero sk) (S754_zero sf)) with (S754_zero (xorb sk sf)).
    destruct (PriceCalculation.handlingFeeUsd cfg) as [sh|sh| |sh mh eh];
      try reflexivity.
    destruct sk, sf, sh; reflexivity.
  - change (JS.mul (S754_zero sk) (S754_finite sf mf ef))
      with (S754_zero (xorb sk sf)).
    destruct (PriceCalculation.handlingFeeUsd cfg) as [sh|sh| |sh mh eh];
      try reflexivity.
    destruct sk, sf, sh; reflexivity.
Qed.

(** The theorem at the rate and markup of the specification: a free
    item is listed at 2.00. *)
Lemma zero_price_is_listed_at_the_handling_fee_witness :
  PriceCalculation.calculateShopifyPriceUsd Scenario.price_cfg
    (Eff.ret Scenario.rate) (JS.of_Z 0) tt
  = (Return (JS.toFixed (PriceCalculation.handlingFeeUsd Scenario.price_cfg) 2), tt)
  /\ JS.toFixed (PriceCalculation.handlingFeeUsd Scenario.price_cfg) 2 = "2.00".
Proof.
  split.
  - apply (zero_price_is_listed_at_the_handling_fee unit Scenario.price_cfg
             (Eff.ret Scenario.rate) (JS.of_Z 0) Scenario.rate tt tt);
      vm_compute; reflexivity.
  - vm_compute. reflexivity.
Defined.

(** X9.  calculateInternalTotalCostUsd answers null, without an
    exception, when the price or the shipping fee is not a number or is
    negative (the exchange-rate service is then not called) and when the
    service fails.  When the service returns a rate that is not a number
    or not above zero, it throws the AppError of the conversion instead
    of answering null.  In every other case it returns the cost object,
    which repeats the two source amounts. *)
Theorem internal_cost_is_null_or_an_invalid_rate_error :
  forall (S : Type) (cfg : PriceCalculation.config)
         (getKrwToUsdRate : Eff.M S JS.number) (price fee : JS.number) (s : S),
    let valid :=
      negb (JS.isNaN price || JS.ltb price PriceCalculation.zero
            || JS.isNaN fee || JS.ltb fee PriceCalculation.zero) in
    let res :=
      InternalCost.calculateInternalTotalCostUsd cfg getKrwToUsdRate price fee s in
    (valid = false -> res = (Return None, s))
    /\ (valid = true ->
        forall e s', getKrwToUsdRate s = (Throw e, s') -> res = (Return None, s'))
    /\ (valid = true ->
        forall rate s',
          getKrwToUsdRate s = (Return rate, s') ->
          if JS.isNaN rate || JS.leb rate PriceCalculation.zero
          then exists e,
                 res = (Throw e, s') /\ cls e = AppError
                 /\ errorCode e = "INVALID_EXCHANGE_RATE_INTERNAL"
          else exists c,
                 res = (Return (Some c), s')
                 /\ InternalCost.itemPriceKrw c = price
                 /\ InternalCost.shippingFeeKrw c = fee
                 /\ InternalCost.exchangeRateUsed c = InternalCost.rounded rate 8).
Proof.
  intros S cfg getRate price fee s valid res. subst valid res.
  unfold InternalCost.calculateInternalTotalCostUsd.
  destruct (JS.isNaN price || JS.ltb price PriceCalculation.zero
            || JS.isNaN fee || JS.ltb fee PriceCalculation.zero) eqn:Ev;
    cbn [negb].
  - split; [reflexivity|]. split; discriminate.
  - split; [discriminate|].
    apply orb_false_iff in Ev as [Ev Ev4].
    apply orb_false_iff in Ev as [Ev Ev3].
    apply orb_false_iff in Ev as [Ev1 Ev2].
    unfold Eff.bind, Eff.try_catch, Eff.ret, Eff.throw,
      PriceCalculation.convertKrwToUsd.
    rewrite Ev1, Ev2, Ev3, Ev4. cbn [orb].
    split; intros _.
    + intros e s' ->. reflexivity.
    + intros rate s' ->.
      destruct (JS.isNaN rate || JS.leb rate PriceCalculation.zero).
      * eexists. repeat split.
      * eexists. repeat split.
Qed.

(** The theorem at a negative shipping fee, at a failing service, at a
    rate of zero and at the amounts and the rate of the specification. *)
Lemma internal_cost_is_null_or_an_invalid_rate_error_witness :
  InternalCost.calculateInternalTotalCostUsd Scenario.price_cfg
    (Eff.ret Scenario.rate) (JS.of_Z 10000) (JS.of_Z (-1)) tt
  = (Return None, tt)
  /\ InternalCost.calculateInternalTotalCostUsd Scenario.price_cfg
       (Eff.throw (Err.mk PlainError "timeout" "ETIMEDOUT"))
       (JS.of_Z 10000) (JS.of_Z 3000) tt
     = (Return None, tt)
  /\ (exists e,
        InternalCost.calculateInternalTotalCostUsd Scenario.price_cfg
          (Eff.ret (JS.of_Z 0)) (JS.of_Z 10000) (JS.of_Z 3000) tt
        = (Throw e, tt)
        /\ cls e = AppError /\ errorCode e = "INVALID_EXCHANGE_RATE_INTERNAL")
  /\ (exists c,
        InternalCost.calculateInternalTotalCostUsd Scenario.price_cfg
          (Eff.ret Scenario.rate) (JS.of_Z 10000) (JS.of_Z 3000) tt
        = (Return (Some c), tt)
        /\ InternalCost.itemPriceKrw c = JS.of_Z 10000
        /\ InternalCost.shippingFeeKrw c = JS.of_Z 3000
        /\ InternalCost.exchangeRateUsed c = InternalCost.rounded Scenario.rate 8).
Proof.
  split; [|split; [|split]].
  - apply (proj1 (internal_cost_is_null_or_an_invalid_rate_error unit
                    Scenario.price_cfg (Eff.ret Scenario.rate)
                    (JS.of_Z 10000) (JS.of_Z (-1)) tt)).
    reflexivity.
  - apply (proj1 (proj2 (internal_cost_is_null_or_an_invalid_rate_error unit
                    Scenario.price_cfg
                    (Eff.throw (Err.mk PlainError "timeout" "ETIMEDOUT"))
                    (JS.of_Z 10000) (JS.of_Z 3000) tt))
             eq_refl (Err.mk PlainError "timeout" "ETIMEDOUT") tt).
    reflexivity.
  - apply (proj2 (proj2 (internal_cost_is_null_or_an_invalid_rate_error unit
                    Scenario.price_cfg (Eff.ret (JS.of_Z 0))
                    (JS.of_Z 10000) (JS.of_Z 3000) tt))
             eq_refl (JS.of_Z 0) tt eq_refl).
  - apply (proj2 (proj2 (internal_cost_is_null_or_an_invalid_rate_error unit
                    Scenario.price_cfg (Eff.ret Scenario.rate)
                    (JS.of_Z 10000) (JS.of_Z 3000) tt))
             eq_refl Scenario.rate tt eq_refl).
Defined.

(** The cost of the item of the specification with a shipping fee of
    3000 KRW: 9 USD for the item, 2.25 for the shipping, 13.25 in all. *)
Example internal_cost_of_the_item_at_10000 :
  fst (InternalCost.calculateInternalTotalCostUsd Scenario.price_cfg
         (Eff.ret Scenario.rate) (JS.of_Z 10000) (JS.of_Z 3000) tt)
  = Return (Some {|
      InternalCost.itemPriceKrw := JS.of_Z 10000;
      InternalCost.shippingFeeKrw := JS.of_Z 3000;
      InternalCost.exchangeRateUsed := JS.parseFloat "0.00075";
      InternalCost.itemPriceUsd := JS.of_Z 9;
      InternalCost.shippingFeeUsd := JS.parseFloat "2.25";
      InternalCost.handlingFeeUsd := JS.of_Z 2;
      InternalCost.totalEstimatedCostUsd := JS.parseFloat "13.25" |}).
Proof. vm_compute. reflexivity. Qed.

(** ** The catalog: what the normaliser and the transformation give *)

Section TrimFacts.
Import JS Notions.

Lemma trimEnd_idempotent (s : string) : trimEnd (trimEnd s) = trimEnd s.
Proof.
  induction s as [|c s IH]; [reflexivity|].
  cbn [trimEnd]. destruct (trimEnd s) as [|d t] eqn:E.
  - destruct (is_whitespace c) eqn:W; [reflexivity|].
    cbn [trimEnd]. now rewrite W.
  - cbn [trimEnd] in IH |- *. rewrite IH. reflexivity.
Qed.

Lemma trimStart_no_leading_space (s : string) : no_leading_space (trimStart s).
Proof.
  induction s as [|c s IH]; [exact I|].
  cbn [trimStart]. destruct (is_whitespace c) eqn:W; [exact IH | exact W].
Qed.

Lemma trimStart_fixed (s : string) : no_leading_space s -> trimStart s = s.
Proof. destruct s as [|c s]; [reflexivity|]. cbn. now intros ->. Qed.

Lemma trimEnd_no_leading_space (s : string) :
  no_leading_space s -> no_leading_space (trimEnd s).
Proof.
  destruct s as [|c s]; [exact (fun H => H)|].
  cbn [no_leading_space trimEnd]. intros W.
  destruct (trimEnd s); [now rewrite W | exact W].
Qed.

Lemma trim_idempotent (s : string) : trim (trim s) = trim s.
Proof.
  unfold trim.
  rewrite (trimStart_fixed (trimEnd (trimStart s))).
  - apply trimEnd_idempotent.
  - apply trimEnd_no_leading_space, trimStart_no_leading_space.
Qed.

End TrimFacts.

Section TagFacts.
Import JS Catalog.

Lemma accepted_is_built (en : engine) (cfg : config) (r : row) (p : product) :
  processCatalogRow en cfg r = Some p ->
  p = buildProduct en r /\ Spec.drops cfg p = false.
Proof.
  rewrite processCatalogRow_drops.
  destruct (Spec.drops cfg (buildProduct en r)) eqn:E; [discriminate|].
  intros [= <-]. now split.
Qed.

Lemma pid_of_buildProduct (en : engine) (r : row) :
  pid (buildProduct en r) = trim (or_else (r_pid r) "").
Proof.
  unfold buildProduct.
  now destruct (parse_row_dates en (r_updatedAt r) (r_createdAt r)).
Qed.

Lemma pid_tag_differs (pid : string) :
  "bunjang_pid:" ++ pid <> "bunjang_import"
  /\ "bunjang_pid:" ++ pid <> "K-Pop"
  /\ "bunjang_pid:" ++ pid <> "Kidult".
Proof. repeat split; intros H; discriminate H. Qed.

End TagFacts.

(** X10.  The product input made for an accepted feed row is tagged
    bunjang_import and bunjang_pid:<pid>, in that order, followed by
    nothing but the K-Pop and Kidult tags, and no tag occurs twice.  The
    query with which findProductByBunjangPidTag looks for the product
    of that pid searches for exactly this pid tag. *)
Theorem pid_tag_written_is_the_tag_searched :
  forall (en : JS.engine) (cfg : Catalog.config) (r : Catalog.row)
         (p : Catalog.product) (iso priceString : string)
         (tr : Catalog.transformResult),
    Catalog.processCatalogRow en cfg r = Some p ->
    Catalog.transformBunjangRowToShopifyInput cfg iso p priceString = Some tr ->
    let pidTag := "bunjang_pid:" ++ Catalog.pid p in
    (exists more,
        Catalog.tags (Catalog.t_productInput tr)
        = "bunjang_import" :: pidTag :: more
        /\ forall t, In t more -> t = "K-Pop" \/ t = "Kidult")
    /\ NoDup (Catalog.tags (Catalog.t_productInput tr))
    /\ Shopify.searchQuery (Catalog.pid p) = "tag:'" ++ pidTag ++ "'".
Proof.
  intros en cfg r p iso priceString tr Hp Ht pidTag.
  destruct (accepted_is_built en cfg r p Hp) as [Hb _].
  unfold Catalog.transformBunjangRowToShopifyInput in Ht.
  injection Ht as <-. cbn [Catalog.tags Catalog.t_productInput].
  destruct (pid_tag_differs (Catalog.pid p)) as (D1 & D2 & D3).
  assert (E1 : String.eqb ("bunjang_pid:" ++ Catalog.pid p) "bunjang_import" = false)
    by now apply String.eqb_neq.
  assert (E2 : String.eqb "K-Pop" ("bunjang_pid:" ++ Catalog.pid p) = false)
    by (apply String.eqb_neq; congruence).
  assert (E3 : String.eqb "Kidult" ("bunjang_pid:" ++ Catalog.pid p) = false)
    by (apply String.eqb_neq; congruence).
  split; [|split].
  - destruct (Catalog.keyword_hit (Catalog.kpopKeywords cfg) _ _ _),
      (Catalog.keyword_hit (Catalog.kidultKeywords cfg) _ _ _);
      cbn [app Catalog.dedup existsb]; rewrite ?E1, ?E2, ?E3;
      cbn [orb app Catalog.dedup existsb String.eqb Ascii.eqb Bool.eqb andb];
      rewrite ?E1, ?E2, ?E3; cbn [orb];
      eexists; (split; [reflexivity|]); cbn [In]; intuition.
  - destruct (Catalog.keyword_hit (Catalog.kpopKeywords cfg) _ _ _),
      (Catalog.keyword_hit (Catalog.kidultKeywords cfg) _ _ _);
      cbn [app Catalog.dedup existsb]; rewrite ?E1, ?E2, ?E3;
      cbn [orb app Catalog.dedup existsb String.eqb Ascii.eqb Bool.eqb andb];
      rewrite ?E1, ?E2, ?E3; cbn [orb];
      repeat (constructor;
              [rewrite ?elem_of_cons, elem_of_nil; intuition congruence|]);
      constructor.
  - unfold Shopify.searchQuery. subst pidTag p.
    rewrite !pid_of_buildProduct, trim_idempotent. reflexivity.
Qed.

(** The theorem at the feed row of the specification. *)
Lemma pid_tag_written_is_the_tag_searched_witness :
  exists tr,
    Catalog.transformBunjangRowToShopifyInput Scenario.cfg
      "2024-02-01T00:00:00.000Z"
      (Catalog.buildProduct Scenario.iso_engine (Scenario.feed_row (Some "1")))
      "11.00" = Some tr
    /\ Catalog.tags (Catalog.t_productInput tr)
       = ["bunjang_import"; "bunjang_pid:123"]
    /\ NoDup (Catalog.tags (Catalog.t_productInput tr))
    /\ Shopify.searchQuery "123" = "tag:'bunjang_pid:123'".
Proof.
  eexists. split; [reflexivity|]. split; [reflexivity|].
  apply (pid_tag_written_is_the_tag_searched Scenario.iso_engine Scenario.cfg
           (Scenario.feed_row (Some "1"))
           (Catalog.buildProduct Scenario.iso_engine (Scenario.feed_row (Some "1")))
           "2024-02-01T00:00:00.000Z" "11.00");
    vm_compute; reflexivity.
Defined.

(** X11.  The quantity that the transformation hands on for the
    inventory is always a number and never negative, whatever the
    quantity of the feed record is; so the test on it in the update of
    an existing product always passes.  The restrictive policy DENY is
    given exactly when that quantity is above zero. *)
Theorem inventory_quantity_is_a_number_and_not_negative :
  forall (cfg : Catalog.config) (iso priceString : string) (p : Catalog.product),
  exists tr,
    Catalog.transformBunjangRowToShopifyInput cfg iso p priceString = Some tr
    /\ JS.isNaN (Catalog.i_quantity (Catalog.t_inventoryInfo tr)) = false
    /\ JS.geb (Catalog.i_quantity (Catalog.t_inventoryInfo tr))
         PriceCalculation.zero = true
    /\ (Catalog.v_inventoryPolicy (Catalog.t_variantData tr) = Catalog.DENY
        <-> JS.gtb (Catalog.i_quantity (Catalog.t_inventoryInfo tr))
              PriceCalculation.zero = true).
Proof.
  intros cfg iso priceString p. eexists. split; [reflexivity|].
  cbn [Catalog.i_quantity Catalog.t_inventoryInfo Catalog.v_inventoryPolicy
       Catalog.t_variantData].
  assert (H : JS.isNaN (Catalog.variantQuantity p) = false
              /\ JS.geb (Catalog.variantQuantity p) PriceCalculation.zero = true).
  { unfold Catalog.variantQuantity.
    destruct (JS.isNaN (JS.parseInt (JS.Number_toString (Catalog.quantity p))))
      eqn:E; cbn [negb].
    - split; reflexivity.
    - split.
      + now apply Math_max_not_NaN.
      + now apply Math_max_ge_l. }
  destruct H as [H1 H2]. split; [exact H1|]. split; [exact H2|].
  destruct (JS.gtb (Catalog.variantQuantity p) PriceCalculation.zero);
    split; congruence.
Qed.

(** X12.  The price of a row that the normaliser accepts always passes
    the validation of the price calculation: for an accepted row
    calculateShopifyPriceUsd returns a price exactly when the
    exchange-rate service returns a rate above zero, and it never throws
    the ValidationError of an invalid price. *)
Theorem accepted_row_fails_pricing_only_through_the_rate :
  forall (en : JS.engine) (cfg : Catalog.config) (r : Catalog.row)
         (p : Catalog.product) (S : Type)
         (getKrwToUsdRate : Eff.M S JS.number) (s : S),
    Catalog.processCatalogRow en cfg r = Some p ->
    let res :=
      PriceCalculation.calculateShopifyPriceUsd (Catalog.priceCalculation cfg)
        getKrwToUsdRate (Catalog.price p) s in
    ((exists priceString, fst res = Return priceString)
     <-> exists rate,
           fst (getKrwToUsdRate s) = Return rate
           /\ JS.gtb rate PriceCalculation.zero = true)
    /\ (forall e, fst res = Throw e -> cls e = AppError).
Proof.
  intros en cfg r p S getRate s Hp res. subst res.
  destruct (accepted_is_built en cfg r p Hp) as [_ Hd].
  unfold Spec.drops in Hd.
  apply orb_false_iff in Hd as [Hd H4].
  apply orb_false_iff in Hd as [Hd _].
  apply orb_false_iff in Hd as [_ H2].
  apply orb_false_iff in H2 as [H2 _].
  apply orb_false_iff in H2 as [_ Hnan].
  apply orb_false_iff in H4 as [Hneg _].
  unfold PriceCalculation.calculateShopifyPriceUsd,
    PriceCalculation.convertKrwToUsd.
  rewrite Hnan, Hneg. cbn [orb].
  unfold Eff.bind, Eff.try_catch, Eff.throw, Eff.ret.
  destruct (getRate s) as [[rate|e0] s'] eqn:Er; cbn [fst].
  - destruct (JS.isNaN rate || JS.leb rate PriceCalculation.zero) eqn:Ev;
      cbn [fst].
    + split.
      * split; [intros [x H]; discriminate|].
        intros (r0 & Hr0 & Hr). injection Hr0 as <-.
        apply gtb_zero_valid in Hr. rewrite Hr in Ev. discriminate.
      * intros e He. injection He as <-. reflexivity.
    + split; [|intros e H; discriminate].
      split; [|now eexists].
      intros _. exists rate. split; [reflexivity|].
      destruct rate as [[]|[]| |[] m e]; cbv in Ev |- *; congruence.
  - split.
    + split; [intros [x H]; discriminate|].
      intros (r0 & H & _). discriminate.
    + intros e He. injection He as <-. reflexivity.
Qed.

(** The theorem at the feed row of the specification. *)
Lemma accepted_row_fails_pricing_only_through_the_rate_witness :
  exists priceString,
    fst (PriceCalculation.calculateShopifyPriceUsd
           (Catalog.priceCalculation Scenario.cfg) (Eff.ret Scenario.rate)
           (Catalog.price
              (Catalog.buildProduct Scenario.iso_engine
                 (Scenario.feed_row (Some "1")))) tt)
    = Return priceString.
Proof.
  apply (proj1 (accepted_row_fails_pricing_only_through_the_rate
                  Scenario.iso_engine Scenario.cfg (Scenario.feed_row (Some "1"))
                  (Catalog.buildProduct Scenario.iso_engine
                     (Scenario.feed_row (Some "1")))
                  unit (Eff.ret Scenario.rate) tt
                  ltac:(vm_compute; reflexivity))).
  exists Scenario.rate. split; reflexivity.
Defined.

(** ** Media *)

Section MediaFacts.
Import JS Catalog Sync.




End MediaFacts.


(** The images of a feed record with an http URL of the source, a
    relative path and an https URL of another site without an image
    extension: the first one is attached, as https, whatever the URL
    parser says about the other hosts. *)
Example media_of_three_images :
  Sync.mediaInputsToAttach
    {| JS.Date_parse_legacy := fun _ => None;
       JS.URL_parse := fun u =>
         if JS.includes u "media.bunjang.co.kr"
         then Some ("media.bunjang.co.kr", "/product/1_{res}.jpg")
         else Some ("example.com", "/page") |}
    {| Catalog.pid := "123"; Catalog.name := "X"; Catalog.description := "";
       Catalog.quantity := JS.of_Z 1; Catalog.price := JS.of_Z 10000;
       Catalog.shippingFee := JS.of_Z 0; Catalog.condition := "USED";
       Catalog.saleStatus := "SELLING"; Catalog.keywords := [];
       Catalog.images :=
         Some "http://media.bunjang.co.kr/product/1_{res}.jpg, /img/2.jpg,https://example.com/page";
       Catalog.categoryId := ""; Catalog.categoryName := ""; Catalog.brandId := "";
       Catalog.optionsRaw := None; Catalog.uid := "";
       Catalog.updatedAtString := None; Catalog.createdAtString := None;
       Catalog.updatedAt := Some 1704067200000; Catalog.createdAt := None |}
  = [ {| Sync.originalSource := "https://media.bunjang.co.kr/product/1_856.jpg";
         Sync.mediaContentType := "IMAGE"; Sync.alt := "X" |} ].
Proof. vm_compute. reflexivity. Qed.

(** ** The batch: chunks *)

Section ChunkFacts.
Import Sync.

Lemma chunks_fuel_sizes {A} (fuel concurrency : nat) (l : list A) :
  (1 <= concurrency)%nat ->
  Forall (fun chunk => chunk <> [] /\ (length chunk <= concurrency)%nat)
    (chunks_fuel fuel concurrency l).
Proof.
  intros Hc. revert l. induction fuel as [|fuel IH]; intros l.
  - destruct l; constructor.
  - destruct l as [|a l]; [constructor|].
    cbn [chunks_fuel]. constructor; [|apply IH].
    split.
    + destruct concurrency; [lia | discriminate].
    + rewrite length_firstn. lia.
Qed.

End ChunkFacts.

(** X14.  The chunks that the batch works through are the valid
    products in their order, none lost and none repeated; no chunk is
    empty and none is longer than the configured concurrency, where a
    concurrency of 0 (or none) counts as 1. *)
Theorem chunks_cover_the_products_in_order :
  forall (cfg : Catalog.config) (bunjangProducts : list Catalog.product),
    let concurrency :=
      match Catalog.syncConcurrency cfg with O => 1%nat | n => n end in
    concat (Sync.chunks concurrency bunjangProducts) = bunjangProducts
    /\ Forall (fun chunk => chunk <> [] /\ (length chunk <= concurrency)%nat)
         (Sync.chunks concurrency bunjangProducts)
    /\ (1 <= concurrency)%nat.
Proof.
  intros cfg l concurrency.
  assert (Hc : (1 <= concurrency)%nat)
    by (subst concurrency; destruct (Catalog.syncConcurrency cfg); lia).
  split; [now apply chunks_concat|].
  split; [now apply chunks_fuel_sizes | exact Hc].
Qed.

Example chunks_of_five_by_two :
  Sync.chunks 2 [1; 2; 3; 4; 5] = [[1; 2]; [3; 4]; [5]].
Proof. reflexivity. Qed.

(** ** Product sync: the documents of other products *)

Section FrameFacts.
Import JS Catalog Sync Spec Notions.

Lemma keeps_ret {A} (P : string -> Prop) (a : A) : keeps_outside P (Eff.ret a).
Proof. intros w q _. reflexivity. Qed.

Lemma keeps_throw {A} (P : string -> Prop) (e : exn) :
  keeps_outside P (@Eff.throw world A e).
Proof. intros w q _. reflexivity. Qed.

Lemma keeps_bind {A B} (P : string -> Prop) (m : M A) (k : A -> M B) :
  keeps_outside P m -> (forall a, keeps_outside P (k a)) ->
  keeps_outside P (Eff.bind m k).
Proof.
  intros Hm Hk w q Hq. unfold Eff.bind. specialize (Hm w q Hq).
  destruct (m w) as [[a|e] w1]; cbn [snd] in *; [|exact Hm].
  rewrite (Hk a w1 q Hq). exact Hm.
Qed.

Lemma keeps_try_catch {A} (P : string -> Prop) (m : M A) (h : exn -> M A) :
  keeps_outside P m -> (forall e, keeps_outside P (h e)) ->
  keeps_outside P (Eff.try_catch m h).
Proof.
  intros Hm Hh w q Hq. unfold Eff.try_catch. specialize (Hm w q Hq).
  destruct (m w) as [[a|e] w1]; cbn [snd] in *; [exact Hm|].
  rewrite (Hh e w1 q Hq). exact Hm.
Qed.

Lemma keeps_settle {A} (P : string -> Prop) (m : M A) :
  keeps_outside P m -> keeps_outside P (Eff.settle m).
Proof.
  intros Hm w q Hq. unfold Eff.settle. specialize (Hm w q Hq).
  now destruct (m w) as [[a|e] w1].
Qed.

Lemma keeps_weaken {A} (P Q : string -> Prop) (m : M A) :
  keeps_outside P m -> (forall q, P q -> Q q) -> keeps_outside Q m.
Proof. intros Hm H w q Hq. apply Hm. intros Hp. now apply Hq, H. Qed.

Lemma keeps_calls_only {A} (P : string -> Prop) (m : M A) :
  calls_only m -> keeps_outside P m.
Proof. intros Hm w q _. destruct (Hm w) as (evs & -> & _). reflexivity. Qed.

Lemma keeps_db_findOne (sv : services) (pid : string) (P : string -> Prop) :
  keeps_outside P (db_findOne sv pid).
Proof. intros w q _. unfold db_findOne. now destruct (dbFault sv (log w)). Qed.

Lemma keeps_db_updateOne (sv : services) (pid : string) (kind : db_write)
    (upsert : option SyncedDoc) (f : SyncedDoc -> SyncedDoc) :
  keeps_outside (eq pid) (db_updateOne sv pid kind upsert f).
Proof.
  intros w q Hq. unfold db_updateOne.
  destruct (dbFault sv (log w)); [reflexivity|]. cbn [snd store].
  destruct (store w !! pid), upsert; try reflexivity;
    now apply lookup_insert_ne.
Qed.

Lemma keeps_syncBody (en : engine) (cfg : config) (sv : services) (p : product)
    (now : Z) (gid : option string) :
  keeps_outside (eq (pid p)) (syncBody en cfg sv p now gid).
Proof.
  unfold syncBody.
  apply keeps_bind; [apply keeps_calls_only, calls_only_price|]. intros priceString.
  apply keeps_bind; [apply keeps_calls_only, calls_only_nowIso|]. intros iso.
  destruct (transformBunjangRowToShopifyInput cfg iso p priceString) as [tr|].
  - apply keeps_bind.
    { apply keeps_calls_only.
      destruct gid; [apply calls_only_updateExisting | apply calls_only_createNew]. }
    intros res. destruct (nonempty (res ≫= p_id)); [|apply keeps_throw].
    apply keeps_bind; [apply keeps_calls_only, calls_only_attachMedia|]. intros _.
    apply keeps_bind; [apply keeps_db_updateOne | intros; apply keeps_ret].
  - apply keeps_bind; [apply keeps_db_updateOne | intros; apply keeps_ret].
Qed.

Lemma keeps_syncCatch (sv : services) (p : product) (gid : option string)
    (e : exn) :
  keeps_outside (eq (pid p)) (syncCatch sv p gid e).
Proof.
  unfold syncCatch.
  apply keeps_bind; [apply keeps_db_updateOne | intros; apply keeps_ret].
Qed.

Lemma keeps_syncAfterAttempt (en : engine) (cfg : config) (sv : services)
    (p : product) (now : Z) (found : option SyncedDoc) :
  keeps_outside (eq (pid p)) (syncAfterAttempt en cfg sv p now found).
Proof.
  unfold syncAfterAttempt. destruct found as [d|]; [|apply keeps_throw].
  destruct (syncedAndNotNewer cfg p d); [apply keeps_ret|].
  apply keeps_bind.
  - apply keeps_calls_only.
    destruct (nonempty (d_shopifyGid d)); [apply calls_only_ret|].
    destruct (truthy (pid p)); [|apply calls_only_ret].
    apply calls_only_try_catch; [|intros; apply calls_only_ret].
    apply calls_only_bind; [apply calls_only_remote | intros; apply calls_only_ret].
  - intros gid.
    apply keeps_try_catch; [apply keeps_syncBody | intros; apply keeps_syncCatch].
Qed.

Lemma keeps_sync (en : engine) (cfg : config) (sv : services) (p : product) :
  keeps_outside (eq (pid p)) (syncBunjangProductToShopify en cfg sv p).
Proof.
  unfold syncBunjangProductToShopify.
  apply keeps_bind; [apply keeps_db_findOne|]. intros _.
  apply keeps_bind; [intros w q _; reflexivity|]. intros now.
  apply keeps_bind; [apply keeps_db_updateOne|]. intros _.
  apply keeps_bind; [apply keeps_db_findOne|]. intros found.
  apply keeps_syncAfterAttempt.
Qed.

Lemma keeps_allSettled {A} (P : string -> Prop) (ms : list (M A)) :
  Forall (keeps_outside P) ms -> keeps_outside P (allSettled ms).
Proof.
  induction 1 as [|m ms Hm _ IH]; [apply keeps_ret|].
  cbn [allSettled].
  apply keeps_bind; [now apply keeps_settle|]. intros r.
  apply keeps_bind; [exact IH | intros; apply keeps_ret].
Qed.

Lemma keeps_processChunks (en : engine) (cfg : config) (sv : services)
    (P : string -> Prop) (productChunks : list (list product)) (c : counters) :
  Forall (Forall (fun p => P (pid p))) productChunks ->
  keeps_outside P (processChunks en cfg sv productChunks c).
Proof.
  intros H. revert c. induction H as [|chunk rest Hc _ IH]; intros c.
  - apply keeps_ret.
  - cbn [processChunks]. apply keeps_bind; [|intros rs; apply IH].
    apply keeps_allSettled. apply Forall_map.
    eapply Forall_impl; [exact Hc|]. intros p Hp. cbn beta.
    apply (keeps_weaken (eq (pid p))); [apply keeps_sync|].
    now intros q <-.
Qed.

Lemma Forall_concat_chunks {A} (P : A -> Prop) (ls : list (list A)) :
  Forall P (concat ls) -> Forall (Forall P) ls.
Proof.
  induction ls as [|l ls IH]; cbn [concat]; [constructor|].
  intros H. apply Forall_app in H as [H1 H2]. constructor; auto.
Qed.

End FrameFacts.

(** X15.  A sync writes to the sync state store only under the id of its
    own product: the document of every other product is after the sync
    what it was before, whatever the store and the collaborators do.
    So a batch leaves alone every document whose product is not among
    its valid rows. *)
Theorem sync_touches_only_its_own_document :
  forall (en : JS.engine) (cfg : Catalog.config) (sv : Sync.services),
    (forall (p : Catalog.product) (w : Sync.world) (q : string),
        q <> Catalog.pid p ->
        Sync.store (snd (Sync.syncBunjangProductToShopify en cfg sv p w)) !! q
        = Sync.store w !! q)
    /\ (forall (catalogFileNameGz : string) (rows : list Catalog.row)
               (w : Sync.world) (q : string),
          (forall p, In p (omap (Catalog.processCatalogRow en cfg) rows) ->
                     Catalog.pid p <> q) ->
          Sync.store
            (snd (Sync.fetchAndProcessBunjangCatalog en cfg sv catalogFileNameGz
                    rows w)) !! q
          = Sync.store w !! q).
Proof.
  intros en cfg sv. split.
  - intros p w q Hq. apply (keeps_sync en cfg sv p w q). congruence.
  - intros file rows w q Hq.
    unfold Sync.fetchAndProcessBunjangCatalog.
    set (valid := omap (Catalog.processCatalogRow en cfg) rows) in *.
    destruct valid as [|p0 ps] eqn:Ev; [reflexivity|]. rewrite <- Ev in *.
    set (concurrency := match Catalog.syncConcurrency cfg with
                        | O => 1%nat | S n => S n end).
    apply (keeps_bind (fun x => x <> q)); [| intros; apply keeps_ret | tauto].
    apply keeps_processChunks, Forall_concat_chunks.
    rewrite chunks_concat
      by (subst concurrency; destruct (Catalog.syncConcurrency cfg); lia).
    apply List.Forall_forall. exact Hq.
Qed.

(** The theorem at the batch of two rows with a destination that refuses
    the first creation: a document of a third product is left as it
    was. *)
Lemma sync_touches_only_its_own_document_witness :
  Sync.store
    (snd (Sync.syncBunjangProductToShopify Scenario.iso_engine Scenario.cfg
            Scenario.healthy (Scenario.feed_product 1706745600000)
            Scenario.world_synced_on_jan_1)) !! "999"
  = Sync.store Scenario.world_synced_on_jan_1 !! "999"
  /\ Sync.store
       (snd (Sync.fetchAndProcessBunjangCatalog Scenario.iso_engine Scenario.cfg
               Scenario.first_create_fails "catalog.csv.gz"
               [Scenario.second_row]
               Scenario.world_synced_on_jan_1)) !! "123"
     = Sync.store Scenario.world_synced_on_jan_1 !! "123".
Proof.
  destruct (sync_touches_only_its_own_document Scenario.iso_engine Scenario.cfg
              Scenario.healthy) as [H1 _].
  destruct (sync_touches_only_its_own_document Scenario.iso_engine Scenario.cfg
              Scenario.first_create_fails) as [_ H2].
  split.
  - apply H1. discriminate.
  - apply H2. intros p [<-|[]]. discriminate.
Defined.

(** ** Product sync: what a success leaves in the store *)

Section SuccessFacts.
Import JS Catalog Sync Spec Notions.

Lemma nonempty_Some (o : option string) (s : string) :
  nonempty o = Some s -> s <> "".
Proof.
  unfold nonempty, nonempty_opt. destruct o as [t|]; [|discriminate].
  destruct (truthy t) eqn:E; [|discriminate].
  intros [= <-]. now apply truthy_true.
Qed.

Lemma bind_calls_then {A B} (m : M A) (k : A -> M B) (w : world)
    (Q : outcome B * world -> Prop) :
  calls_only m ->
  (forall a evs, Forall is_remote evs -> Q (k a (after_calls w evs))) ->
  (forall e evs, Forall is_remote evs -> Q (Throw e, after_calls w evs)) ->
  Q (Eff.bind m k w).
Proof.
  intros Hm Hr Ht. unfold Eff.bind. destruct (Hm w) as (e1 & W1 & F1).
  destruct (m w) as [[a|e] w1]; cbn [snd] in W1; subst w1.
  - now apply Hr.
  - now apply Ht.
Qed.

Lemma syncBody_success (en : engine) (cfg : config) (sv : services) (p : product)
    (now : Z) (gid : option string) (w : world) (d : SyncedDoc) :
  no_db_fault sv ->
  store w !! pid p = Some d ->
  success_recorded p now d (syncBody en cfg sv p now gid w).
Proof.
  intros Hf Hd. unfold syncBody.
  apply bind_calls_then; [apply calls_only_price| |intros e e1 F1 r H; discriminate].
  intros priceString e1 F1.
  apply bind_calls_then; [apply calls_only_nowIso| |intros e e2 F2 r H; discriminate].
  intros iso e2 F2. rewrite after_calls_app.
  generalize (e1 ++ e2)%list. clear e1 e2 F1 F2. intros e1.
  destruct (transformBunjangRowToShopifyInput cfg iso p priceString) as [tr|].
  - apply bind_calls_then;
      [destruct gid; [apply calls_only_updateExisting | apply calls_only_createNew]
      | | intros e e2 F2 r H; discriminate].
    intros res e2 F2. rewrite after_calls_app.
    generalize (e1 ++ e2)%list. clear e1 e2 F2. intros e1.
    destruct (nonempty (res ≫= p_id)) as [id|] eqn:Eid;
      [|intros r H; discriminate].
    apply bind_calls_then;
      [apply calls_only_attachMedia | | intros e e2 F2 r H; discriminate].
    intros [] e2 F2. rewrite after_calls_app.
    generalize (e1 ++ e2)%list. clear e1 e2 F2. intros e1.
    unfold Eff.bind.
    rewrite (db_updateOne_ok sv (pid p) _ _ _ (after_calls w e1) d (Hf _) Hd).
    cbn [Eff.ret]. intros r [= <-] _.
    exists id, (res ≫= p_handle), priceString.
    cbn [r_shopifyGid store snd].
    split; [reflexivity|]. split; [now apply (nonempty_Some _ _ Eid)|].
    apply lookup_insert_eq.
  - unfold Eff.bind.
    rewrite (db_updateOne_ok sv (pid p) _ _ _ (after_calls w e1) d (Hf _) Hd).
    cbn [Eff.ret]. intros r [= <-] H. discriminate.
Qed.

Lemma syncAfterAttempt_success (en : engine) (cfg : config) (sv : services)
    (p : product) (now : Z) (w : world) (d : SyncedDoc) :
  no_db_fault sv ->
  store w !! pid p = Some d ->
  success_recorded p now d (syncAfterAttempt en cfg sv p now (Some d) w).
Proof.
  intros Hf Hd. unfold syncAfterAttempt.
  destruct (syncedAndNotNewer cfg p d);
    [intros r [= <-] H; discriminate|].
  assert (tail : forall gid e1,
            success_recorded p now d
              (Eff.try_catch (syncBody en cfg sv p now gid)
                 (syncCatch sv p gid) (after_calls w e1))).
  { intros gid e1. unfold Eff.try_catch.
    pose proof (syncBody_success en cfg sv p now gid (after_calls w e1) d Hf Hd)
      as Hb.
    pose proof (syncBody_run en cfg sv p now gid (after_calls w e1) d Hf Hd)
      as (rs & _ & Hr).
    destruct (syncBody en cfg sv p now gid (after_calls w e1)) as [[r|e] w2];
      cbn [fst snd] in *; [exact Hb|].
    subst w2. unfold syncCatch, Eff.bind.
    rewrite (db_updateOne_ok sv (pid p) _ _ _
               (after_calls (after_calls w e1) rs) d (Hf _) Hd).
    cbn [Eff.ret]. intros r [= <-] H. discriminate. }
  unfold Eff.bind.
  destruct (nonempty (d_shopifyGid d)) as [g|].
  - cbn [Eff.ret]. specialize (tail (Some g) []).
    rewrite after_calls_nil in tail. exact tail.
  - destruct (truthy (pid p)).
    + unfold Eff.try_catch at 1, remote.
      destruct (findProductByBunjangPidTag sv (log w) (pid p)) as [ex|e];
        cbn [Eff.ret];
        apply (tail _ [Remote (FindProductByBunjangPidTag (pid p))]).
    + cbn [Eff.ret]. specialize (tail None []).
      rewrite after_calls_nil in tail. exact tail.
Qed.


End SuccessFacts.

(** X16.  With a store that works, a sync that reports success has left
    the document of its product as SYNCED, linked to the Shopify product
    whose id the result carries, with the timestamp of the feed record,
    a listed price, no error message, the attempt counter back at zero
    and the success counter one above what it was (one for a product
    synced for the first time). *)
Theorem successful_sync_leaves_a_synced_document :
  forall (en : JS.engine) (cfg : Catalog.config) (sv : Sync.services)
         (p : Catalog.product) (w : Sync.world) (r : Sync.syncResult),
    Spec.no_db_fault sv ->
    fst (Sync.syncBunjangProductToShopify en cfg sv p w) = Return r ->
    Sync.r_status r = Sync.success ->
    exists d',
      Sync.store (snd (Sync.syncBunjangProductToShopify en cfg sv p w))
        !! Catalog.pid p = Some d'
      /\ Sync.d_syncStatus d' = Sync.SYNCED
      /\ Sync.d_shopifyGid d' = Sync.r_shopifyGid r
      /\ Sync.d_shopifyGid d' <> None
      /\ Sync.d_bunjangUpdatedAt d' = Catalog.updatedAt p
      /\ Sync.d_shopifyListedPriceUsd d' <> None
      /\ Sync.d_syncErrorMessage d' = None
      /\ Sync.d_syncAttemptCount d' = 0
      /\ Sync.d_syncSuccessCount d'
         = from_option Sync.d_syncSuccessCount 0
             (Sync.store w !! Catalog.pid p) + 1.
Proof.
  intros en cfg sv p w r Hf. rewrite (sync_prologue en cfg sv p w Hf).
  intros Hr Hs.
  destruct (syncAfterAttempt_success en cfg sv p
              (Sync.clock sv (Sync.log w ++ [Sync.DbFindOne (Catalog.pid p)])%list)
              (Spec.after_attempt sv p w) (Spec.attempted sv p w) Hf
              (lookup_insert_eq _ _ _) r Hr Hs)
    as (id & handle & priceString & Hg & Hid & Hst).
  eexists. split; [exact Hst|].
  cbn [Sync.set_synced Sync.d_syncStatus Sync.d_shopifyGid
       Sync.d_bunjangUpdatedAt Sync.d_shopifyListedPriceUsd
       Sync.d_syncErrorMessage Sync.d_syncAttemptCount Sync.d_syncSuccessCount].
  repeat split; try congruence.
  unfold Spec.attempted.
  destruct (Sync.store w !! Catalog.pid p); reflexivity.
Qed.

(** The theorem at the first sync of the feed record of the
    specification. *)
Lemma successful_sync_leaves_a_synced_document_witness :
  exists d',
    Sync.store
      (snd (Sync.syncBunjangProductToShopify Scenario.iso_engine Scenario.cfg
              Scenario.healthy (Scenario.feed_product 1704067200000)
              Scenario.empty_world)) !! "123" = Some d'
    /\ Sync.d_syncStatus d' = Sync.SYNCED
    /\ Sync.d_shopifyGid d' = Some "gid://shopify/Product/1"
    /\ Sync.d_shopifyGid d' <> None
    /\ Sync.d_bunjangUpdatedAt d' = Some 1704067200000
    /\ Sync.d_shopifyListedPriceUsd d' <> None
    /\ Sync.d_syncErrorMessage d' = None
    /\ Sync.d_syncAttemptCount d' = 0
    /\ Sync.d_syncSuccessCount d' = 0 + 1.
Proof.
  apply (successful_sync_leaves_a_synced_document Scenario.iso_engine
           Scenario.cfg Scenario.healthy (Scenario.feed_product 1704067200000)
           Scenario.empty_world
           {| Sync.r_status := Sync.success;
              Sync.r_operation := Some Sync.create;
              Sync.r_message := None;
              Sync.r_shopifyGid := Some "gid://shopify/Product/1" |}).
  - intros l. reflexivity.
  - vm_compute. reflexivity.
  - reflexivity.
Defined.

(** ** The batch as a sequence of syncs, and a second pass *)

Section BatchRuns.
Import JS Catalog Sync Spec Notions.





End BatchRuns.

Section Passes.
Import JS Catalog Sync Spec Notions.









End Passes.

Section Counting.
Import JS Catalog Sync Spec Notions.





End Counting.



(** ** The webhook signature *)

Section BufferFacts.
Import Webhook.

Lemma timingSafeEqual_eq (a b : list nat) :
  length a = length b -> timingSafeEqual a b = true -> a = b.
Proof.
  revert b. induction a as [|x a IH]; intros [|y b]; cbn; try discriminate.
  - reflexivity.
  - intros [= Hl] H. apply andb_true_iff in H as [Hx Hr].
    apply Nat.eqb_eq in Hx. subst y. f_equal. now apply IH.
Qed.

Lemma timingSafeEqual_refl (a : list nat) : timingSafeEqual a a = true.
Proof.
  induction a as [|x a IH]; [reflexivity|]. cbn.
  now rewrite Nat.eqb_refl.
Qed.

Lemma utf8_char_inj (c d : ascii) (r r' : list nat) :
  (utf8_char c ++ r)%list = (utf8_char d ++ r')%list -> c = d /\ r = r'.
Proof.
  unfold utf8_char.
  pose proof (Nat.div_mod_eq (nat_of_ascii c) 64) as Dc.
  pose proof (Nat.div_mod_eq (nat_of_ascii d) 64) as Dd.
  remember (nat_of_ascii c / 64)%nat as qc eqn:Eqc.
  remember (nat_of_ascii c mod 64)%nat as rc eqn:Erc.
  remember (nat_of_ascii d / 64)%nat as qd eqn:Eqd.
  remember (nat_of_ascii d mod 64)%nat as rd eqn:Erd.
  assert (Hcd : nat_of_ascii c = nat_of_ascii d -> c = d).
  { intros H. rewrite <- (ascii_nat_embedding c), <- (ascii_nat_embedding d).
    now f_equal. }
  destruct (Nat.ltb_spec (nat_of_ascii c) 128),
    (Nat.ltb_spec (nat_of_ascii d) 128); cbn [app]; intros E.
  - injection E as Hn Hr. split; [now apply Hcd | exact Hr].
  - injection E as Hn _. exfalso. lia.
  - injection E as Hn _. exfalso. lia.
  - injection E as H1 H2 Hr. split; [|exact Hr]. apply Hcd. lia.
Qed.

Lemma Buffer_from_inj (s t : string) : Buffer_from s = Buffer_from t -> s = t.
Proof.
  revert t. induction s as [|c s IH]; intros [|d t]; cbn [Buffer_from].
  - reflexivity.
  - unfold utf8_char. destruct (nat_of_ascii d <? 128)%nat; discriminate.
  - unfold utf8_char. destruct (nat_of_ascii c <? 128)%nat; discriminate.
  - intros E. apply utf8_char_inj in E as [-> E]. f_equal. now apply IH.
Qed.

End BufferFacts.

(** X18.  The webhook middleware lets a request through exactly when it
    carries a signature header and a body that are not empty and the
    header is the keyed digest of the body.  A request without the
    header is refused with the UnauthorizedError HMAC_MISSING and one
    without a body with the ApiError RAW_BODY_MISSING; a signature that
    does not match, or a digest that cannot be computed, ends in the
    ReferenceError of the catch block, never in next(). *)
Theorem webhook_passes_only_with_a_matching_signature :
  forall (digest : string -> outcome string) (req : Webhook.request),
    (Webhook.verifyShopifyWebhook digest req = Webhook.Next
     <-> exists h body,
           Webhook.hmacHeader req = Some h /\ h <> ""
           /\ Webhook.rawBody req = Some body /\ body <> ""
           /\ digest body = Return h)
    /\ (JS.nonempty_opt (Webhook.hmacHeader req) = None ->
        exists m,
          Webhook.verifyShopifyWebhook digest req
          = Webhook.Thrown (Webhook.UnauthorizedError m "HMAC_MISSING"))
    /\ (JS.nonempty_opt (Webhook.hmacHeader req) <> None ->
        JS.nonempty_opt (Webhook.rawBody req) = None ->
        exists m,
          Webhook.verifyShopifyWebhook digest req
          = Webhook.Thrown (Webhook.ApiError m 400 "RAW_BODY_MISSING"))
    /\ (forall h body,
          JS.nonempty_opt (Webhook.hmacHeader req) = Some h ->
          JS.nonempty_opt (Webhook.rawBody req) = Some body ->
          digest body <> Return h ->
          Webhook.verifyShopifyWebhook digest req
          = Webhook.Thrown (Webhook.ReferenceError "AppError is not defined")).
Proof.
  intros digest req. unfold Webhook.verifyShopifyWebhook.
  destruct (Webhook.hmacHeader req) as [h|] eqn:Eh; cbn [JS.nonempty_opt].
  2:{ split; [|split; [|split]].
      - split; [discriminate | intros (h & b & H & _); discriminate].
      - intros _. now eexists.
      - intros H. contradiction.
      - intros h b H. discriminate. }
  destruct (JS.truthy h) eqn:Th.
  2:{ apply truthy_false in Th. subst h. split; [|split; [|split]].
      - split; [discriminate|]. intros (h & b & [= <-] & H & _). contradiction.
      - intros _. now eexists.
      - intros H. contradiction.
      - intros h b H. discriminate. }
  apply truthy_true in Th.
  destruct (Webhook.rawBody req) as [body|] eqn:Eb; cbn [JS.nonempty_opt].
  2:{ split; [|split; [|split]].
      - split; [discriminate | intros (h' & b & _ & _ & H & _); discriminate].
      - discriminate.
      - intros _ _. now eexists.
      - intros h' b _ H. discriminate. }
  destruct (JS.truthy body) eqn:Tb.
  2:{ apply truthy_false in Tb. subst body. split; [|split; [|split]].
      - split; [discriminate|].
        intros (h' & b & _ & _ & [= <-] & H & _). contradiction.
      - discriminate.
      - intros _ _. now eexists.
      - intros h' b _ H. discriminate. }
  apply truthy_true in Tb.
  split; [|split; [|split]]; try discriminate.
  - destruct (digest body) as [g|e] eqn:Ed.
    + destruct ((length (Webhook.Buffer_from h) =? length (Webhook.Buffer_from g))%nat
                && Webhook.timingSafeEqual (Webhook.Buffer_from h)
                     (Webhook.Buffer_from g)) eqn:Ec.
      * split; [|reflexivity]. intros _.
        apply andb_true_iff in Ec as [El Et]. apply Nat.eqb_eq in El.
        apply (timingSafeEqual_eq _ _ El), Buffer_from_inj in Et. subst g.
        now exists h, body.
      * split; [discriminate|].
        intros (h' & b & [= <-] & _ & [= <-] & _ & Hd).
        rewrite Ed in Hd. injection Hd as ->.
        rewrite Nat.eqb_refl, timingSafeEqual_refl in Ec. discriminate.
    + split; [discriminate|].
      intros (h' & b & _ & _ & [= <-] & _ & Hd). rewrite Ed in Hd. discriminate.
  - intros h' b [= <-] [= <-] Hd.
    destruct (digest body) as [g|e]; [|reflexivity].
    destruct ((length (Webhook.Buffer_from h) =? length (Webhook.Buffer_from g))%nat
              && Webhook.timingSafeEqual (Webhook.Buffer_from h)
                   (Webhook.Buffer_from g)) eqn:Ec; [|reflexivity].
    exfalso. apply Hd.
    apply andb_true_iff in Ec as [El Et]. apply Nat.eqb_eq in El.
    apply (timingSafeEqual_eq _ _ El), Buffer_from_inj in Et. now subst g.
Qed.

(** The theorem at a request signed with the digest, at one without a
    signature, at one without a body and at one with another signature,
    for a digest that is "c2lnbmF0dXJl" for every body. *)
Lemma webhook_passes_only_with_a_matching_signature_witness :
  Webhook.verifyShopifyWebhook (fun _ => Return "c2lnbmF0dXJl")
    {| Webhook.hmacHeader := Some "c2lnbmF0dXJl"; Webhook.rawBody := Some "{}" |}
  = Webhook.Next
  /\ (exists m,
        Webhook.verifyShopifyWebhook (fun _ => Return "c2lnbmF0dXJl")
          {| Webhook.hmacHeader := None; Webhook.rawBody := Some "{}" |}
        = Webhook.Thrown (Webhook.UnauthorizedError m "HMAC_MISSING"))
  /\ (exists m,
        Webhook.verifyShopifyWebhook (fun _ => Return "c2lnbmF0dXJl")
          {| Webhook.hmacHeader := Some "c2lnbmF0dXJl"; Webhook.rawBody := Some "" |}
        = Webhook.Thrown (Webhook.ApiError m 400 "RAW_BODY_MISSING"))
  /\ Webhook.verifyShopifyWebhook (fun _ => Return "c2lnbmF0dXJl")
       {| Webhook.hmacHeader := Some "Zm9yZ2VkIQ=="; Webhook.rawBody := Some "{}" |}
     = Webhook.Thrown (Webhook.ReferenceError "AppError is not defined").
Proof.
  split; [|split; [|split]].
  - apply (proj1 (webhook_passes_only_with_a_matching_signature
                    (fun _ => Return "c2lnbmF0dXJl")
                    {| Webhook.hmacHeader := Some "c2lnbmF0dXJl";
                       Webhook.rawBody := Some "{}" |})).
    exists "c2lnbmF0dXJl", "{}".
    repeat split; try reflexivity; discriminate.
  - apply (proj1 (proj2 (webhook_passes_only_with_a_matching_signature
                    (fun _ => Return "c2lnbmF0dXJl")
                    {| Webhook.hmacHeader := None; Webhook.rawBody := Some "{}" |}))).
    reflexivity.
  - apply (proj1 (proj2 (proj2 (webhook_passes_only_with_a_matching_signature
                    (fun _ => Return "c2lnbmF0dXJl")
                    {| Webhook.hmacHeader := Some "c2lnbmF0dXJl";
                       Webhook.rawBody := Some "" |})))).
    + discriminate.
    + reflexivity.
  - apply (proj2 (proj2 (proj2 (webhook_passes_only_with_a_matching_signature
                    (fun _ => Return "c2lnbmF0dXJl")
                    {| Webhook.hmacHeader := Some "Zm9yZ2VkIQ==";
                       Webhook.rawBody := Some "{}" |})))
             "Zm9yZ2VkIQ==" "{}").
    + reflexivity.
    + reflexivity.
    + discriminate.
Defined.

(** ** The product operations of shopifyService *)

Section RequestCounting.
Import JS Catalog Shopify Notions.
Local Open Scope eff_scope.

Lemma follow_ups_nil (n : nat) : follow_ups n [].
Proof. split; [cbn; lia | reflexivity]. Qed.

Lemma follow_ups_app (n k : nat) (a b : list operation) :
  follow_ups n a -> follow_ups k b -> follow_ups (n + k) (a ++ b).
Proof.
  intros [La Fa] [Lb Fb]. split.
  - rewrite length_app. lia.
  - rewrite forallb_app, Fa, Fb. reflexivity.
Qed.

Lemma follow_ups_weaken (n k : nat) (ops : list operation) :
  (n <= k)%nat -> follow_ups n ops -> follow_ups k ops.
Proof. intros Hle [L F]. split; [lia | exact F]. Qed.

Lemma within_weaken {A} (n k : nat) (m : M A) :
  (n <= k)%nat -> within n m -> within k m.
Proof.
  intros Hle H l. destruct (H l) as (ops & E & F).
  exists ops. split; [exact E | exact (follow_ups_weaken n k ops Hle F)].
Qed.

Lemma within_ret {A} (a : A) : within 0 (Eff.ret a : M A).
Proof. intros l. exists []. rewrite app_nil_r. split; [reflexivity | apply follow_ups_nil]. Qed.

Lemma within_throw {A} (e : exn) : within 0 (Eff.throw e : M A).
Proof. intros l. exists []. rewrite app_nil_r. split; [reflexivity | apply follow_ups_nil]. Qed.

Lemma within_toISOString (sv : services) : within 0 (toISOString sv).
Proof. intros l. exists []. rewrite app_nil_r. split; [reflexivity | apply follow_ups_nil]. Qed.

Lemma within_request (sv : services) (op : operation) :
  writes_product op = false -> within 1 (request sv op).
Proof.
  intros Hop l. exists [op]. split; [reflexivity|].
  split; [cbn; lia | cbn; now rewrite Hop].
Qed.

Lemma within_bind {A B} (n k : nat) (m : M A) (f : A -> M B) :
  within n m -> (forall a, within k (f a)) -> within (n + k) (Eff.bind m f).
Proof.
  intros Hm Hf l. unfold Eff.bind.
  destruct (Hm l) as (ops & E & F).
  destruct (m l) as [[a|e] l1]; cbn [snd] in E; subst l1.
  - destruct (Hf a (l ++ ops)%list) as (ops' & E' & F').
    exists (ops ++ ops')%list. rewrite E', app_assoc.
    split; [reflexivity | now apply follow_ups_app].
  - exists ops. split; [reflexivity|].
    apply (follow_ups_weaken n); [lia | exact F].
Qed.

Lemma within_try_catch {A} (n k : nat) (m : M A) (h : exn -> M A) :
  within n m -> (forall e, within k (h e)) -> within (n + k) (Eff.try_catch m h).
Proof.
  intros Hm Hh l. unfold Eff.try_catch.
  destruct (Hm l) as (ops & E & F).
  destruct (m l) as [[a|e] l1]; cbn [snd] in E; subst l1.
  - exists ops. split; [reflexivity|].
    apply (follow_ups_weaken n); [lia | exact F].
  - destruct (Hh e (l ++ ops)%list) as (ops' & E' & F').
    exists (ops ++ ops')%list. rewrite E', app_assoc.
    split; [reflexivity | now apply follow_ups_app].
Qed.

(* try { m } catch { } *)
Lemma settles_swallow (n : nat) (m : M unit) :
  within n m -> settles n (Eff.try_catch m (fun _ => Eff.ret tt)).
Proof.
  intros Hm l. unfold Eff.try_catch, Eff.ret.
  destruct (Hm l) as (ops & E & F).
  destruct (m l) as [[[]|e] l1]; cbn [snd] in E; subst l1;
    exists tt, ops; split; (reflexivity || exact F).
Qed.

Lemma settles_ret {A} (a : A) : settles 0 (Eff.ret a : M A).
Proof.
  intros l. exists a, []. rewrite app_nil_r.
  split; [reflexivity | apply follow_ups_nil].
Qed.

Lemma settles_weaken {A} (n k : nat) (m : M A) :
  (n <= k)%nat -> settles n m -> settles k m.
Proof.
  intros Hle H l. destruct (H l) as (a & ops & E & F).
  exists a, ops. split; [exact E | exact (follow_ups_weaken n k ops Hle F)].
Qed.

Lemma settles_bind {A B} (n k : nat) (m : M A) (f : A -> M B) :
  settles n m -> (forall a, settles k (f a)) -> settles (n + k) (Eff.bind m f).
Proof.
  intros Hm Hf l. unfold Eff.bind.
  destruct (Hm l) as (a & ops & E & F). rewrite E.
  destruct (Hf a (l ++ ops)%list) as (b & ops' & E' & F').
  exists b, (ops ++ ops')%list. rewrite E', app_assoc.
  split; [reflexivity | now apply follow_ups_app].
Qed.

Lemma within_updateVariantSku (sv : services) (variantId sku : string) :
  within 1 (updateVariantSku sv variantId sku).
Proof.
  unfold updateVariantSku.
  apply (within_bind 1 0); [now apply within_request|].
  intros response.
  destruct (response ≫= productVariantUpdate) as [payload|];
    [destruct (sp_userErrors payload)|];
    (apply within_ret || apply within_throw).
Qed.

Lemma within_updateProductVariant (sv : services) (variantId price : string)
    (policy : inventoryPolicy) :
  within 2 (updateProductVariant sv variantId price policy).
Proof.
  unfold updateProductVariant.
  apply (within_bind 1 1); [now apply within_request|].
  intros productResponse.
  destruct (nonempty_opt (productResponse ≫= productVariant_product_id))
    as [productId|].
  - apply (within_bind 1 0); [now apply within_request|].
    intros response.
    destruct (response ≫= productVariantsBulkUpdate) as [payload|];
      [destruct (bp_userErrors payload)|];
      (apply within_ret || apply within_throw).
  - apply (within_weaken 0); [lia | apply within_throw].
Qed.

Lemma within_updateInventoryLevel (sv : services)
    (inventoryItemId locationId : option string) (q : JS.number) :
  within 1 (updateInventoryLevel sv inventoryItemId locationId q).
Proof.
  unfold updateInventoryLevel.
  destruct (nonempty_opt inventoryItemId) as [item|];
    [destruct (nonempty_opt locationId) as [location|]|];
    try (apply (within_weaken 0); [lia | apply within_ret]).
  apply (within_bind 1 0); [now apply within_request|].
  intros response.
  destruct (response ≫= inventorySetOnHandQuantities) as [payload|];
    [destruct (ip_userErrors payload)|];
    (apply within_ret || apply within_throw).
Qed.

Lemma settles_updateDefaultVariant (sv : services) (vi : Sync.variantInfo)
    (v : variantNode) :
  settles 4 (updateDefaultVariant sv vi v).
Proof.
  unfold updateDefaultVariant.
  apply settles_swallow.
  apply (within_bind 2 2); [apply within_updateProductVariant|].
  intros _.
  apply (within_bind 1 1).
  - match goal with
    | |- within _ (if ?c then _ else _) => destruct c
    end.
    + apply (within_bind 1 0); [apply within_updateVariantSku|].
      intros _. apply within_ret.
    + apply (within_weaken 0); [lia | apply within_ret].
  - intros _.
    destruct (nonempty_opt (n_inventoryItemId v));
      [destruct (nonempty_opt (Sync.vi_locationId vi))|];
      try (apply (within_weaken 0); [lia | apply within_ret]).
    apply (within_bind 1 0); [apply within_updateInventoryLevel|].
    intros _. apply within_ret.
Qed.

Lemma settles_publishToSalesChannels (sv : services) (p : productNode) :
  settles 2 (publishToSalesChannels sv p).
Proof.
  unfold publishToSalesChannels.
  apply settles_swallow.
  apply (within_bind 1 1); [now apply within_request|].
  intros pubResponse. cbv zeta.
  match goal with
  | |- within _ (if ?c then _ else _) => destruct c
  end.
  - apply (within_bind 1 0); [now apply within_request|].
    intros _. apply within_ret.
  - apply (within_weaken 0); [lia | apply within_ret].
Qed.

Lemma settles_republish (sv : services) (p : productNode) :
  settles 2 (republish sv p).
Proof.
  unfold republish.
  apply settles_swallow.
  apply (within_bind 1 1); [now apply within_request|].
  intros pubResponse. cbv zeta.
  destruct (find isOnlineStore _) as [onlineStore|];
    [destruct (rp_isPublished onlineStore); cbn [negb]|];
    try (apply (within_weaken 0); [lia | apply within_ret]).
  apply (within_bind 0 1); [apply within_toISOString|].
  intros publishDate.
  apply (within_bind 1 0); [now apply within_request|].
  intros _. apply within_ret.
Qed.

End RequestCounting.

Section ProductWrites.
Import JS Catalog Shopify Notions.
Local Open Scope eff_scope.

(* a step that settles, followed by a computation that returns [b] *)
Lemma settles_then {A B} (n k : nat) (m : M A) (m' : M B) (b : B) :
  settles n m ->
  (forall l, exists ops, m' l = (Return b, (l ++ ops)%list) /\ follow_ups k ops) ->
  forall l, exists ops,
    (m ;;; m') l = (Return b, (l ++ ops)%list) /\ follow_ups (n + k) ops.
Proof.
  intros Hm Hm' l. unfold Eff.bind.
  destruct (Hm l) as (a & ops & E & F). rewrite E.
  destruct (Hm' (l ++ ops)%list) as (ops' & E' & F').
  exists (ops ++ ops')%list. rewrite E', app_assoc.
  split; [reflexivity | now apply follow_ups_app].
Qed.

Lemma returns_ret {B} (b : B) :
  forall l : list operation,
  exists ops, (Eff.ret b : M B) l = (Return b, (l ++ ops)%list) /\ follow_ups 0 ops.
Proof.
  intros l. exists []. rewrite app_nil_r.
  split; [reflexivity | apply follow_ups_nil].
Qed.

(* lines 536-644: what follows a successful productCreate *)
Lemma after_productCreate (sv : services) (variantInfo : option Sync.variantInfo)
    (createdProduct : productNode) (l : list operation) :
  exists ops,
    (match variantInfo, variants createdProduct with
     | Some variantInfo, Some (defaultVariant :: _) =>
         updateDefaultVariant sv variantInfo defaultVariant
     | _, _ => Eff.ret tt
     end ;;;
     publishToSalesChannels sv createdProduct ;;;
     Eff.ret createdProduct) l
    = (Return createdProduct, (l ++ ops)%list)
    /\ follow_ups 6 ops.
Proof.
  apply (settles_then 4 2).
  - destruct variantInfo as [vi|];
      [destruct (variants createdProduct) as [[|v vs]|]|];
      try (apply (settles_weaken 0); [lia | apply settles_ret]).
    apply settles_updateDefaultVariant.
  - apply (settles_then 2 0); [apply settles_publishToSalesChannels|].
    apply returns_ret.
Qed.

(* lines 911-971: what follows a successful productUpdate *)
Lemma after_productUpdate (sv : services) (updatedProduct : productNode)
    (l : list operation) :
  exists ops,
    (republish sv updatedProduct ;;; Eff.ret updatedProduct) l
    = (Return updatedProduct, (l ++ ops)%list)
    /\ follow_ups 2 ops.
Proof.
  apply (settles_then 2 0); [apply settles_republish | apply returns_ret].
Qed.

End ProductWrites.

(** X19.  The first request of createProduct is the
    productCreate mutation, sent with the status ACTIVE; at most six
    requests follow it and none of them is a productCreate or a
    productUpdate mutation.
    The call returns a product exactly when the answer to that first
    request carries this product and no user error, whatever the later
    requests for the variant, the stock and the sales channels answer;
    when the call throws, the productCreate mutation was its only
    request. *)
Theorem created_product_is_returned_whatever_follows :
  forall (sv : Shopify.services) (productInput : Catalog.productInput)
         (collectionGID : option string)
         (variantInfo : option Sync.variantInfo)
         (l : list Shopify.operation),
    let first :=
      Shopify.ProductCreate
        (Shopify.baseProductInput productInput (Shopify.nowIso sv l))
        (Shopify.collectionList collectionGID) in
    let run := Shopify.createProduct sv productInput collectionGID variantInfo l in
    Catalog.status (Shopify.baseProductInput productInput (Shopify.nowIso sv l))
    = "ACTIVE"
    /\ exists rest,
         snd run = (l ++ first :: rest)%list
         /\ Notions.follow_ups 6 rest
         /\ (forall p,
               fst run = Return p
               <-> exists d,
                     Shopify.shopifyGraphqlRequest sv l first = Return (Some d)
                     /\ Shopify.productCreate d
                        = Some {| Shopify.pp_product := Some p;
                                  Shopify.pp_userErrors := [] |})
         /\ (forall e, fst run = Throw e -> rest = []).
Proof.
  intros sv productInput collectionGID variantInfo l first run.
  split; [reflexivity|].
  assert (R : run
              = Shopify.createProduct sv productInput collectionGID variantInfo l)
    by reflexivity.
  clearbody run.
  unfold Shopify.createProduct in R.
  unfold Eff.bind at 1 in R. unfold Shopify.toISOString in R.
  unfold Eff.bind at 1 in R. unfold Shopify.request at 1 in R. fold first in R.
  destruct (Shopify.shopifyGraphqlRequest sv l first) as [[d|]|e0] eqn:Ans.
  - destruct (Shopify.productCreate d) as [[prod errs]|] eqn:Ed.
    + cbn [Shopify.pp_userErrors Shopify.pp_product] in R.
      destruct errs as [|u errs].
      * destruct prod as [createdProduct|].
        -- destruct (after_productCreate sv variantInfo createdProduct
                       (l ++ [first])%list) as (ops & E & F).
           rewrite E in R. subst run.
           exists ops. cbn [fst snd].
           split; [now rewrite <- app_assoc|].
           split; [exact F|]. split.
           ++ intros p. split.
              ** intros [= <-]. exists d. split; [reflexivity | exact Ed].
              ** intros (d' & [= <-] & Hd). rewrite Hd in Ed.
                 now injection Ed as <-.
           ++ intros e [=].
        -- subst run. exists []. cbn [fst snd Eff.throw].
           split; [reflexivity|]. split; [apply follow_ups_nil|].
           split; [|reflexivity].
           intros p. split; [intros [=]|].
           intros (d' & [= <-] & Hd). rewrite Hd in Ed. discriminate.
      * subst run. exists []. cbn [fst snd Eff.throw].
        split; [reflexivity|]. split; [apply follow_ups_nil|].
        split; [|reflexivity].
        intros p. split; [intros [=]|].
        intros (d' & [= <-] & Hd). rewrite Hd in Ed. discriminate.
    + subst run. exists []. cbn [fst snd Eff.throw].
      split; [reflexivity|]. split; [apply follow_ups_nil|].
      split; [|reflexivity].
      intros p. split; [intros [=]|].
      intros (d' & [= <-] & Hd). rewrite Hd in Ed. discriminate.
  - subst run. exists []. cbn [fst snd Eff.throw].
    split; [reflexivity|]. split; [apply follow_ups_nil|].
    split; [|reflexivity].
    intros p. split; [intros [=]|]. intros (d' & [=] & _).
  - subst run. exists []. cbn [fst snd].
    split; [reflexivity|]. split; [apply follow_ups_nil|].
    split; [|reflexivity].
    intros p. split; [intros [=]|]. intros (d' & [=] & _).
Qed.

(** X20.  Without a product id updateProduct throws a validation error
    and sends nothing.  With one, its first request is the productUpdate
    mutation and at most two requests follow, none of which is a
    productCreate or a productUpdate mutation; the call returns a
    product exactly when the answer to the first request carries this
    product and no user error, whatever the later publication requests
    answer, and a call that throws has sent the productUpdate mutation
    only. *)
Theorem updated_product_is_returned_whatever_follows :
  forall (sv : Shopify.services) (productId : option string)
         (input : Catalog.productInput)
         (collectionGIDToJoin collectionGIDToLeave : option string)
         (l : list Shopify.operation),
    let run :=
      Shopify.updateProduct sv productId input collectionGIDToJoin
        collectionGIDToLeave l in
    (JS.nonempty_opt productId = None ->
     exists e, run = (Throw e, l) /\ cls e = ValidationError)
    /\ (forall gid,
          JS.nonempty_opt productId = Some gid ->
          let first :=
            Shopify.ProductUpdate gid input
              (Shopify.collectionList collectionGIDToJoin)
              (Shopify.collectionList collectionGIDToLeave) in
          exists rest,
            snd run = (l ++ first :: rest)%list
            /\ Notions.follow_ups 2 rest
            /\ (forall p,
                  fst run = Return p
                  <-> exists d,
                        Shopify.shopifyGraphqlRequest sv l first = Return (Some d)
                        /\ Shopify.productUpdate d
                           = Some {| Shopify.pp_product := Some p;
                                     Shopify.pp_userErrors := [] |})
            /\ (forall e, fst run = Throw e -> rest = [])).
Proof.
  intros sv productId input join leave l run.
  assert (R : run = Shopify.updateProduct sv productId input join leave l)
    by reflexivity.
  clearbody run. unfold Shopify.updateProduct in R.
  split.
  - intros Hnone. rewrite Hnone in R. subst run.
    eexists. split; reflexivity.
  - intros gid Hgid first. rewrite Hgid in R.
    unfold Eff.bind at 1 in R. unfold Shopify.request at 1 in R. fold first in R.
    destruct (Shopify.shopifyGraphqlRequest sv l first) as [[d|]|e0] eqn:Ans.
    + destruct (Shopify.productUpdate d) as [[prod errs]|] eqn:Ed.
      * cbn [Shopify.pp_userErrors Shopify.pp_product] in R.
        destruct errs as [|u errs].
        -- destruct prod as [updatedProduct|].
           ++ destruct (after_productUpdate sv updatedProduct
                          (l ++ [first])%list) as (ops & E & F).
              rewrite E in R. subst run.
              exists ops. cbn [fst snd].
              split; [now rewrite <- app_assoc|].
              split; [exact F|]. split.
              ** intros p. split.
                 --- intros [= <-]. exists d. split; [reflexivity | exact Ed].
                 --- intros (d' & [= <-] & Hd). rewrite Hd in Ed.
                     now injection Ed as <-.
              ** intros e [=].
           ++ subst run. exists []. cbn [fst snd Eff.throw].
              split; [reflexivity|]. split; [apply follow_ups_nil|].
              split; [|reflexivity].
              intros p. split; [intros [=]|].
              intros (d' & [= <-] & Hd). rewrite Hd in Ed. discriminate.
        -- subst run. exists []. cbn [fst snd Eff.throw].
           split; [reflexivity|]. split; [apply follow_ups_nil|].
           split; [|reflexivity].
           intros p. split; [intros [=]|].
           intros (d' & [= <-] & Hd). rewrite Hd in Ed. discriminate.
      * subst run. exists []. cbn [fst snd Eff.throw].
        split; [reflexivity|]. split; [apply follow_ups_nil|].
        split; [|reflexivity].
        intros p. split; [intros [=]|].
        intros (d' & [= <-] & Hd). rewrite Hd in Ed. discriminate.
    + subst run. exists []. cbn [fst snd Eff.throw].
      split; [reflexivity|]. split; [apply follow_ups_nil|].
      split; [|reflexivity].
      intros p. split; [intros [=]|]. intros (d' & [=] & _).
    + subst run. exists []. cbn [fst snd].
      split; [reflexivity|]. split; [apply follow_ups_nil|].
      split; [|reflexivity].
      intros p. split; [intros [=]|]. intros (d' & [=] & _).
Qed.

Section MediaUrls.
Import JS Shopify.

(* replacing the placeholder does not produce a prefix without an 8 *)
Lemma replace_res_keeps_prefix_out (q : string) :
  (forall c, In c (list_ascii_of_string q) -> c <> "8"%char) ->
  forall s,
    String.prefix q s = false ->
    String.prefix q (replace_first s "{res}" "856") = false.
Proof.
  induction q as [|a q IH]; intros Hq s Hs.
  - destruct s; discriminate.
  - destruct s as [|c s].
    + reflexivity.
    + cbn [replace_first].
      destruct (String.prefix "{res}" (String c s)).
      * change ("856" ++ ?x) with (String "8" (String "5" (String "6" x))).
        cbn [String.prefix].
        destruct (ascii_dec a "8") as [->|]; [|reflexivity].
        exfalso. apply (Hq "8"%char); [now left | reflexivity].
      * cbn [String.prefix] in *.
        destruct (ascii_dec a c); [|reflexivity].
        apply IH; [|exact Hs].
        intros c' Hc'. apply Hq. now right.
Qed.

Lemma replace_first_at_prefix (s pat rep : string) :
  String.prefix pat s = true ->
  replace_first s pat rep
  = rep ++ substring (String.length pat) (String.length s - String.length pat) s.
Proof. intros H. destruct s; cbn [replace_first]; now rewrite H. Qed.

Lemma processMediaInput_not_http (media : Sync.mediaInput) :
  startsWith (Sync.originalSource (processMediaInput media)) "http://" = false.
Proof.
  unfold processMediaInput. cbn [Sync.originalSource]. unfold startsWith.
  generalize (Sync.originalSource media) as url. intros url.
  set (url1 := if truthy url && String.prefix "http://" url
               then replace_first url "http://" "https://" else url).
  assert (H1 : String.prefix "http://" url1 = false).
  { subst url1. destruct (String.prefix "http://" url) eqn:Hp.
    - destruct url as [|c url]; [discriminate Hp|].
      change (truthy (String c url)) with true. cbn [andb].
      rewrite replace_first_at_prefix by exact Hp. reflexivity.
    - rewrite andb_false_r. exact Hp. }
  destruct (truthy url1 && includes url1 "{res}"); [|exact H1].
  apply replace_res_keeps_prefix_out; [|exact H1].
  intros c Hc. cbn in Hc.
  intuition (subst; discriminate).
Qed.

End MediaUrls.

(** X21.  Without a product id appendMediaToProduct throws a
    validation error and without media it returns an empty result, in
    both cases without a request.  Otherwise it sends exactly one
    productCreateMedia mutation, with one entry for each media input
    and no source URL left on plain http; media user errors in the
    answer are returned with a warning and not thrown, and whatever the
    call throws is an ExternalServiceError. *)
Theorem media_errors_are_returned_and_failures_are_service_errors :
  forall (sv : Shopify.services) (productId : string)
         (mediaInputs : list Sync.mediaInput) (l : list Shopify.operation),
    let run := Shopify.appendMediaToProduct sv productId mediaInputs l in
    (productId = "" ->
     exists e, run = (Throw e, l) /\ cls e = ValidationError)
    /\ (productId <> "" -> mediaInputs = [] ->
        run = (Return {| Shopify.mediaUserErrors := [];
                         Shopify.media := Some [];
                         Shopify.warning := None |}, l))
    /\ (productId <> "" -> mediaInputs <> [] ->
        exists sent,
          snd run = (l ++ [Shopify.ProductCreateMedia productId sent])%list
          /\ length sent = length mediaInputs
          /\ Forall (fun m =>
                       JS.startsWith (Sync.originalSource m) "http://" = false)
                    sent
          /\ (forall e, fst run = Throw e -> cls e = ExternalServiceError)
          /\ (forall d payload,
                Shopify.shopifyGraphqlRequest sv l
                  (Shopify.ProductCreateMedia productId sent) = Return (Some d) ->
                Shopify.productCreateMedia d = Some payload ->
                exists r,
                  fst run = Return r
                  /\ Shopify.mediaUserErrors r = Shopify.mp_mediaUserErrors payload
                  /\ (Shopify.warning r = None
                      <-> Shopify.mp_mediaUserErrors payload = []))).
Proof.
  intros sv productId mediaInputs l run.
  assert (R : run = Shopify.appendMediaToProduct sv productId mediaInputs l)
    by reflexivity.
  clearbody run. unfold Shopify.appendMediaToProduct in R.
  split; [|split].
  - intros ->. subst run. eexists. split; reflexivity.
  - intros Hid ->. rewrite (proj2 (truthy_true productId) Hid) in R. exact R.
  - intros Hid Hmedia. rewrite (proj2 (truthy_true productId) Hid) in R.
    cbn [negb] in R.
    destruct mediaInputs as [|m0 ms]; [contradiction|].
    set (sent := map Shopify.processMediaInput (m0 :: ms)) in *.
    exists sent.
    unfold Eff.try_catch, Eff.bind, Shopify.request in R.
    split; [|split; [|split; [|split]]].
    + subst run.
      destruct (Shopify.shopifyGraphqlRequest sv l _) as [[d|]|e0];
        [destruct (Shopify.productCreateMedia d) as [payload|];
         [destruct (Shopify.mp_mediaUserErrors payload)|]| |];
        try reflexivity.
      cbn [Eff.throw]. now destruct (cls e0).
    + subst sent. now rewrite length_map.
    + subst sent. apply Forall_forall. intros m Hm.
      apply list_elem_of_In, in_map_iff in Hm.
      destruct Hm as (m' & <- & _). apply processMediaInput_not_http.
    + intros e He. subst run.
      destruct (Shopify.shopifyGraphqlRequest sv l _) as [[d|]|e0];
        [destruct (Shopify.productCreateMedia d) as [payload|];
         [destruct (Shopify.mp_mediaUserErrors payload)|]| |];
        cbn [fst Eff.throw Eff.ret] in He; try discriminate;
        try (injection He as <-; reflexivity).
      destruct (cls e0) eqn:Ec; cbn [fst Eff.throw] in He;
        injection He as <-; (exact Ec || reflexivity).
    + intros d payload Ans Hd. subst run. rewrite Ans, Hd.
      destruct (Shopify.mp_mediaUserErrors payload) as [|u us] eqn:Eu.
      * eexists. split; [reflexivity|]. cbn. split; [reflexivity|]. tauto.
      * eexists. split; [reflexivity|].
        cbn [Shopify.mediaUserErrors Shopify.warning].
        split; [reflexivity|]. split; discriminate.
Qed.

(** The theorem at a store that answers the product mutations and fails
    every other request: the product created is returned. *)
Lemma created_product_is_returned_whatever_follows_witness :
  fst (Shopify.createProduct ShopifyScenario.only_mutations_answer
         ShopifyScenario.input (Some Sync.BUNJANG_COLLECTION_GID)
         (Some ShopifyScenario.variant) [])
  = Return ShopifyScenario.listed.
Proof.
  destruct (created_product_is_returned_whatever_follows
              ShopifyScenario.only_mutations_answer ShopifyScenario.input
              (Some Sync.BUNJANG_COLLECTION_GID) (Some ShopifyScenario.variant) [])
    as (_ & rest & _ & _ & Hret & _).
  apply Hret. eexists. split; reflexivity.
Defined.

(** The same run, computed: the variant and the publication requests
    fail and the product is returned all the same. *)
Example create_at_a_store_that_only_creates :
  Shopify.createProduct ShopifyScenario.only_mutations_answer
    ShopifyScenario.input (Some Sync.BUNJANG_COLLECTION_GID)
    (Some ShopifyScenario.variant) []
  = (Return ShopifyScenario.listed,
     [Shopify.ProductCreate
        (Shopify.baseProductInput ShopifyScenario.input "2024-05-24T00:00:00.000Z")
        (Some [Sync.BUNJANG_COLLECTION_GID]);
      Shopify.GetProductFromVariant "gid://shopify/ProductVariant/1";
      Shopify.Publications]).
Proof. vm_compute. reflexivity. Qed.

(** The theorem without a product id, and at the store that answers the
    productUpdate mutation only. *)
Lemma updated_product_is_returned_whatever_follows_witness :
  (exists e,
     Shopify.updateProduct ShopifyScenario.only_mutations_answer None
       ShopifyScenario.input (Some Sync.BUNJANG_COLLECTION_GID) None []
     = (Throw e, []) /\ cls e = ValidationError)
  /\ fst (Shopify.updateProduct ShopifyScenario.only_mutations_answer
            (Some "gid://shopify/Product/1") ShopifyScenario.input
            (Some Sync.BUNJANG_COLLECTION_GID) None [])
     = Return ShopifyScenario.listed.
Proof.
  split.
  - apply (proj1 (updated_product_is_returned_whatever_follows
                    ShopifyScenario.only_mutations_answer None
                    ShopifyScenario.input (Some Sync.BUNJANG_COLLECTION_GID)
                    None [])).
    reflexivity.
  - destruct (proj2 (updated_product_is_returned_whatever_follows
                       ShopifyScenario.only_mutations_answer
                       (Some "gid://shopify/Product/1") ShopifyScenario.input
                       (Some Sync.BUNJANG_COLLECTION_GID) None [])
                    "gid://shopify/Product/1" eq_refl)
      as (rest & _ & _ & Hret & _).
    apply Hret. eexists. split; reflexivity.
Defined.

(** The theorem without a product id, without media, and for one image
    that the store rejects. *)
Lemma media_errors_are_returned_and_failures_are_service_errors_witness :
  (exists e,
     Shopify.appendMediaToProduct ShopifyScenario.only_mutations_answer ""
       [ShopifyScenario.photo] []
     = (Throw e, []) /\ cls e = ValidationError)
  /\ Shopify.appendMediaToProduct ShopifyScenario.only_mutations_answer
       "gid://shopify/Product/1" [] []
     = (Return {| Shopify.mediaUserErrors := [];
                  Shopify.media := Some [];
                  Shopify.warning := None |}, [])
  /\ exists sent r,
       snd (Shopify.appendMediaToProduct ShopifyScenario.only_mutations_answer
              "gid://shopify/Product/1" [ShopifyScenario.photo] [])
       = [Shopify.ProductCreateMedia "gid://shopify/Product/1" sent]
       /\ length sent = 1%nat
       /\ fst (Shopify.appendMediaToProduct ShopifyScenario.only_mutations_answer
                 "gid://shopify/Product/1" [ShopifyScenario.photo] [])
          = Return r
       /\ Shopify.warning r <> None.
Proof.
  split; [|split].
  - apply (proj1 (media_errors_are_returned_and_failures_are_service_errors
                    ShopifyScenario.only_mutations_answer ""
                    [ShopifyScenario.photo] [])).
    reflexivity.
  - apply (proj1 (proj2 (media_errors_are_returned_and_failures_are_service_errors
                    ShopifyScenario.only_mutations_answer
                    "gid://shopify/Product/1" [] []))).
    + discriminate.
    + reflexivity.
  - destruct (proj2 (proj2 (media_errors_are_returned_and_failures_are_service_errors
                    ShopifyScenario.only_mutations_answer
                    "gid://shopify/Product/1" [ShopifyScenario.photo] [])))
      as (sent & Hlog & Hlen & _ & _ & Hreport).
    + discriminate.
    + discriminate.
    + destruct (Hreport _ ShopifyScenario.rejected_image eq_refl eq_refl)
        as (r & Hr & _ & Hw).
      exists sent, r. repeat split; try assumption.
      intros Hnone. apply Hw in Hnone. discriminate Hnone.
Defined.

(** The image of the sample, as it is sent and as it is reported. *)
Example rejected_image_is_reported :
  Shopify.appendMediaToProduct ShopifyScenario.only_mutations_answer
    "gid://shopify/Product/1" [ShopifyScenario.photo] []
  = (Return {| Shopify.mediaUserErrors :=
                 Shopify.mp_mediaUserErrors ShopifyScenario.rejected_image;
               Shopify.media := Some [];
               Shopify.warning := Some "1 images failed validation. This is common with Bunjang image URLs due to regional server restrictions." |},
     [Shopify.ProductCreateMedia "gid://shopify/Product/1"
        [{| Sync.originalSource :=
              "https://media.bunjang.co.kr/product/555_1_856.jpg";
            Sync.mediaContentType := "IMAGE";
            Sync.alt := "Photocard set" |}]]).
Proof. vm_compute. reflexivity. Qed.

